(** * Salsabil recruitment backend: verification codes, generated documents
      and the two-phase application workflow.

    Shallow embedding of [pdf_generator.py], [models.py] (workflow functions)
    and the [document_verifications] schema of [database.py].

    Conventions.
    - A Python [str] that only travels through the program is a [string]
      (its UTF-8 bytes).  Where the code inspects characters by Unicode class
      (the [re] patterns of the filename helpers) a [str] is a list of code
      points.
    - A Python [int] is a [Z]; SQL [NULL] and Python [None] are [PyNone].
    - A [sqlite3.Row] and the [dict] built from it are [gmap string pyval];
      the [applications] table is a [gmap Z] of rows, keyed by [id].
    - Clock readings, entropy, the file system, the process environment,
      ReportLab's paragraph parser, image loader and page layout, and the
      text of the errors of the libraries are inputs, gathered in [Env].
    - The text of a paragraph is the source's literal with each line break,
      and the indentation around it, written as one space; ReportLab collapses
      white space in the same way before it parses the text.
    - Lengths on the page are in millimetres (the source writes [k*cm]). *)

From Stdlib Require Import ZArith NArith Ascii String List Lia.
From stdpp Require Import base option strings list gmap pretty.

Open Scope string_scope.
Open Scope list_scope.

(** ** Characters and strings *)

Definition chars (s : string) : list ascii := list_ascii_of_string s.
Definition code (c : ascii) : N := N_of_ascii c.

(** [str.encode()]: the bytes of a string. *)
Definition encode (s : string) : list N := map code (chars s).

(** [str.upper()] on ASCII text. *)
Definition upper_char (c : ascii) : ascii :=
  if ((97 <=? code c) && (code c <=? 122))%N then ascii_of_N (code c - 32) else c.

Fixpoint upper (s : string) : string :=
  match s with
  | EmptyString => EmptyString
  | String c s' => String (upper_char c) (upper s')
  end.

(** [s[:n]] *)
Fixpoint prefix (n : nat) (s : string) : string :=
  match n, s with
  | S n', String c s' => String c (prefix n' s')
  | _, _ => EmptyString
  end.

(** [s.zfill(w)] for a string of digits. *)
Definition zfill (w : nat) (s : string) : string :=
  string_of_list_ascii (repeat "0"%char (w - String.length s)) +:+ s.

Definition is_digit (c : ascii) : bool := ((48 <=? code c) && (code c <=? 57))%N.
Definition is_upper_letter (c : ascii) : bool := ((65 <=? code c) && (code c <=? 90))%N.
Definition is_lower_letter (c : ascii) : bool := ((97 <=? code c) && (code c <=? 122))%N.

(** The class [[A-Z0-9]]. *)
Definition is_upper_alnum (c : ascii) : bool := is_upper_letter c || is_digit c.

(** The class [[0-9a-f]]. *)
Definition is_lower_hex (c : ascii) : bool :=
  is_digit c || ((97 <=? code c) && (code c <=? 102))%N.

(** ** [datetime] *)

Record datetime := {
  year : N; month : N; day : N;
  hour : N; minute : N; second : N; microsecond : N
}.

(** The values [datetime.now()] can return. *)
Definition valid_datetime (t : datetime) : Prop :=
  (1000 ≤ year t ≤ 9999 ∧ 1 ≤ month t ≤ 12 ∧ 1 ≤ day t ≤ 31 ∧
   hour t < 24 ∧ minute t < 60 ∧ second t < 60 ∧ microsecond t < 1000000)%N.

Definition pad (w : nat) (n : N) : string := zfill w (pretty n).

(** The directive [%Y] of [strftime]: the C library prints the year in
    decimal and does not pad it, so a year below 1000 has fewer than four
    digits ([isoformat] pads, see below). *)
Definition strftime_Y (t : datetime) : string := pretty (year t).

(** [strftime('%Y%m%d')] *)
Definition strftime_Ymd (t : datetime) : string :=
  strftime_Y t +:+ pad 2 (month t) +:+ pad 2 (day t).

(** [strftime('%Y%m%d_%H%M%S')] *)
Definition strftime_Ymd_HMS (t : datetime) : string :=
  strftime_Ymd t +:+ "_" +:+ pad 2 (hour t) +:+ pad 2 (minute t) +:+ pad 2 (second t).

(** [strftime('%Y-%m-%d %H:%M:%S')] *)
Definition strftime_sql (t : datetime) : string :=
  strftime_Y t +:+ "-" +:+ pad 2 (month t) +:+ "-" +:+ pad 2 (day t) +:+ " " +:+
  pad 2 (hour t) +:+ ":" +:+ pad 2 (minute t) +:+ ":" +:+ pad 2 (second t).

(** [strftime('%d/%m/%Y')] *)
Definition strftime_dmY (t : datetime) : string :=
  pad 2 (day t) +:+ "/" +:+ pad 2 (month t) +:+ "/" +:+ strftime_Y t.

(** [strftime('%H:%M')] *)
Definition strftime_HM (t : datetime) : string :=
  pad 2 (hour t) +:+ ":" +:+ pad 2 (minute t).

(** Leap years and the weekday of a date ([date.weekday()], Monday is 0). *)
Definition is_leap (y : N) : bool :=
  ((y mod 4 =? 0) && (negb (y mod 100 =? 0) || (y mod 400 =? 0)))%N.

Definition days_before_month (y m : N) : N :=
  (nth (N.to_nat (m - 1)) [0; 31; 59; 90; 120; 151; 181; 212; 243; 273; 304; 334] 0
   + (if (2 <? m) && is_leap y then 1 else 0))%N.

Definition toordinal (t : datetime) : N :=
  (let y := year t - 1 in
   y * 365 + y / 4 - y / 100 + y / 400 + days_before_month (year t) (month t) + day t)%N.

Definition weekday (t : datetime) : N := ((toordinal t + 6) mod 7)%N.

Definition day_name (t : datetime) : string :=
  nth (N.to_nat (weekday t))
      ["Monday"; "Tuesday"; "Wednesday"; "Thursday"; "Friday"; "Saturday"; "Sunday"] "".

Definition month_name (t : datetime) : string :=
  nth (N.to_nat (month t - 1))
      ["January"; "February"; "March"; "April"; "May"; "June"; "July"; "August";
       "September"; "October"; "November"; "December"] "".

(** [strftime('%A %d %B %Y à %H:%M')] in the C locale *)
Definition strftime_long (t : datetime) : string :=
  day_name t +:+ " " +:+ pad 2 (day t) +:+ " " +:+ month_name t +:+ " " +:+
  strftime_Y t +:+ " à " +:+ strftime_HM t.

(** [isoformat()]: the year is padded to four digits; the microseconds are
    printed only when they are not 0. *)
Definition isoformat (t : datetime) : string :=
  pad 4 (year t) +:+ "-" +:+ pad 2 (month t) +:+ "-" +:+ pad 2 (day t) +:+ "T" +:+
  pad 2 (hour t) +:+ ":" +:+ pad 2 (minute t) +:+ ":" +:+ pad 2 (second t) +:+
  (if (microsecond t =? 0)%N then "" else "." +:+ pad 6 (microsecond t)).

(** ** SHA-256 ([hashlib.sha256]) on 32-bit words held in [N] *)

Module SHA256.

Definition mask32 : N := 0xFFFFFFFF.
Definition w32 (x : N) : N := N.land x mask32.
Definition add32 (a b : N) : N := w32 (a + b).
Definition not32 (x : N) : N := N.lxor (w32 x) mask32.
Definition rotr (n x : N) : N := N.lor (N.shiftr x n) (w32 (N.shiftl x (32 - n))).
Definition shr (n x : N) : N := N.shiftr x n.

Definition Ch (x y z : N) : N := N.lxor (N.land x y) (N.land (not32 x) z).
Definition Maj (x y z : N) : N :=
  N.lxor (N.lxor (N.land x y) (N.land x z)) (N.land y z).
Definition Sigma0 (x : N) : N := N.lxor (N.lxor (rotr 2 x) (rotr 13 x)) (rotr 22 x).
Definition Sigma1 (x : N) : N := N.lxor (N.lxor (rotr 6 x) (rotr 11 x)) (rotr 25 x).
Definition sigma0 (x : N) : N := N.lxor (N.lxor (rotr 7 x) (rotr 18 x)) (shr 3 x).
Definition sigma1 (x : N) : N := N.lxor (N.lxor (rotr 17 x) (rotr 19 x)) (shr 10 x).

(** The constants of the standard are fractional parts of roots of the
    first primes, on 32 bits. *)
Definition is_prime (n : nat) : bool :=
  (1 <? n)%nat && forallb (λ d, negb (n mod d =? 0)%nat) (seq 2 (n - 2)).

Definition primes (k : nat) : list N :=
  map N.of_nat (take k (List.filter is_prime (seq 2 310))).

(** Integer cube root, one bit at a time from bit [bits - 1] down. *)
Fixpoint icbrt_from (bits : nat) (x r : N) : N :=
  match bits with
  | O => r
  | S b =>
      let r' := N.lor r (N.shiftl 1 (N.of_nat b)) in
      if (r' * r' * r' <=? x)%N then icbrt_from b x r' else icbrt_from b x r
  end.

Definition cbrt_fraction (p : N) : N := w32 (icbrt_from 40 (p * 2 ^ 96) 0).
Definition sqrt_fraction (p : N) : N := w32 (N.sqrt (p * 2 ^ 64)).

(** The 64 round constants: cube roots of the first 64 primes. *)
Definition K : list N := map cbrt_fraction (primes 64).

(** The eight working registers, also the chaining value. *)
Record regs := Regs { ra : N; rb : N; rc : N; rd : N; re : N; rf : N; rg : N; rh : N }.

(** The initial chaining value: square roots of the first 8 primes. *)
Definition H0 : regs :=
  match map sqrt_fraction (primes 8) with
  | [a; b; c; d; e; f; g; h] => Regs a b c d e f g h
  | _ => Regs 0 0 0 0 0 0 0 0
  end.

(** Big-endian bytes of a number, [n] of them. *)
Fixpoint be_bytes (n : nat) (x : N) : list N :=
  match n with
  | O => []
  | S n' => N.land (N.shiftr x (8 * N.of_nat n')) 0xFF :: be_bytes n' x
  end.

Definition word_of_bytes (bs : list N) : N :=
  fold_left (λ acc b, N.lor (N.shiftl acc 8) b) bs 0%N.

(** Message padding: a 1 bit, zeros, and the bit length on 64 bits. *)
Definition padding (len : nat) : list N :=
  let zeros := (64 - (len + 9) mod 64) mod 64 in
  0x80%N :: repeat 0%N zeros ++ be_bytes 8 (8 * N.of_nat len).

Fixpoint chunks (fuel : nat) (k : nat) (l : list N) : list (list N) :=
  match fuel with
  | O => []
  | S fuel' =>
      match l with
      | [] => []
      | _ => take k l :: chunks fuel' k (drop k l)
      end
  end.

(** The 64-word message schedule; [w] is kept newest first. *)
Fixpoint extend (n : nat) (w : list N) : list N :=
  match n with
  | O => w
  | S n' =>
      let x := add32 (add32 (sigma1 (nth 1 w 0%N)) (nth 6 w 0%N))
                     (add32 (sigma0 (nth 14 w 0%N)) (nth 15 w 0%N)) in
      extend n' (x :: w)
  end.

Definition schedule (block : list N) : list N :=
  rev (extend 48 (rev (map word_of_bytes (chunks 16 4 block)))).

Definition round (s : regs) (kw : N * N) : regs :=
  let '(k, w) := kw in
  let t1 := add32 (add32 (add32 (rh s) (Sigma1 (re s))) (add32 (Ch (re s) (rf s) (rg s)) k)) w in
  let t2 := add32 (Sigma0 (ra s)) (Maj (ra s) (rb s) (rc s)) in
  Regs (add32 t1 t2) (ra s) (rb s) (rc s) (add32 (rd s) t1) (re s) (rf s) (rg s).

Definition compress (h : regs) (block : list N) : regs :=
  let s := fold_left round (combine K (schedule block)) h in
  Regs (add32 (ra h) (ra s)) (add32 (rb h) (rb s)) (add32 (rc h) (rc s)) (add32 (rd h) (rd s))
       (add32 (re h) (re s)) (add32 (rf h) (rf s)) (add32 (rg h) (rg s)) (add32 (rh h) (rh s)).

Definition regs_bytes (h : regs) : list N :=
  be_bytes 4 (ra h) ++ be_bytes 4 (rb h) ++ be_bytes 4 (rc h) ++ be_bytes 4 (rd h) ++
  be_bytes 4 (re h) ++ be_bytes 4 (rf h) ++ be_bytes 4 (rg h) ++ be_bytes 4 (rh h).

(** [hashlib.sha256(msg).digest()] *)
Definition digest (msg : list N) : list N :=
  let padded := msg ++ padding (length msg) in
  regs_bytes (fold_left compress (chunks (length padded) 64 padded) H0).

End SHA256.

(** ** Hexadecimal text *)

Definition hex_digit (n : N) : ascii :=
  match n with
  | 0 => "0" | 1 => "1" | 2 => "2" | 3 => "3" | 4 => "4" | 5 => "5" | 6 => "6" | 7 => "7"
  | 8 => "8" | 9 => "9" | 10 => "a" | 11 => "b" | 12 => "c" | 13 => "d" | 14 => "e" | _ => "f"
  end%char%N.

(** [bytes.hex()] *)
Fixpoint hex (bs : list N) : string :=
  match bs with
  | [] => EmptyString
  | b :: bs' =>
      String (hex_digit (N.land (N.shiftr b 4) 0xF)) (String (hex_digit (N.land b 0xF)) (hex bs'))
  end.

(** [hashlib.sha256(data).hexdigest()] *)
Definition sha256_hexdigest (data : list N) : string := hex (SHA256.digest data).

(** ** [generate_verification_code], its pure core

    [verification_code_of] is the body of the function once the clock reading
    ([timestamp]) and the salt ([random_salt]) have been drawn. *)
Definition verification_code_of
    (application_id : Z) (document_type timestamp random_salt : string) : string :=
  let data := pretty application_id +:+ "-" +:+ document_type +:+ "-" +:+
              timestamp +:+ "-" +:+ random_salt in
  let verification_hash := sha256_hexdigest (encode data) in
  upper (prefix 16 verification_hash).

(** ** Python values, rows and dictionaries *)

Inductive pyval :=
| PyNone
| PyStr (s : string)
| PyInt (z : Z).

Global Instance pyval_eq_dec : EqDecision pyval.
Proof. solve_decision. Defined.

(** Formatting inside an f-string ([str(v)]). *)
Definition fmt (v : pyval) : string :=
  match v with
  | PyNone => "None"
  | PyStr s => s
  | PyInt z => pretty z
  end.

(** [type(v).__name__] *)
Definition type_name (v : pyval) : string :=
  match v with
  | PyNone => "NoneType"
  | PyStr _ => "str"
  | PyInt _ => "int"
  end.

(** Truth value of an object ([if v:], [v or w]). *)
Definition truthy (v : pyval) : bool :=
  match v with
  | PyNone => false
  | PyStr s => negb (String.eqb s "")
  | PyInt z => negb (z =? 0)%Z
  end.

(** [if verification_code:] for an optional string argument. *)
Definition supplied (c : option string) : option string :=
  match c with
  | Some s => if String.eqb s "" then None else Some s
  | None => None
  end.

(** [d.get(k, default)] *)
Definition dict_get (d : gmap string pyval) (k : string) (dflt : pyval) : pyval :=
  default dflt (d !! k).

(** ** The generated document *)

Inductive Flowable :=
| Paragraph (text : string) (style : string)
| Spacer (height : Z)
| Image (path : string) (width height : Z)
| Table (rows : list (list string)).

(** [create_qr_code(url)]: the PNG of a QR code (version 1 grown to fit,
    error correction H, box size 10, border 4) that encodes [url]. *)
Inductive image := QRCode (data : string).

Inductive CanvasOp :=
| SaveState
| RestoreState
| DrawImage (img : image) (x y width height : Z)
| SetFont (name : string) (size : Z)
| SetFillColor (hex_colour : string)
| DrawCentredString (x y : Z) (text : string).

Record Page := { content : list Flowable; canvas : list CanvasOp }.

(** What [doc.build] writes: the first page, decorated by [onFirstPage], and
    the later pages, each decorated by [onLaterPages]. *)
Record Document := { first_page : Page; later_pages : list Page }.

Definition pages (d : Document) : list Page := first_page d :: later_pages d.

(** A4 in millimetres. *)
Definition A4 : Z * Z := (210, 297)%Z.

(** ** Exceptions, the environment, the state *)

(** The exceptions.  [KeyError] and [AttributeError] are raised by the
    interpreter and their text is known.  [ValueError] is what ReportLab's
    paragraph parser raises, [OSError] what the operating system and the image
    loader raise, [BuildError] stands for whatever [doc.build] raises: their
    text ([str(e)]) is the library's and is carried by the exception. *)
Inductive exn :=
| KeyError (key : string)
| AttributeError (type_name attr : string)
| ValueError (message : string)
| OSError (message : string)
| BuildError (message : string)
| GenerationError (constraint : string).

(** [str(e)] *)
Definition exn_message (e : exn) : string :=
  match e with
  | KeyError k => "'" +:+ k +:+ "'"
  | AttributeError t a => "'" +:+ t +:+ "' object has no attribute '" +:+ a +:+ "'"
  | ValueError m => m
  | OSError m => m
  | BuildError m => m
  | GenerationError c => "UNIQUE constraint failed: " +:+ c
  end.

(** A library call that can fail; the environment gives the text of its
    error. *)
Inductive failure :=
| OpenImage (path : string)
| MakeDirs (path : string)
| ParseMarkup (text : string)
| BuildDocument (path : string).

Inductive LogLine :=
| Printed (s : string)
| Traceback (e : exn).

(** A row of [document_verifications] (schema of [init_db]). *)
Record VerificationRecord := {
  vr_id : Z;
  verification_code : string;
  vr_application_id : Z;
  document_type : string;
  candidate_name : string;
  vr_job_title : string;
  issue_date : string;
  pdf_path : option string;
  vr_status : string;
  created_at : string
}.

Record Env := {
  (** the [k]-th reading of [datetime.now()] *)
  clock : nat → datetime;
  (** byte [i] of the [k]-th draw of the system's entropy source *)
  random_byte : nat → nat → N;
  (** [os.environ] *)
  environ : gmap string string;
  (** [os.path.exists] *)
  path_exists : string → bool;
  (** whether the logo file can be opened for reading: [Image(...)] opens a
      [.jpeg] file when it is constructed and raises if it cannot *)
  logo_opens : bool;
  (** whether the logo file holds an image: a file that opens and is not a
      JPEG is loaded only when it is drawn, during [doc.build] *)
  logo_is_image : bool;
  (** whether ReportLab's paragraph parser accepts a text as markup *)
  markup_ok : string → bool;
  (** [str(e)] of the error a failing library call raises *)
  error_text : failure → string;
  (** whether [os.makedirs(_, exist_ok=True)] succeeds *)
  makedirs_ok : string → bool;
  (** [datetime.strptime(_, '%Y-%m-%dT%H:%M')], [None] for [ValueError] *)
  strptime : string → option datetime;
  (** ReportLab's pagination: the flowables of the first page and of each
      later page *)
  layout : list Flowable → list Flowable * list (list Flowable);
  (** whether [doc.build] manages to typeset and write the file *)
  build_ok : string → list Flowable → bool
}.

Record State := {
  (** table [applications], as committed *)
  db : gmap Z (gmap string pyval);
  (** table [applications], as the open connection sees it *)
  conn : gmap Z (gmap string pyval);
  (** table [document_verifications] and its AUTOINCREMENT counter *)
  verifications : list VerificationRecord;
  verifications_seq : Z;
  (** the files written by the generator *)
  files : gmap string Document;
  (** standard output and error *)
  stdout : list LogLine;
  (** clock readings and entropy draws so far *)
  ticks : nat;
  draws : nat
}.

Definition set_db (v : gmap Z (gmap string pyval)) (s : State) : State :=
  {| db := v; conn := conn s; verifications := verifications s;
     verifications_seq := verifications_seq s; files := files s;
     stdout := stdout s; ticks := ticks s; draws := draws s |}.
Definition set_conn (v : gmap Z (gmap string pyval)) (s : State) : State :=
  {| db := db s; conn := v; verifications := verifications s;
     verifications_seq := verifications_seq s; files := files s;
     stdout := stdout s; ticks := ticks s; draws := draws s |}.
Definition set_verifications (v : list VerificationRecord) (n : Z) (s : State) : State :=
  {| db := db s; conn := conn s; verifications := v;
     verifications_seq := n; files := files s;
     stdout := stdout s; ticks := ticks s; draws := draws s |}.
Definition set_files (v : gmap string Document) (s : State) : State :=
  {| db := db s; conn := conn s; verifications := verifications s;
     verifications_seq := verifications_seq s; files := v;
     stdout := stdout s; ticks := ticks s; draws := draws s |}.
Definition set_stdout (v : list LogLine) (s : State) : State :=
  {| db := db s; conn := conn s; verifications := verifications s;
     verifications_seq := verifications_seq s; files := files s;
     stdout := v; ticks := ticks s; draws := draws s |}.
Definition set_ticks (v : nat) (s : State) : State :=
  {| db := db s; conn := conn s; verifications := verifications s;
     verifications_seq := verifications_seq s; files := files s;
     stdout := stdout s; ticks := v; draws := draws s |}.
Definition set_draws (v : nat) (s : State) : State :=
  {| db := db s; conn := conn s; verifications := verifications s;
     verifications_seq := verifications_seq s; files := files s;
     stdout := stdout s; ticks := ticks s; draws := v |}.

(** ** The monad of the effectful functions: state that survives a raise *)

Definition M (A : Type) : Type := State → (exn + A) * State.

Global Instance M_ret : MRet M := λ A a st, (inr a, st).
Global Instance M_bind : MBind M := λ A B f m st,
  match m st with
  | (inl e, st') => (inl e, st')
  | (inr a, st') => f a st'
  end.

Definition raise {A} (e : exn) : M A := λ st, (inl e, st).

(** [try: body  except Exception as e: handler(e)] *)
Definition try_except {A} (body : M A) (handler : exn → M A) : M A := λ st,
  match body st with
  | (inl e, st') => handler e st'
  | (inr a, st') => (inr a, st')
  end.

Definition modify (f : State → State) : M unit := λ st, (inr tt, f st).
Definition gets {A} (f : State → A) : M A := λ st, (inr (f st), st).

(** [datetime.now()] *)
Definition datetime_now (env : Env) : M datetime := λ st,
  (inr (clock env (ticks st)), set_ticks (S (ticks st)) st).

(** [secrets.token_hex(n)] *)
Definition token_hex (env : Env) (n : nat) : M string := λ st,
  (inr (hex (map (λ i, N.land (random_byte env (draws st) i) 0xFF) (seq 0 n))),
   set_draws (S (draws st)) st).

(** [print(s)] and [traceback.print_exc()] *)
Definition print (s : string) : M unit :=
  modify (λ st, set_stdout (stdout st ++ [Printed s]) st).
Definition print_exc (e : exn) : M unit :=
  modify (λ st, set_stdout (stdout st ++ [Traceback e]) st).

(** [d[k]] *)
Definition getitem (d : gmap string pyval) (k : string) : M pyval :=
  match d !! k with
  | Some v => mret v
  | None => raise (KeyError k)
  end.

(** [generate_verification_code(application_id, document_type)] *)
Definition generate_verification_code (env : Env)
    (application_id : Z) (document_type : string) : M string :=
  now ← datetime_now env;
  let timestamp := isoformat now in
  random_salt ← token_hex env 16;
  mret (verification_code_of application_id document_type timestamp random_salt).

(** ** [pdf_generator.py]: the two renderers *)

(** The page decoration shared by both renderers (the inner function
    [add_qr_and_code]): the operations drawn on one page. *)
Definition add_qr_and_code (verification_code : option string) (base_url : string)
    : list CanvasOp :=
  match supplied verification_code with
  | Some c =>
      let verification_url := base_url +:+ "/verify/" +:+ c in
      let qr_img := QRCode verification_url in
      let code_text := "Code de vérification : " +:+ c in
      [ SaveState;
        DrawImage qr_img 12 (A4.2 - 40) 30 30;
        RestoreState;
        SaveState;
        SetFont "Helvetica-Bold" 12;
        SetFillColor "#2c3e50";
        DrawCentredString (A4.1 `div` 2) 17 code_text;
        RestoreState ]
  | None => []
  end.

(** [doc.build(elements, onFirstPage=f, onLaterPages=f)] on the template
    opened at [output_path]. *)
Definition document_of (env : Env) (elements : list Flowable) (on_page : list CanvasOp)
    : Document :=
  let '(first, later) := layout env elements in
  {| first_page := {| content := first; canvas := on_page |};
     later_pages := map (λ fl, {| content := fl; canvas := on_page |}) later |}.

(** Whether every image of the story can be loaded when it is drawn. *)
Definition images_load (env : Env) (elements : list Flowable) : bool :=
  forallb (λ f, match f with Image _ _ _ => logo_is_image env | _ => true end) elements.

(** Whether [doc.build] succeeds on a story: its images load and the rest
    is typeset and written. *)
Definition builds (env : Env) (output_path : string) (elements : list Flowable) : bool :=
  images_load env elements && build_ok env output_path elements.

Definition build (env : Env) (output_path : string) (elements : list Flowable)
    (on_page : list CanvasOp) : M unit :=
  if builds env output_path elements then
    modify (λ st, set_files (<[output_path := document_of env elements on_page]> (files st)) st)
  else raise (BuildError (error_text env (BuildDocument output_path))).

(** [Paragraph(text, style)] for a text that holds values of the
    application: ReportLab parses the text as markup when the flowable is
    constructed and raises [ValueError] if it is malformed.  The fixed texts
    of the two letters and the dates are well-formed and are built with the
    constructor. *)
Definition paragraph (env : Env) (text style : string) : M Flowable :=
  if markup_ok env text then mret (Paragraph text style)
  else raise (ValueError (error_text env (ParseMarkup text))).

Definition logo_path : string := "static/img/logo.jpeg".

Definition text_header : list Flowable :=
  [ Paragraph "SALSABIL" "CustomTitle";
    Paragraph "Entreprise de Recrutement" "CustomSubtitle";
    Spacer 3 ].

(** [Image(logo_path, ...)]: the file is opened when the flowable is
    constructed; whether it is an image is found out by [doc.build]. *)
Definition open_logo (env : Env) (width height : Z) : M Flowable :=
  if logo_opens env then mret (Image logo_path width height)
  else raise (OSError (error_text env (OpenImage logo_path))).

(** Header of the invitation: the logo, or the text when the file is absent
    or cannot be opened (the error is printed and swallowed). *)
Definition invitation_header (env : Env) : M (list Flowable) :=
  if path_exists env logo_path then
    try_except
      (logo ← open_logo env 40 40;
       mret [logo; Spacer 3])
      (λ e,
         print ("Erreur lors du chargement du logo: " +:+ exn_message e);;
         mret text_header)
  else mret text_header.

(** The [.replace] calls on [formatted_date]: they need a [str].  The value
    they compute is not read afterwards. *)
Definition replace_names (formatted_date : pyval) : M unit :=
  match formatted_date with
  | PyStr _ => mret tt
  | _ => raise (AttributeError (type_name formatted_date) "replace")
  end.

Definition convocation_text : string :=
  "Nous souhaitons vous rencontrer afin d'échanger sur votre parcours, vos compétences et vos motivations. Nous vous prions de bien vouloir vous présenter à notre siège aux date et heure suivantes :".

Definition instructions_text : string :=
  "• <b>Merci de vous présenter 10 minutes avant l'heure prévue.</b><br/> • <b>Ce document est obligatoire pour accéder à nos locaux.</b> Veuillez le présenter à l'accueil.<br/> • Veuillez vous munir d'une <b>pièce d'identité en cours de validité</b>.<br/> • En cas d'empêchement, merci de nous prévenir <b>au moins 24 heures à l'avance</b>.".

(** The texts of the invitation that hold values of the application. *)
Definition invitation_recipient (prenom nom email telephone adresse : pyval) : string :=
  "<b>À l'attention de :</b><br/> <b>" +:+ fmt prenom +:+ " " +:+ fmt nom +:+ "</b><br/> " +:+
  fmt email +:+ "<br/> " +:+ fmt telephone +:+ "<br/> " +:+ fmt adresse.

Definition invitation_salutation (nom : pyval) : string :=
  "Madame, Monsieur " +:+ fmt nom +:+ ",".

Definition invitation_intro (job_title_display : pyval) : string :=
  "Suite à votre candidature pour le poste de <b>" +:+ fmt job_title_display +:+
  "</b>, nous avons le plaisir de vous informer que votre profil a retenu notre attention.".

Definition invitation_reference (id : pyval) (now : datetime) : string :=
  "Référence : CONV-" +:+ fmt id +:+ "-" +:+ strftime_Ymd now.

(** [generate_interview_invitation_pdf] *)
Definition generate_interview_invitation_pdf (env : Env)
    (application_data : gmap string pyval) (interview_date : pyval)
    (output_path : string) (verification_code : option string) (base_url : string)
    : M string :=
  now ← datetime_now env;
  let emission_date := strftime_dmY now in
  let elements := [Paragraph ("Émis le " +:+ emission_date) "DateStyle"; Spacer 5] in
  header ← invitation_header env;
  let elements := elements ++ header in
  let elements := elements ++ [Paragraph "CONVOCATION À UN ENTRETIEN" "CustomTitle"; Spacer 3] in
  (* recipient *)
  prenom ← getitem application_data "prenom";
  nom ← getitem application_data "nom";
  email ← getitem application_data "email";
  telephone ← getitem application_data "telephone";
  adresse ← getitem application_data "adresse";
  let recipient := invitation_recipient prenom nom email telephone adresse in
  recipient_par ← paragraph env recipient "CustomBody";
  let elements := elements ++ [recipient_par; Spacer 2] in
  (* salutation *)
  nom' ← getitem application_data "nom";
  let salutation := invitation_salutation nom' in
  salutation_par ← paragraph env salutation "CustomBody";
  let elements := elements ++ [salutation_par; Spacer 2] in
  (* application_data.get('selected_job_title') or application_data['job_title'] *)
  job_title_display ←
    (let selected := dict_get application_data "selected_job_title" PyNone in
     if truthy selected then mret selected else getitem application_data "job_title");
  let intro := invitation_intro job_title_display in
  intro_par ← paragraph env intro "CustomBody";
  let elements := elements ++ [intro_par; Spacer 2] in
  let elements := elements ++ [Paragraph convocation_text "CustomBody"; Spacer 2] in
  (* try: strptime ... except: fall back to the raw value *)
  let '(formatted_date, formatted_day, formatted_time) :=
    match interview_date with
    | PyStr s =>
        match strptime env s with
        | Some interview_dt =>
            (PyStr (strftime_long interview_dt),
             PyStr (strftime_dmY interview_dt), strftime_HM interview_dt)
        | None => (interview_date, interview_date, "À confirmer")
        end
    | _ => (interview_date, interview_date, "À confirmer")
    end in
  replace_names formatted_date;;
  let interview_info :=
    [ ["📅 Date"; fmt formatted_day];
      ["🕐 Heure"; formatted_time];
      ["📍 Lieu"; "Siège de SALSABIL"];
      ["💼 Poste"; fmt job_title_display] ] in
  let elements := elements ++ [Table interview_info; Spacer 2] in
  let elements := elements ++ [Paragraph "<b>⚠️ IMPORTANT :</b>" "CustomInfo"; Spacer 1] in
  let elements := elements ++ [Paragraph instructions_text "CustomBody"; Spacer 3] in
  (* footer reference *)
  id ← getitem application_data "id";
  now' ← datetime_now env;
  let reference := invitation_reference id now' in
  reference_par ← paragraph env reference "Footer";
  let elements := elements ++ [Spacer 3; reference_par] in
  build env output_path elements (add_qr_and_code verification_code base_url);;
  mret output_path.

Definition dq : string := String (ascii_of_nat 34) EmptyString.

Definition para2_text : string :=
  "Après avoir examiné attentivement votre dossier et suite à l'entretien que vous avez passé, nous avons été convaincus par vos compétences, votre motivation et votre professionnalisme. Vous avez démontré toutes les qualités requises pour réussir dans ce poste.".

Definition para3_text : string :=
  "Nous vous invitons à prendre contact avec notre service des ressources humaines dans les <b>7 jours ouvrables</b> suivant la réception de cette lettre afin de finaliser les formalités administratives et convenir de votre date de prise de fonction.".

Definition para4_text : string :=
  "Nous sommes ravis de vous accueillir au sein de notre équipe et nous sommes convaincus que votre arrivée contribuera grandement au développement et au succès de SALSABIL.".

Definition closing_text : string :=
  "Dans l'attente de vous rencontrer très prochainement, nous vous prions d'agréer, Madame, Monsieur, l'expression de nos salutations distinguées.".

Definition contact_data : list (list string) :=
  [ ["📞 Téléphone"; "+253 XXX XXX XXX"];
    ["📧 Email"; "rh@salsabil.dj"];
    ["📍 Adresse"; "SALSABIL, Djibouti"] ].

(** Header of the acceptance letter: the logo when the file exists; an
    error in opening it is not caught here. *)
Definition acceptance_header (env : Env) : M (list Flowable) :=
  if path_exists env logo_path then
    logo ← open_logo env 30 30;
    mret [logo; Spacer 5]
  else mret [].

(** The texts of the acceptance letter that hold values of the application.
    In the recipient block every field is read with [.get] and a default. *)
Definition acceptance_recipient (application_data : gmap string pyval) : string :=
  "<b>À l'attention de :</b><br/> " +:+
  fmt (dict_get application_data "prenom" (PyStr "")) +:+ " " +:+
  fmt (dict_get application_data "nom" (PyStr "")) +:+ "<br/> " +:+
  fmt (dict_get application_data "adresse" (PyStr "Djibouti")) +:+ "<br/> Email : " +:+
  fmt (dict_get application_data "email" (PyStr "")) +:+ "<br/> Tél : " +:+
  fmt (dict_get application_data "telephone" (PyStr "")).

Definition acceptance_object (job_title : pyval) : string :=
  "<b>Objet : Acceptation de votre candidature - " +:+ fmt job_title +:+ "</b>".

Definition acceptance_salutation (application_data : gmap string pyval) : string :=
  "Madame, Monsieur " +:+ fmt (dict_get application_data "nom" (PyStr "")) +:+ ",".

Definition acceptance_para1 (job_title : pyval) : string :=
  "C'est avec un immense plaisir que nous vous informons que votre candidature pour le poste de <b>" +:+
  fmt job_title +:+ "</b> au sein de SALSABIL a été <b style=" +:+ dq +:+ "color: #27ae60;" +:+ dq +:+
  ">retenue</b>.".

Definition acceptance_reference (id : pyval) (now : datetime) : string :=
  "Référence : ACCEPT-" +:+ fmt id +:+ "-" +:+ strftime_Ymd now.

(** [generate_acceptance_letter_pdf] *)
Definition generate_acceptance_letter_pdf (env : Env)
    (application_data : gmap string pyval)
    (output_path : string) (verification_code : option string) (base_url : string)
    : M string :=
  header ← acceptance_header env;
  let elements := header in
  let elements := elements ++ [Paragraph "🎉 LETTRE D'ACCEPTATION 🎉" "CustomTitle"; Spacer 3] in
  let elements := elements ++
    [Paragraph "Bienvenue dans l'équipe SALSABIL !" "Subtitle"; Spacer 10] in
  now ← datetime_now env;
  let current_date := strftime_dmY now in
  let date_text := "Djibouti, le " +:+ current_date in
  let elements := elements ++ [Paragraph date_text "DateStyle"; Spacer 10] in
  let recipient := acceptance_recipient application_data in
  recipient_par ← paragraph env recipient "Recipient";
  let elements := elements ++ [recipient_par; Spacer 10] in
  let job_title := dict_get application_data "job_title" (PyStr "le poste proposé") in
  object_par ← paragraph env (acceptance_object job_title) "Object";
  let elements := elements ++ [object_par; Spacer 8] in
  let salutation := acceptance_salutation application_data in
  salutation_par ← paragraph env salutation "BodyText";
  let elements := elements ++ [salutation_par; Spacer 5] in
  let para1 := acceptance_para1 job_title in
  para1_par ← paragraph env para1 "BodyText";
  let elements := elements ++ [para1_par; Spacer 5] in
  let elements := elements ++ [Paragraph para2_text "BodyText"; Spacer 5] in
  let elements := elements ++ [Paragraph para3_text "BodyText"; Spacer 5] in
  let elements := elements ++ [Spacer 5; Table contact_data; Spacer 8] in
  let elements := elements ++ [Paragraph para4_text "BodyText"; Spacer 5] in
  let elements := elements ++ [Paragraph closing_text "BodyText"; Spacer 10] in
  let elements := elements ++
    [Paragraph "<b>Le Directeur des Ressources Humaines</b><br/> <b>SALSABIL</b>" "Signature";
     Spacer 5] in
  (* footer reference *)
  id ← getitem application_data "id";
  now' ← datetime_now env;
  let reference := acceptance_reference id now' in
  reference_par ← paragraph env reference "Footer";
  let elements := elements ++ [Spacer 5; reference_par] in
  build env output_path elements (add_qr_and_code verification_code base_url);;
  mret output_path.

(** ** [models.py]: the connection and the two phase decisions *)

(** [UPDATE applications SET c1 = v1, ... WHERE id = ?] on a table. *)
Definition set_columns (sets : list (string * pyval)) (row : gmap string pyval)
    : gmap string pyval :=
  foldl (λ r kv, <[kv.1 := kv.2]> r) row sets.

Definition sql_update (sets : list (string * pyval)) (id : Z)
    (t : gmap Z (gmap string pyval)) : gmap Z (gmap string pyval) :=
  alter (set_columns sets) id t.

(** [get_db_connection()]: a connection that sees the committed table. *)
Definition get_db_connection : M unit := modify (λ st, set_conn (db st) st).

(** [cursor.execute('UPDATE applications SET ... WHERE id = ?', ...)] *)
Definition execute_update (sets : list (string * pyval)) (id : Z) : M unit :=
  modify (λ st, set_conn (sql_update sets id (conn st)) st).

(** [cursor.execute('SELECT * FROM applications WHERE id = ?', ...).fetchone()] *)
Definition fetch_application (id : Z) : M (option (gmap string pyval)) :=
  gets (λ st, conn st !! id).

(** [conn.commit()] and [conn.close()] (closing drops what is not committed). *)
Definition commit : M unit := modify (λ st, set_db (conn st) st).
Definition close : M unit := modify (λ st, set_conn (db st) st).

(** [os.path.join(a, b)] for a relative [b]. *)
Definition path_join (a b : string) : string := a +:+ "/" +:+ b.

(** [os.makedirs(d, exist_ok=True)] *)
Definition makedirs (env : Env) (d : string) : M unit :=
  if makedirs_ok env d then mret tt else raise (OSError (error_text env (MakeDirs d))).

Definition convocations_dir : string := path_join "static" "convocations".

(** The file name and the verification code the phase-1 transition builds
    ([models.py], lines 466 and 470). *)
Definition phase1_pdf_filename (app_id : Z) (now : datetime) : string :=
  "convocation_" +:+ pretty app_id +:+ "_" +:+ strftime_Ymd_HMS now +:+ ".pdf".

Definition phase1_verification_code (app_id : Z) (now : datetime) : string :=
  "CONV-" +:+ pretty app_id +:+ "-" +:+ strftime_Ymd now.

(** The columns the two decisions write. *)
Definition phase1_selected_columns (decision current_date : string) (interview_date : pyval)
    : list (string * pyval) :=
  [ ("phase1_status", PyStr decision);
    ("phase1_date", PyStr current_date);
    ("interview_date", interview_date);
    ("workflow_phase", PyStr "phase1");
    ("status", PyStr "interview programmé") ].

Definition phase1_rejected_columns (decision current_date : string) (rejection_reason : pyval)
    : list (string * pyval) :=
  [ ("phase1_status", PyStr decision);
    ("phase1_date", PyStr current_date);
    ("rejection_reason", rejection_reason);
    ("workflow_phase", PyStr "completed");
    ("status", PyStr "rejetée") ].

Definition phase2_accepted_columns (decision current_date : string) : list (string * pyval) :=
  [ ("phase2_status", PyStr decision);
    ("phase2_date", PyStr current_date);
    ("workflow_phase", PyStr "completed");
    ("status", PyStr "acceptée") ].

Definition phase2_rejected_columns (decision current_date : string) (rejection_reason : pyval)
    : list (string * pyval) :=
  [ ("phase2_status", PyStr decision);
    ("phase2_date", PyStr current_date);
    ("rejection_reason", rejection_reason);
    ("workflow_phase", PyStr "completed");
    ("status", PyStr "rejetée") ].

(** Column [col] of the application [id] in a table. *)
Definition cell (t : gmap Z (gmap string pyval)) (id : Z) (col : string) : option pyval :=
  t !! id ≫= (λ row, row !! col).

Definition pdf_column (pdf_filename : string) : list (string * pyval) :=
  [("interview_invitation_pdf", PyStr pdf_filename)].

(** [os.environ.get('BASE_URL', 'http://localhost:5000')] *)
Definition base_url_of (env : Env) : string :=
  default "http://localhost:5000" (environ env !! "BASE_URL").

(** The body of the [try] of [update_phase1_status]: read the row back,
    render the invitation, store its file name. *)
Definition phase1_generate_pdf (env : Env) (app_id : Z) (interview_date : pyval) : M unit :=
  application ← fetch_application app_id;
  match application with
  | Some application =>
      makedirs env convocations_dir;;
      now ← datetime_now env;
      let pdf_filename := phase1_pdf_filename app_id now in
      let pdf_path := path_join convocations_dir pdf_filename in
      now' ← datetime_now env;
      let verification_code := phase1_verification_code app_id now' in
      let base_url := base_url_of env in
      let app_data := application in
      generate_interview_invitation_pdf env app_data interview_date pdf_path
        (Some verification_code) base_url;;
      execute_update (pdf_column pdf_filename) app_id;;
      commit
  | None => mret tt
  end.

(** The [except Exception as e] clause. *)
Definition phase1_pdf_failed (e : exn) : M unit :=
  print ("⚠️ Erreur lors de la génération du PDF de convocation: " +:+ exn_message e);;
  print_exc e.

(** [update_phase1_status(app_id, decision, interview_date=None, rejection_reason=None)] *)
Definition update_phase1_status (env : Env) (app_id : Z) (decision : string)
    (interview_date rejection_reason : pyval) : M unit :=
  get_db_connection;;
  now ← datetime_now env;
  let current_date := strftime_sql now in
  (if String.eqb decision "selected_for_interview" then
     execute_update (phase1_selected_columns decision current_date interview_date) app_id;;
     try_except (phase1_generate_pdf env app_id interview_date) phase1_pdf_failed
   else if String.eqb decision "rejected" then
     execute_update (phase1_rejected_columns decision current_date rejection_reason) app_id
   else mret tt);;
  commit;;
  close.

(** The state in which [update_phase1_status] enters its [try]: connection
    opened, clock read, first [UPDATE] executed and not yet committed. *)
Definition phase1_selected_entry (env : Env) (app_id : Z) (interview_date : pyval)
    (st : State) : State :=
  let current_date := strftime_sql (clock env (ticks st)) in
  set_conn
    (sql_update (phase1_selected_columns "selected_for_interview" current_date interview_date)
                app_id (db st))
    (set_ticks (S (ticks st)) (set_conn (db st) st)).

(** [update_phase2_status(app_id, decision, rejection_reason=None)] *)
Definition update_phase2_status (env : Env) (app_id : Z) (decision : string)
    (rejection_reason : pyval) : M unit :=
  get_db_connection;;
  now ← datetime_now env;
  let current_date := strftime_sql now in
  (if String.eqb decision "accepted" then
     execute_update (phase2_accepted_columns decision current_date) app_id
   else if String.eqb decision "rejected" then
     execute_update (phase2_rejected_columns decision current_date rejection_reason) app_id
   else mret tt);;
  commit;;
  close.

(** ** [pdf_generator.py]: the file names

    The [re] patterns work on code points.  [\w] is a Unicode alphanumeric
    or the underscore, [\s] a Unicode white space. *)

(** An ASCII literal as code points. *)
Definition cp (s : string) : list N := map code (chars s).

Definition ascii_alnum (c : N) : bool :=
  ((48 <=? c) && (c <=? 57) || (65 <=? c) && (c <=? 90) || (97 <=? c) && (c <=? 122))%N.

(** [str.isalnum] on U+0080..U+00FF: the letters, the superscript digits
    and the vulgar fractions. *)
Definition latin1_alnum (c : N) : bool :=
  ((c =? 0xAA) || (c =? 0xB5) || (c =? 0xBA) ||
   (c =? 0xB2) || (c =? 0xB3) || (c =? 0xB9) || (0xBC <=? c) && (c <=? 0xBE) ||
   (0xC0 <=? c) && (c <=? 0xD6) || (0xD8 <=? c) && (c <=? 0xF6) ||
   (0xF8 <=? c) && (c <=? 0xFF))%N.

(** [str.isspace] *)
Definition unicode_space (c : N) : bool :=
  ((9 <=? c) && (c <=? 13) || (28 <=? c) && (c <=? 32) || (c =? 0x85) || (c =? 0xA0) ||
   (c =? 0x1680) || (0x2000 <=? c) && (c <=? 0x200A) || (c =? 0x2028) || (c =? 0x2029) ||
   (c =? 0x202F) || (c =? 0x205F) || (c =? 0x3000))%N.

(** The class [[A-Za-z0-9_-]] of the file-name convention. *)
Definition is_filename_char (c : N) : bool := ascii_alnum c || (c =? 95)%N || (c =? 45)%N.

(** The shape [yyyyMMdd_HHmmss]. *)
Definition is_timestamp (s : string) : bool :=
  match chars s with
  | [y1; y2; y3; y4; m1; m2; d1; d2; u; h1; h2; n1; n2; s1; s2] =>
      forallb is_digit [y1; y2; y3; y4; m1; m2; d1; d2; h1; h2; n1; n2; s1; s2] &&
      (code u =? 95)%N
  | _ => false
  end.

Section Filenames.

(** The alphanumeric property of the Unicode database above U+00FF. *)
Variable ucd_alnum : N → bool.

Definition unicode_alnum (c : N) : bool :=
  if (c <? 128)%N then ascii_alnum c
  else if (c <? 256)%N then latin1_alnum c
  else ucd_alnum c.

(** [\w] *)
Definition re_word (c : N) : bool := unicode_alnum c || (c =? 95)%N.

(** [re.sub(r'[^\w\s-]', '', s)] *)
Definition strip_special (s : list N) : list N :=
  List.filter (λ c, re_word c || unicode_space c || (c =? 45)%N) s.

(** [re.sub(r'[-\s]+', '_', s)]: every maximal run becomes one underscore;
    [in_run] tells that the previous character was part of a run. *)
Fixpoint collapse_runs (in_run : bool) (s : list N) : list N :=
  match s with
  | [] => []
  | c :: s' =>
      if ((c =? 45)%N || unicode_space c) then
        if in_run then collapse_runs true s' else 95%N :: collapse_runs true s'
      else c :: collapse_runs false s'
  end.

Definition clean_name (candidate_name : list N) : list N :=
  collapse_runs false (strip_special candidate_name).

Definition document_filename (label : string) (candidate_name : list N)
    (application_id : Z) (now : datetime) : list N :=
  cp label ++ cp "_" ++ clean_name candidate_name ++ cp "_" ++ cp (pretty application_id) ++
  cp "_" ++ cp (strftime_Ymd_HMS now) ++ cp ".pdf".

(** [generate_interview_invitation_filename(candidate_name, application_id)] *)
Definition generate_interview_invitation_filename (env : Env)
    (candidate_name : list N) (application_id : Z) : M (list N) :=
  now ← datetime_now env;
  mret (document_filename "Convocation_Entretien" candidate_name application_id now).

(** [generate_acceptance_letter_filename(candidate_name, application_id)] *)
Definition generate_acceptance_letter_filename (env : Env)
    (candidate_name : list N) (application_id : Z) : M (list N) :=
  now ← datetime_now env;
  mret (document_filename "Lettre_Acceptation" candidate_name application_id now).

End Filenames.

(** ** The verification registry *)

Module Registry.

(** Modelled from the spec: the operation [issue] of section 4.1.  The
    repository's code that inserts into [document_verifications] is not among
    the sources; the table and its UNIQUE constraint on [verification_code]
    are ([init_db]), and so is the code generator.  A row that would repeat a
    code is refused by the constraint, which surfaces as [GenerationError]. *)
Definition issue (env : Env) (applicationId : Z)
    (documentType candidateName jobTitle issueDate : string)
    (documentHandle : option string) : M VerificationRecord :=
  c ← generate_verification_code env applicationId documentType;
  rows ← gets verifications;
  if existsb (λ r, String.eqb (verification_code r) c) rows then
    raise (GenerationError "document_verifications.verification_code")
  else
    now ← datetime_now env;
    n ← gets verifications_seq;
    let record :=
      {| vr_id := n + 1; verification_code := c; vr_application_id := applicationId;
         document_type := documentType; candidate_name := candidateName;
         vr_job_title := jobTitle; issue_date := issueDate; pdf_path := documentHandle;
         vr_status := "valide"; created_at := strftime_sql now |} in
    modify (set_verifications (rows ++ [record]) (n + 1));;
    mret record.

(** Modelled from the spec: the operation [lookup] of section 4.1, a
    case-sensitive exact match on the code ([None] is [NotFound]). *)
Definition lookup (c : string) : M (option VerificationRecord) :=
  gets (λ st, find (λ r, String.eqb (verification_code r) c) (verifications st)).

End Registry.

(** ** Concrete inputs used by the examples *)

Module Sample.

Definition t0 : datetime :=
  {| year := 2025; month := 10; day := 15; hour := 14; minute := 0; second := 0;
     microsecond := 0 |}.

(** A clock that advances one second per reading. *)
Definition ticking_clock (k : nat) : datetime :=
  {| year := 2025; month := 10; day := 15; hour := 14; minute := 0;
     second := N.of_nat k mod 60; microsecond := 0 |}.

(** A parser for fully padded [YYYY-MM-DDTHH:MM] text, a subset of what
    [strptime] accepts. *)
Definition digit_val (c : ascii) : option N :=
  if is_digit c then Some (code c - 48)%N else None.

Fixpoint number (l : list ascii) (acc : N) : option N :=
  match l with
  | [] => Some acc
  | c :: l' => d ← digit_val c; number l' (10 * acc + d)%N
  end.

Definition strptime_padded (s : string) : option datetime :=
  match chars s with
  | [y1; y2; y3; y4; "-"%char; m1; m2; "-"%char; d1; d2; "T"%char; h1; h2; ":"%char; n1; n2] =>
      y ← number [y1; y2; y3; y4] 0;
      m ← number [m1; m2] 0;
      d ← number [d1; d2] 0;
      h ← number [h1; h2] 0;
      n ← number [n1; n2] 0;
      if ((1 <=? m) && (m <=? 12) && (1 <=? d) && (d <=? 31) && (h <? 24) && (n <? 60))%N
      then Some {| year := y; month := m; day := d; hour := h; minute := n; second := 0;
                   microsecond := 0 |}
      else None
  | _ => None
  end.

(** One page holds everything. *)
Definition one_page (els : list Flowable) : list Flowable * list (list Flowable) := (els, []).

(** Two flowables on the first page, the rest on a second one. *)
Definition two_pages (els : list Flowable) : list Flowable * list (list Flowable) :=
  (take 2 els, [drop 2 els]).

(** A stand-in for the paragraph parser: it accepts a text in which every
    [<] opens one of the tags the two letters use. *)
Definition known_tags : list string :=
  ["<b>"; "</b>"; "<br/>"; "<b style=" +:+ dq +:+ "color: #27ae60;" +:+ dq +:+ ">"].

Fixpoint tags_known (s : string) : bool :=
  match s with
  | EmptyString => true
  | String c s' =>
      (negb (Ascii.eqb c "<") || existsb (λ t, String.prefix t (String c s')) known_tags)
      && tags_known s'
  end.

(** Texts for the errors of the libraries. *)
Definition error_texts (f : failure) : string :=
  match f with
  | OpenImage p => "Cannot open resource " +:+ dq +:+ p +:+ dq
  | MakeDirs p => "[Errno 13] Permission denied: '" +:+ p +:+ "'"
  | ParseMarkup t => "Parse error: " +:+ t
  | BuildDocument p => "cannot build " +:+ p
  end.

Definition env : Env :=
  {| clock := ticking_clock;
     random_byte := λ k i, N.of_nat (17 * k + i);
     environ := ∅;
     path_exists := λ _, false;
     logo_opens := true;
     logo_is_image := true;
     markup_ok := tags_known;
     error_text := error_texts;
     makedirs_ok := λ _, true;
     strptime := strptime_padded;
     layout := two_pages;
     build_ok := λ _ _, true |}.

(** Application 5, as [create_application] leaves it. *)
Definition application5 : gmap string pyval :=
  list_to_map
    [ ("id", PyInt 5); ("job_id", PyInt 2); ("job_title", PyStr "Comptable");
      ("prenom", PyStr "Amina"); ("nom", PyStr "Hassan");
      ("email", PyStr "amina@example.org"); ("telephone", PyStr "77123456");
      ("adresse", PyStr "Djibouti"); ("status", PyStr "en attente");
      ("workflow_phase", PyStr "phase1"); ("phase1_status", PyStr "pending");
      ("phase1_date", PyNone); ("interview_date", PyNone);
      ("interview_invitation_pdf", PyNone); ("phase2_status", PyNone);
      ("phase2_date", PyNone); ("rejection_reason", PyNone) ].

Definition st0 : State :=
  {| db := {[ 5%Z := application5 ]}; conn := ∅; verifications := [];
     verifications_seq := 0; files := ∅; stdout := []; ticks := 0; draws := 0 |}.

End Sample.

(** ** Notions used to state and prove the properties *)

(** [same f] relates two states that agree on the component [f]. *)
Definition same {B} (f : State → B) : relation State := λ s s', f s' = f s.

(** [frame R m]: running [m] moves the state along [R], raise or not. *)
Definition frame {A} (R : relation State) (m : M A) : Prop := ∀ st, R st (m st).2.

(** What a renderer leaves in the file system: nothing when it raises, the
    built document under [path] when it returns. *)
Definition writes_document (env : Env) (path : string) (ops : list CanvasOp)
    (m : M string) : Prop :=
  ∀ st,
    match m st with
    | (inl _, st') => files st' = files st
    | (inr p, st') =>
        p = path ∧ ∃ els, files st' = <[path := document_of env els ops]> (files st)
    end.

(** [conn.commit(); conn.close()] *)
Definition finish (s : State) : State := set_conn (conn s) (set_db (conn s) s).

(** Two and four decimal digits. *)
Definition two_digits (s : string) : bool :=
  match s with
  | String a (String b EmptyString) => is_digit a && is_digit b
  | _ => false
  end.

Definition four_digits (s : string) : bool :=
  match s with
  | String a (String b (String c (String d EmptyString))) =>
      is_digit a && is_digit b && is_digit c && is_digit d
  | _ => false
  end.

(** The state of application 5 once phase 1 has rejected it. *)
Definition rejected5 : State :=
  (update_phase1_status Sample.env 5 "rejected" PyNone (PyStr "insufficient experience")
     Sample.st0).2.

(** ** [pdf_generator.py] and [models.py]: further notions and functions *)

(** The class [[0-9A-F]]. *)
Definition is_upper_hex (c : ascii) : bool :=
  is_digit c || ((65 <=? code c) && (code c <=? 70))%N.

(** The flowables of the invitation, in the order
    [generate_interview_invitation_pdf] appends them, from the values it has
    read; [footer] is the paragraph of the reference. *)
Definition invitation_elements (emission_date : string) (header : list Flowable)
    (prenom nom email telephone adresse nom' job_title_display formatted_day : pyval)
    (formatted_time : string) (footer : Flowable) : list Flowable :=
  let elements := [Paragraph ("Émis le " +:+ emission_date) "DateStyle"; Spacer 5] in
  let elements := elements ++ header in
  let elements := elements ++ [Paragraph "CONVOCATION À UN ENTRETIEN" "CustomTitle"; Spacer 3] in
  let recipient := invitation_recipient prenom nom email telephone adresse in
  let elements := elements ++ [Paragraph recipient "CustomBody"; Spacer 2] in
  let salutation := invitation_salutation nom' in
  let elements := elements ++ [Paragraph salutation "CustomBody"; Spacer 2] in
  let intro := invitation_intro job_title_display in
  let elements := elements ++ [Paragraph intro "CustomBody"; Spacer 2] in
  let elements := elements ++ [Paragraph convocation_text "CustomBody"; Spacer 2] in
  let interview_info :=
    [ ["📅 Date"; fmt formatted_day];
      ["🕐 Heure"; formatted_time];
      ["📍 Lieu"; "Siège de SALSABIL"];
      ["💼 Poste"; fmt job_title_display] ] in
  let elements := elements ++ [Table interview_info; Spacer 2] in
  let elements := elements ++ [Paragraph "<b>⚠️ IMPORTANT :</b>" "CustomInfo"; Spacer 1] in
  let elements := elements ++ [Paragraph instructions_text "CustomBody"; Spacer 3] in
  elements ++ [Spacer 3; footer].

(** The flowables of the acceptance letter, in the order
    [generate_acceptance_letter_pdf] appends them. *)
Definition acceptance_elements (header : list Flowable) (current_date : string)
    (application_data : gmap string pyval) (footer : Flowable) : list Flowable :=
  let elements := header in
  let elements := elements ++ [Paragraph "🎉 LETTRE D'ACCEPTATION 🎉" "CustomTitle"; Spacer 3] in
  let elements := elements ++
    [Paragraph "Bienvenue dans l'équipe SALSABIL !" "Subtitle"; Spacer 10] in
  let date_text := "Djibouti, le " +:+ current_date in
  let elements := elements ++ [Paragraph date_text "DateStyle"; Spacer 10] in
  let recipient := acceptance_recipient application_data in
  let elements := elements ++ [Paragraph recipient "Recipient"; Spacer 10] in
  let job_title := dict_get application_data "job_title" (PyStr "le poste proposé") in
  let elements := elements ++ [Paragraph (acceptance_object job_title) "Object"; Spacer 8] in
  let salutation := acceptance_salutation application_data in
  let elements := elements ++ [Paragraph salutation "BodyText"; Spacer 5] in
  let para1 := acceptance_para1 job_title in
  let elements := elements ++ [Paragraph para1 "BodyText"; Spacer 5] in
  let elements := elements ++ [Paragraph para2_text "BodyText"; Spacer 5] in
  let elements := elements ++ [Paragraph para3_text "BodyText"; Spacer 5] in
  let elements := elements ++ [Spacer 5; Table contact_data; Spacer 8] in
  let elements := elements ++ [Paragraph para4_text "BodyText"; Spacer 5] in
  let elements := elements ++ [Paragraph closing_text "BodyText"; Spacer 10] in
  let elements := elements ++
    [Paragraph "<b>Le Directeur des Ressources Humaines</b><br/> <b>SALSABIL</b>" "Signature";
     Spacer 5] in
  elements ++ [Spacer 5; footer].

(** The header of the acceptance letter when the logo is absent or opens. *)
Definition acceptance_logo (env : Env) : list Flowable :=
  if path_exists env logo_path then [Image logo_path 30 30; Spacer 5] else [].


(** The candidate fields that the invitation reads with [d[k]]: the five of
    the recipient block and a job title. *)
Definition has_invitation_fields (data : gmap string pyval) : Prop :=
  is_Some (data !! "prenom") ∧ is_Some (data !! "nom") ∧ is_Some (data !! "email") ∧
  is_Some (data !! "telephone") ∧ is_Some (data !! "adresse") ∧
  (truthy (dict_get data "selected_job_title" PyNone) = true ∨ is_Some (data !! "job_title")).

(** [application_data.get('selected_job_title') or application_data['job_title']],
    when it does not raise. *)
Definition job_title_display (data : gmap string pyval) : pyval :=
  let selected := dict_get data "selected_job_title" PyNone in
  if truthy selected then selected else dict_get data "job_title" PyNone.

(** The texts that the renderers build from the candidate's fields, in the
    order they are parsed. *)
Definition invitation_recipient_of (data : gmap string pyval) : string :=
  invitation_recipient (dict_get data "prenom" PyNone) (dict_get data "nom" PyNone)
    (dict_get data "email" PyNone) (dict_get data "telephone" PyNone)
    (dict_get data "adresse" PyNone).

Definition invitation_salutation_of (data : gmap string pyval) : string :=
  invitation_salutation (dict_get data "nom" PyNone).

Definition invitation_body_texts (data : gmap string pyval) : list string :=
  [ invitation_recipient_of data; invitation_salutation_of data;
    invitation_intro (job_title_display data) ].

Definition acceptance_body_texts (data : gmap string pyval) : list string :=
  let job_title := dict_get data "job_title" (PyStr "le poste proposé") in
  [ acceptance_recipient data; acceptance_object job_title; acceptance_salutation data;
    acceptance_para1 job_title ].

(** Every text of a list is well-formed markup. *)
Definition all_parse (env : Env) (texts : list string) : Prop :=
  Forall (λ t, markup_ok env t = true) texts.

(** The characters of the class [[-\s]]. *)
Definition separator (c : N) : bool := (c =? 45)%N || unicode_space c.

(** ** [models.py]: the other functions on one application *)

(** The value of a column in a fetched row.  The schema is not part of the
    model: a column for which the row lists no value reads as [NULL]. *)
Definition column (row : gmap string pyval) (c : string) : pyval := default PyNone (row !! c).

(** [get_application_by_id(app_id)]: the row as a dict, or [None]
    ([dict(application) if application else None]; a row is true when it has
    columns). *)
Definition get_application_by_id (app_id : Z) : M (option (gmap string pyval)) :=
  get_db_connection;;
  application ← fetch_application app_id;
  close;;
  mret (match application with
        | Some row => if decide (row = ∅) then None else Some row
        | None => None
        end).

(** [update_application_status(app_id, status)] *)
Definition update_application_status (app_id : Z) (status : pyval) : M unit :=
  get_db_connection;;
  execute_update [("status", status)] app_id;;
  commit;;
  close.

(** [mark_notification_sent(app_id, phase)] *)
Definition mark_notification_sent (app_id : Z) (phase : pyval) : M unit :=
  get_db_connection;;
  (if decide (phase = PyInt 1) then
     execute_update [("phase1_notification_sent", PyInt 1)] app_id
   else if decide (phase = PyInt 2) then
     execute_update [("phase2_notification_sent", PyInt 1)] app_id
   else mret tt);;
  commit;;
  close.

(** [add_interview_notes(app_id, notes)] *)
Definition add_interview_notes (app_id : Z) (notes : pyval) : M unit :=
  get_db_connection;;
  execute_update [("interview_notes", notes)] app_id;;
  commit;;
  close.

(** [save_interview_invitation_pdf(app_id, pdf_filename)] *)
Definition save_interview_invitation_pdf (app_id : Z) (pdf_filename : pyval) : M unit :=
  get_db_connection;;
  execute_update [("interview_invitation_pdf", pdf_filename)] app_id;;
  commit;;
  close.

(** [get_interview_invitation_pdf(app_id)] *)
Definition get_interview_invitation_pdf (app_id : Z) : M pyval :=
  get_db_connection;;
  result ← fetch_application app_id;
  close;;
  mret (match result with
        | Some row => column row "interview_invitation_pdf"
        | None => PyNone
        end).

(** [save_acceptance_letter_pdf(app_id, pdf_filename)] *)
Definition save_acceptance_letter_pdf (app_id : Z) (pdf_filename : pyval) : M unit :=
  get_db_connection;;
  execute_update [("acceptance_letter_pdf", pdf_filename)] app_id;;
  commit;;
  close.

(** [get_acceptance_letter_pdf(app_id)] *)
Definition get_acceptance_letter_pdf (app_id : Z) : M pyval :=
  get_db_connection;;
  result ← fetch_application app_id;
  close;;
  mret (match result with
        | Some row => column row "acceptance_letter_pdf"
        | None => PyNone
        end).

(** [toggle_favorite(app_id)]: only a spontaneous application ([job_id] 0)
    can be a favourite. *)
Definition toggle_favorite (app_id : Z) : M pyval :=
  get_db_connection;;
  result ← fetch_application app_id;
  match result with
  | Some row =>
      let current_status := column row "is_favorite" in
      let job_id := column row "job_id" in
      if decide (job_id = PyInt 0) then
        let new_status := if decide (current_status = PyInt 1) then PyInt 0 else PyInt 1 in
        execute_update [("is_favorite", new_status)] app_id;;
        commit;;
        close;;
        mret new_status
      else
        close;;
        mret PyNone
  | None =>
      close;;
      mret PyNone
  end.

(** [is_favorite(app_id)] *)
Definition is_favorite (app_id : Z) : M bool :=
  get_db_connection;;
  result ← fetch_application app_id;
  close;;
  mret (match result with
        | Some row => bool_decide (column row "is_favorite" = PyInt 1)
        | None => false
        end).

(** ** [models.py]: deleting an application and its files

    The uploaded files are a set of paths beside the state; together with
    the generated documents they are the file system these functions see. *)

(** [os.path.join(a, b)] on POSIX. *)
Definition starts_with_slash (s : string) : bool :=
  match s with
  | String c _ => Ascii.eqb c "/"
  | EmptyString => false
  end.

Fixpoint ends_with_slash (s : string) : bool :=
  match s with
  | EmptyString => false
  | String c EmptyString => Ascii.eqb c "/"
  | String _ s' => ends_with_slash s'
  end.

Definition os_path_join (a b : string) : string :=
  if starts_with_slash b then b
  else if String.eqb a "" || ends_with_slash a then a +:+ b
  else a +:+ "/" +:+ b.

Record Disk := { state : State; uploads : gset string }.

Inductive fs_exn :=
| TypeError (what : string)
| Raised (e : exn).

(** The monad of the functions that also touch the uploaded files. *)
Definition W (A : Type) : Type := Disk → (fs_exn + A) * Disk.

Global Instance W_ret : MRet W := λ A a w, (inr a, w).
Global Instance W_bind : MBind W := λ A B f m w,
  match m w with
  | (inl e, w') => (inl e, w')
  | (inr a, w') => f a w'
  end.

Definition fs_raise {A} (e : fs_exn) : W A := λ w, (inl e, w).

(** A function of [M] run on the state of the disk. *)
Definition lift {A} (m : M A) : W A := λ w,
  match m (state w) with
  | (inl e, s) => (inl (Raised e), {| state := s; uploads := uploads w |})
  | (inr a, s) => (inr a, {| state := s; uploads := uploads w |})
  end.

(** [os.path.exists(p)] *)
Definition fs_exists (p : string) : W bool := λ w,
  (inr (bool_decide (p ∈ uploads w) || bool_decide (is_Some (files (state w) !! p))), w).

(** [os.remove(p)] when it succeeds. *)
Definition fs_remove (p : string) : W unit := λ w,
  (inr tt, {| state := set_files (delete p (files (state w))) (state w);
              uploads := uploads w ∖ {[p]} |}).

(** Every path of the file system. *)
Definition all_paths (w : Disk) : gset string := uploads w ∪ dom (files (state w)).

(** [os.path.join('static', d, filename)]; a value that is not text is a
    [TypeError]. *)
Definition join_under (dirs : list string) (filename : pyval) : W string :=
  match filename with
  | PyStr f => mret (os_path_join (foldl os_path_join "" dirs) f)
  | _ => fs_raise (TypeError "expected str, bytes or os.PathLike object")
  end.

Section Deletion.

(** Whether [os.remove(p)] succeeds on the existing path [p], and the text
    of its error when it does not. *)
Variable remove_ok : string → bool.
Variable remove_error : string → string.

(** The loop of [delete_file_if_exists] over the candidate paths. *)
Fixpoint remove_first (paths : list string) : W bool :=
  match paths with
  | [] => mret false
  | filepath :: rest =>
      fs_exists filepath ≫= λ there : bool,
      if there then
        if remove_ok filepath then
          fs_remove filepath;;
          lift (print ("✅ Fichier supprimé: " +:+ filepath));;
          mret true
        else
          lift (print ("❌ Erreur lors de la suppression de " +:+ filepath +:+ ": " +:+
                       exn_message (OSError (remove_error filepath))));;
          mret false
      else remove_first rest
  end.

(** [delete_file_if_exists(filename)] *)
Definition delete_file_if_exists (filename : pyval) : W bool :=
  if truthy filename then
    p1 ← join_under ["static"; "uploads"] filename;
    p2 ← join_under ["uploads"] filename;
    remove_first [p1; p2]
  else mret false.

(** The two blocks of [delete_application_files] that remove a generated
    document: [label_ok] and [label_ko] are the two messages. *)
Definition delete_document (dir : string) (filename : pyval)
    (label_ok label_ko : string) (deleted_count : Z) : W Z :=
  if truthy filename then
    pdf_path ← join_under ["static"; dir] filename;
    fs_exists pdf_path ≫= λ there : bool,
    if there then
      if remove_ok pdf_path then
        fs_remove pdf_path;;
        lift (print (label_ok +:+ fmt filename));;
        mret (deleted_count + 1)%Z
      else
        lift (print (label_ko +:+ exn_message (OSError (remove_error pdf_path))));;
        mret deleted_count
    else mret deleted_count
  else mret deleted_count.

(** The loop over [files_to_delete]. *)
Fixpoint delete_each (filenames : list pyval) (deleted_count : Z) : W Z :=
  match filenames with
  | [] => mret deleted_count
  | filename :: rest =>
      delete_file_if_exists filename ≫= λ deleted : bool,
      delete_each rest (if deleted then deleted_count + 1 else deleted_count)%Z
  end.

Definition upload_columns : list string :=
  ["photo"; "cv"; "lettre_demande"; "carte_id"; "lettre_recommandation";
   "casier_judiciaire"; "diplome"].

(** [delete_application_files(application)] *)
Definition delete_application_files (application : gmap string pyval) : W Z :=
  let files_to_delete := map (λ k, dict_get application k PyNone) upload_columns in
  deleted_count ← delete_each files_to_delete 0;
  deleted_count ← delete_document "convocations"
    (dict_get application "interview_invitation_pdf" PyNone)
    "📄 PDF de convocation supprimé: " "⚠️ Erreur lors de la suppression du PDF: "
    deleted_count;
  deleted_count ← delete_document "acceptances"
    (dict_get application "acceptance_letter_pdf" PyNone)
    "✅ PDF de lettre d'acceptation supprimé: "
    "⚠️ Erreur lors de la suppression de la lettre d'acceptation: "
    deleted_count;
  mret deleted_count.

(** [DELETE FROM document_verifications WHERE application_id = ?], counted
    first; the registry table has no uncommitted view here, the function
    commits right after. *)
Definition delete_verifications (app_id : Z) : M unit :=
  rows ← gets verifications;
  let verification_count :=
    Z.of_nat (length (List.filter (λ r, (vr_application_id r =? app_id)%Z) rows)) in
  if (0 <? verification_count)%Z then
    n ← gets verifications_seq;
    modify (set_verifications
              (List.filter (λ r, negb (vr_application_id r =? app_id)%Z) rows) n);;
    print ("🔐 " +:+ pretty verification_count +:+ " code(s) de vérification supprimé(s)")
  else mret tt.

(** [DELETE FROM applications WHERE id = ?] *)
Definition execute_delete (app_id : Z) : M unit :=
  modify (λ st, set_conn (delete app_id (conn st)) st).

(** [delete_application(app_id)] *)
Definition delete_application (app_id : Z) : W unit :=
  application ← lift (get_application_by_id app_id);
  match application with
  | Some application =>
      deleted_files ← delete_application_files application;
      lift (print ("📁 " +:+ pretty deleted_files +:+
                   " fichier(s) supprimé(s) du système de fichiers"))
  | None => mret tt
  end;;
  lift get_db_connection;;
  lift (delete_verifications app_id);;
  lift (execute_delete app_id);;
  lift commit;;
  lift close.

End Deletion.

(** [removes n w w']: from [w] to [w'] exactly [n] paths have gone, none has
    appeared, and the tables are as they were. *)
Definition removes (n : Z) (w w' : Disk) : Prop :=
  all_paths w' ⊆ all_paths w ∧
  Z.of_nat (size (all_paths w)) = (Z.of_nat (size (all_paths w')) + n)%Z ∧
  db (state w') = db (state w) ∧ conn (state w') = conn (state w) ∧
  verifications (state w') = verifications (state w).

(** A file column holds text or [NULL]. *)
Definition text_or_null (v : pyval) : Prop :=
  match v with
  | PyInt _ => False
  | _ => True
  end.

(** The file columns of an application. *)
Definition file_columns : list string :=
  upload_columns ++ ["interview_invitation_pdf"; "acceptance_letter_pdf"].

(** A step that may remove files and add them to a count: from any count
    [n0] it removes some [k] files, at most [bound], and when it returns it
    returns [n0 + k]. *)
Definition counts_removals (bound : Z) (m : Z → W Z) : Prop :=
  ∀ n0 w, ∃ k res w',
    m n0 w = (res, w') ∧ removes k w w' ∧ (0 ≤ k ≤ bound)%Z ∧
    match res with
    | inr n => n = (n0 + k)%Z
    | inl e => ∃ what, e = TypeError what
    end.

(** What a function made of one [UPDATE] of one column does. *)
Definition writes_one_column (c : string) (v : pyval) (app_id : Z) (st : State)
    (r : (exn + unit) * State) : Prop :=
  r.1 = inr tt ∧
  (is_Some (db st !! app_id) → cell (db r.2) app_id c = Some v) ∧
  (∀ col, col ≠ c → cell (db r.2) app_id col = cell (db st) app_id col) ∧
  (∀ other, other ≠ app_id → db r.2 !! other = db st !! other) ∧
  (db st !! app_id = None → db r.2 = db st) ∧
  files r.2 = files st ∧ stdout r.2 = stdout st.

(** The end of [delete_application]: the rows are deleted and committed. *)
Definition delete_rows (app_id : Z) : W unit :=
  lift get_db_connection;; lift (delete_verifications app_id);;
  lift (execute_delete app_id);; lift commit;; lift close.

Module MoreSamples.

(** An environment whose logo file exists and cannot be opened, and one
    whose logo file opens and is not an image. *)
Definition env_logo (opens is_image : bool) : Env :=
  {| clock := Sample.ticking_clock;
     random_byte := λ k i, N.of_nat (17 * k + i);
     environ := ∅;
     path_exists := λ _, true;
     logo_opens := opens;
     logo_is_image := is_image;
     markup_ok := Sample.tags_known;
     error_text := Sample.error_texts;
     makedirs_ok := λ _, true;
     strptime := Sample.strptime_padded;
     layout := Sample.two_pages;
     build_ok := λ _ _, true |}.

Definition env_unreadable_logo : Env := env_logo false false.
Definition env_logo_not_an_image : Env := env_logo true false.

(** The text of the error of an [os.remove] that is refused. *)
Definition permission_denied (path : string) : string :=
  "[Errno 13] Permission denied: '" +:+ path +:+ "'".

(** A spontaneous application (no job) with an uploaded CV, and a disk that
    holds that file. *)
Definition spontaneous3 : gmap string pyval :=
  {[ "id" := PyInt 3; "job_id" := PyInt 0; "is_favorite" := PyInt 0;
     "cv" := PyStr "cv_3.pdf" ]}.

Definition st3 : State := set_db {[ 3%Z := spontaneous3 ]} Sample.st0.

Definition disk3 : Disk := {| state := st3; uploads := {[ "static/uploads/cv_3.pdf" ]} |}.

End MoreSamples.

(** ** [models.py]: the employees

    The [employees] table is kept apart from the state of the applications.
    A function that opens a connection, writes, commits and closes is a
    function on the committed table; a raise before the commit leaves the
    table as it was. *)

(** [toggle_employee_status(emp_id)]: the row is subscripted without a test,
    so an unknown id is the [TypeError] of [None['status']]. *)
Definition toggle_employee_status (emp_id : Z) (employees : gmap Z (gmap string pyval))
    : (fs_exn + string) * gmap Z (gmap string pyval) :=
  match employees !! emp_id with
  | Some employee =>
      let new_status :=
        if decide (column employee "status" = PyStr "actif") then "inactif" else "actif" in
      (inr new_status, sql_update [("status", PyStr new_status)] emp_id employees)
  | None => (inl (TypeError "'NoneType' object is not subscriptable"), employees)
  end.

(** * Properties *)

(** ** Checks of the embedding on known values *)

Example sha256_constants :
  nth 0 SHA256.K 0%N = 0x428a2f98%N ∧ nth 63 SHA256.K 0%N = 0xc67178f2%N ∧
  length SHA256.K = 64 ∧ SHA256.ra SHA256.H0 = 0x6a09e667%N ∧
  SHA256.rh SHA256.H0 = 0x5be0cd19%N.
Proof. vm_compute. repeat split; reflexivity. Qed.

Example sha256_abc :
  sha256_hexdigest (encode "abc")
  = "ba7816bf8f01cfea414140de5dae2223b00361a396177a9cb410ff61f20015ad".
Proof. vm_compute. reflexivity. Qed.

Example sha256_empty :
  sha256_hexdigest (encode "")
  = "e3b0c44298fc1c149afbf4c8996fb92427ae41e4649b934ca495991b7852b855".
Proof. vm_compute. reflexivity. Qed.

Example sha256_two_blocks :
  sha256_hexdigest (encode "abcdbcdecdefdefgefghfghighijhijkijkljklmklmnlmnomnopnopq")
  = "248d6a61d20638b8e5c026930c3e6039a33ce45964ff2167f6ecedd419db06c1".
Proof. vm_compute. reflexivity. Qed.

Example weekday_2025_10_15 :
  strftime_long {| year := 2025; month := 10; day := 15; hour := 14; minute := 0;
                   second := 0; microsecond := 0 |}
  = "Wednesday 15 October 2025 à 14:00".
Proof. vm_compute. reflexivity. Qed.

(** [%Y] does not pad: the first day of the year 999. *)
Example strftime_year_999 :
  strftime_dmY {| year := 999; month := 1; day := 1; hour := 0; minute := 0;
                  second := 0; microsecond := 0 |}
  = "01/01/999".
Proof. vm_compute. reflexivity. Qed.

(** ** Reasoning about the monad *)

(** Settle a decidable closed proposition by evaluating its decision. *)
Ltac decide_by_computation :=
  match goal with |- ?P => apply (bool_decide_unpack P); vm_compute; exact I end.

Lemma run_eq {A} (r : (exn + A) * State) a : r.1 = inr a → r = (inr a, r.2).
Proof. destruct r as [x s]. simpl. by intros ->. Qed.

Lemma bind_run {A B} (m : M A) (f : A → M B) st :
  (m ≫= f) st = match m st with (inl e, st') => (inl e, st') | (inr a, st') => f a st' end.
Proof. reflexivity. Qed.

Lemma bind_inr {A B} (m : M A) (f : A → M B) st b st' :
  (m ≫= f) st = (inr b, st') →
  ∃ a st1, m st = (inr a, st1) ∧ f a st1 = (inr b, st').
Proof.
  rewrite bind_run. destruct (m st) as [[e|a] st1]; [discriminate|]. eauto.
Qed.

Lemma bind_inl {A B} (m : M A) (f : A → M B) st e st' :
  (m ≫= f) st = (inl e, st') →
  m st = (inl e, st') ∨ ∃ a st1, m st = (inr a, st1) ∧ f a st1 = (inl e, st').
Proof.
  rewrite bind_run. destruct (m st) as [[e0|a] st1]; intros H; [left; congruence | right; eauto].
Qed.

Global Instance same_preorder {B} (f : State → B) : PreOrder (same f).
Proof. split; unfold same; [intros s; reflexivity | intros s1 s2 s3 H1 H2; congruence]. Qed.

Section Frame.
Context (R : relation State) `{!PreOrder R}.

Lemma frame_ret {A} (a : A) : frame R (mret a).
Proof. intros st. reflexivity. Qed.

Lemma frame_raise {A} (e : exn) : frame R (@raise A e).
Proof. intros st. reflexivity. Qed.

Lemma frame_bind {A B} (m : M A) (f : A → M B) :
  frame R m → (∀ a, frame R (f a)) → frame R (m ≫= f).
Proof.
  intros Hm Hf st. rewrite bind_run. specialize (Hm st).
  destruct (m st) as [[e|a] st1]; simpl in *; [done|].
  etrans; [exact Hm | apply Hf].
Qed.

Lemma frame_try {A} (m : M A) (h : exn → M A) :
  frame R m → (∀ e, frame R (h e)) → frame R (try_except m h).
Proof.
  intros Hm Hh st. unfold try_except. specialize (Hm st).
  destruct (m st) as [[e|a] st1]; simpl in *; [|done].
  etrans; [exact Hm | apply Hh].
Qed.
End Frame.

Lemma frame_getitem R `{!PreOrder R} d k : frame R (getitem d k).
Proof. unfold getitem. destruct (d !! k); [apply frame_ret | apply frame_raise]; done. Qed.

Lemma frame_replace_names R `{!PreOrder R} v : frame R (replace_names v).
Proof. destruct v; [apply frame_raise | apply frame_ret | apply frame_raise]; done. Qed.

Lemma frame_makedirs R `{!PreOrder R} env d : frame R (makedirs env d).
Proof. unfold makedirs. destruct (makedirs_ok env d); [apply frame_ret | apply frame_raise]; done. Qed.

Lemma frame_paragraph R `{!PreOrder R} env text style : frame R (paragraph env text style).
Proof. unfold paragraph. destruct (markup_ok env text); [apply frame_ret | apply frame_raise]; done. Qed.

Lemma frame_open_logo R `{!PreOrder R} env w h : frame R (open_logo env w h).
Proof. unfold open_logo. destruct (logo_opens env); [apply frame_ret | apply frame_raise]; done. Qed.

Ltac frame_prim := intros ?; reflexivity.

Ltac frame_step :=
  first
    [ apply frame_ret; solve [typeclasses eauto]
    | apply frame_raise; solve [typeclasses eauto]
    | apply frame_getitem; solve [typeclasses eauto]
    | apply frame_replace_names; solve [typeclasses eauto]
    | apply frame_makedirs; solve [typeclasses eauto]
    | apply frame_paragraph; solve [typeclasses eauto]
    | apply frame_open_logo; solve [typeclasses eauto]
    | apply frame_bind; [typeclasses eauto | | intros ?]
    | apply frame_try; [typeclasses eauto | | intros ?]
    | progress case_match
    | frame_prim ].

Ltac frame_solve := repeat frame_step.

Lemma frame_invitation_header {B} (f : State → B) env :
  (∀ v st, f (set_stdout v st) = f st) → frame (same f) (invitation_header env).
Proof.
  intros Hf. unfold invitation_header.
  destruct (path_exists env logo_path); [|apply frame_ret; typeclasses eauto].
  apply frame_try; [typeclasses eauto | frame_solve | intros e].
  apply frame_bind; [typeclasses eauto | | intros ?; apply frame_ret; typeclasses eauto].
  intros st; unfold same, print, modify; simpl; apply Hf.
Qed.

Lemma frame_build {B} (f : State → B) env p els ops :
  (∀ v st, f (set_files v st) = f st) → frame (same f) (build env p els ops).
Proof.
  intros Hf st. unfold build.
  destruct (builds env p els); [|reflexivity].
  destruct (layout env els). unfold same, modify; simpl. apply Hf.
Qed.

Lemma frame_now {B} (f : State → B) env :
  (∀ v st, f (set_ticks v st) = f st) → frame (same f) (datetime_now env).
Proof. intros Hf st. unfold same, datetime_now; simpl. apply Hf. Qed.

(** The renderers touch neither table. *)
Lemma invitation_keeps {B} (f : State → B) env data idate path c base :
  (∀ v st, f (set_stdout v st) = f st) →
  (∀ v st, f (set_files v st) = f st) →
  (∀ v st, f (set_ticks v st) = f st) →
  frame (same f) (generate_interview_invitation_pdf env data idate path c base).
Proof.
  intros H1 H2 H3. unfold generate_interview_invitation_pdf.
  repeat first
    [ apply frame_now; assumption
    | apply frame_invitation_header; assumption
    | apply frame_build; assumption
    | frame_step ].
Qed.

Lemma acceptance_keeps {B} (f : State → B) env data path c base :
  (∀ v st, f (set_files v st) = f st) →
  (∀ v st, f (set_ticks v st) = f st) →
  frame (same f) (generate_acceptance_letter_pdf env data path c base).
Proof.
  intros H2 H3. unfold generate_acceptance_letter_pdf, acceptance_header.
  repeat first
    [ apply frame_now; assumption
    | apply frame_build; assumption
    | frame_step ].
Qed.

Lemma writes_bind {A} env path ops (m : M A) (f : A → M string) :
  frame (same files) m → (∀ a, writes_document env path ops (f a)) →
  writes_document env path ops (m ≫= f).
Proof.
  intros Hm Hf st. rewrite bind_run. specialize (Hm st). unfold same in Hm.
  destruct (m st) as [[e|a] st1]; simpl in Hm; [done|].
  specialize (Hf a st1). destruct (f a st1) as [[e|p] st2]; rewrite <- Hm; done.
Qed.

Lemma writes_build env path els ops :
  writes_document env path ops (build env path els ops;; mret path).
Proof.
  intros st. rewrite bind_run. unfold build.
  destruct (builds env path els); simpl; eauto.
Qed.

Lemma invitation_writes env data idate path c base :
  writes_document env path (add_qr_and_code c base)
    (generate_interview_invitation_pdf env data idate path c base).
Proof.
  unfold generate_interview_invitation_pdf.
  repeat first
    [ apply writes_build
    | apply writes_bind;
        [ first [ apply frame_now; done | apply frame_invitation_header; done
                | solve [frame_solve] ]
        | intros ? ]
    | progress case_match ].
Qed.

Lemma acceptance_writes env data path c base :
  writes_document env path (add_qr_and_code c base)
    (generate_acceptance_letter_pdf env data path c base).
Proof.
  unfold generate_acceptance_letter_pdf, acceptance_header.
  repeat first
    [ apply writes_build
    | apply writes_bind;
        [ first [ apply frame_now; done | solve [frame_solve] ]
        | intros ? ]
    | progress case_match ].
Qed.

Lemma document_of_canvas env els ops pg :
  In pg (pages (document_of env els ops)) → canvas pg = ops.
Proof.
  unfold document_of, pages. destruct (layout env els) as [first later]. simpl.
  intros [<- | Hin]; [done|].
  apply in_map_iff in Hin as (fl & <- & _). done.
Qed.

(** ** The workflow functions *)

(** The [try] body of [update_phase1_status], step by step. *)
Lemma phase1_generate_pdf_run env app_id idate st :
  phase1_generate_pdf env app_id idate st =
  match conn st !! app_id with
  | None => (inr tt, st)
  | Some row =>
      if makedirs_ok env convocations_dir then
        let fname := phase1_pdf_filename app_id (clock env (ticks st)) in
        let vcode := phase1_verification_code app_id (clock env (S (ticks st))) in
        match generate_interview_invitation_pdf env row idate
                (path_join convocations_dir fname) (Some vcode) (base_url_of env)
                (set_ticks (S (S (ticks st))) st) with
        | (inl e, st3) => (inl e, st3)
        | (inr _, st3) =>
            let t := sql_update (pdf_column fname) app_id (conn st3) in
            (inr tt, set_db t (set_conn t st3))
        end
      else (inl (OSError (error_text env (MakeDirs convocations_dir))), st)
  end.
Proof.
  unfold phase1_generate_pdf. rewrite bind_run. unfold fetch_application, gets.
  destruct (conn st !! app_id) as [row|]; [|done].
  rewrite bind_run. unfold makedirs.
  destruct (makedirs_ok env convocations_dir); [|done].
  unfold mret at 1, M_ret. rewrite !bind_run. unfold datetime_now at 1.
  rewrite bind_run. unfold datetime_now at 1. cbn [ticks set_ticks].
  rewrite bind_run.
  change (set_ticks (S (S (ticks st))) (set_ticks (S (ticks st)) st))
    with (set_ticks (S (S (ticks st))) st).
  destruct (generate_interview_invitation_pdf _ _ _ _ _ _ _) as [[e|p] st3]; done.
Qed.

(** Outcome of the [try] body of [update_phase1_status]. *)
Lemma phase1_generate_pdf_outcome env app_id idate st res st' :
  phase1_generate_pdf env app_id idate st = (res, st') →
  let fname := phase1_pdf_filename app_id (clock env (ticks st)) in
  match res with
  | inl _ => db st' = db st ∧ conn st' = conn st ∧ files st' = files st
  | inr _ =>
      match conn st !! app_id with
      | None => st' = st
      | Some _ =>
          conn st' = sql_update (pdf_column fname) app_id (conn st) ∧
          db st' = conn st' ∧
          is_Some (files st' !! path_join convocations_dir fname)
      end
  end.
Proof.
  rewrite phase1_generate_pdf_run.
  destruct (conn st !! app_id) as [row|] eqn:Hrow; [|by intros [= <- <-]].
  destruct (makedirs_ok env convocations_dir); [|by intros [= <- <-]].
  cbv zeta.
  set (st2 := set_ticks _ st).
  set (fname := phase1_pdf_filename _ _).
  set (vcode := phase1_verification_code _ _).
  pose proof (invitation_keeps db env row idate (path_join convocations_dir fname)
                (Some vcode) (base_url_of env) ltac:(done) ltac:(done) ltac:(done) st2) as Hdb.
  pose proof (invitation_keeps conn env row idate (path_join convocations_dir fname)
                (Some vcode) (base_url_of env) ltac:(done) ltac:(done) ltac:(done) st2) as Hconn.
  pose proof (invitation_writes env row idate (path_join convocations_dir fname)
                (Some vcode) (base_url_of env) st2) as Hfiles.
  unfold same in *.
  destruct (generate_interview_invitation_pdf _ _ _ _ _ _ st2) as [[e|p] st3];
    simpl in *; intros [= <- <-].
  - done.
  - destruct Hfiles as [-> [els Hf]]. simpl. rewrite Hconn. split; [done|]. split; [done|].
    rewrite Hf. rewrite lookup_insert_eq. eauto.
Qed.

Lemma update_phase1_selected_run env app_id idate rr st :
  update_phase1_status env app_id "selected_for_interview" idate rr st =
  match phase1_generate_pdf env app_id idate (phase1_selected_entry env app_id idate st) with
  | (inl e, st4) => (inr tt, finish (phase1_pdf_failed e st4).2)
  | (inr _, st4) => (inr tt, finish st4)
  end.
Proof.
  unfold update_phase1_status. rewrite bind_run. unfold get_db_connection, modify.
  rewrite bind_run. unfold datetime_now at 1. cbn [ticks set_conn set_ticks].
  rewrite bind_run.
  change (String.eqb "selected_for_interview" "selected_for_interview") with true.
  cbv iota. rewrite bind_run. unfold execute_update at 1, modify.
  unfold try_except.
  change (set_conn _ (set_ticks _ (set_conn _ st)))
    with (phase1_selected_entry env app_id idate st).
  destruct (phase1_generate_pdf _ _ _ _) as [[e|[]] st4]; [|reflexivity].
  destruct (phase1_pdf_failed e st4) as [[e'|[]] st5] eqn:E; [|reflexivity].
  unfold phase1_pdf_failed, print, print_exc, modify in E. rewrite bind_run in E. done.
Qed.

Lemma update_phase1_rejected_run env app_id idate rr st :
  update_phase1_status env app_id "rejected" idate rr st =
  (inr tt,
   finish (set_conn
     (sql_update (phase1_rejected_columns "rejected" (strftime_sql (clock env (ticks st))) rr)
                 app_id (db st))
     (set_ticks (S (ticks st)) (set_conn (db st) st)))).
Proof. reflexivity. Qed.

Lemma update_phase1_other_run env app_id dec idate rr st :
  dec ≠ "selected_for_interview" → dec ≠ "rejected" →
  update_phase1_status env app_id dec idate rr st =
  (inr tt, finish (set_ticks (S (ticks st)) (set_conn (db st) st))).
Proof.
  intros H1 H2. unfold update_phase1_status. rewrite bind_run.
  unfold get_db_connection, modify. rewrite bind_run. unfold datetime_now at 1.
  rewrite bind_run.
  apply String.eqb_neq in H1, H2. rewrite H1, H2. reflexivity.
Qed.

Lemma update_phase2_run env app_id dec rr st :
  update_phase2_status env app_id dec rr st =
  let now := strftime_sql (clock env (ticks st)) in
  let st1 := set_ticks (S (ticks st)) (set_conn (db st) st) in
  (inr tt,
   finish (if String.eqb dec "accepted" then
             set_conn (sql_update (phase2_accepted_columns dec now) app_id (db st)) st1
           else if String.eqb dec "rejected" then
             set_conn (sql_update (phase2_rejected_columns dec now rr) app_id (db st)) st1
           else st1)).
Proof.
  unfold update_phase2_status. rewrite bind_run.
  unfold get_db_connection, modify. rewrite bind_run. unfold datetime_now at 1.
  rewrite bind_run.
  destruct (String.eqb dec "accepted"); [reflexivity|].
  destruct (String.eqb dec "rejected"); reflexivity.
Qed.

Lemma cell_sql_update sets id t col :
  cell (sql_update sets id t) id col = t !! id ≫= (λ row, set_columns sets row !! col).
Proof.
  unfold cell, sql_update. rewrite lookup_alter_eq. by destruct (t !! id).
Qed.

Lemma cell_sql_update_other sets id t col :
  col ∉ map fst sets → cell (sql_update sets id t) id col = cell t id col.
Proof.
  intros Hnot. rewrite cell_sql_update. unfold cell.
  destruct (t !! id) as [row|]; [simpl|done].
  revert row. induction sets as [|[k v] sets IH]; intros row; [done|].
  simpl in *. rewrite IH.
  - apply lookup_insert_ne. intros ->. apply Hnot. left.
  - intros Hin. apply Hnot. by right.
Qed.

Ltac not_a_column :=
  let Hin := fresh "Hin" in
  cbn; intros Hin;
  repeat (apply elem_of_cons in Hin as [Hin|Hin]; [discriminate|]);
  by apply elem_of_nil in Hin.

Ltac cell_lookup :=
  rewrite cell_sql_update;
  match goal with H : _ !! _ = Some _ |- _ => rewrite H end;
  cbn [mbind option_bind set_columns foldl fst snd
       phase1_selected_columns phase1_rejected_columns
       phase2_accepted_columns phase2_rejected_columns pdf_column];
  repeat (rewrite lookup_insert_ne by done); by rewrite lookup_insert_eq.

(** The five columns of the 'selected_for_interview' decision are committed
    whatever happens to the document. *)
Lemma phase1_selected_fields env app_id idate rr st row :
  db st !! app_id = Some row →
  let r := update_phase1_status env app_id "selected_for_interview" idate rr st in
  r.1 = inr tt ∧
  cell (db r.2) app_id "phase1_status" = Some (PyStr "selected_for_interview") ∧
  cell (db r.2) app_id "phase1_date" = Some (PyStr (strftime_sql (clock env (ticks st)))) ∧
  cell (db r.2) app_id "interview_date" = Some idate ∧
  cell (db r.2) app_id "workflow_phase" = Some (PyStr "phase1") ∧
  cell (db r.2) app_id "status" = Some (PyStr "interview programmé").
Proof.
  intros Hrow. cbv zeta. rewrite update_phase1_selected_run.
  set (entry := phase1_selected_entry env app_id idate st).
  assert (Hentry : conn entry = sql_update
            (phase1_selected_columns "selected_for_interview"
               (strftime_sql (clock env (ticks st))) idate) app_id (db st)) by done.
  destruct (phase1_generate_pdf env app_id idate entry) as [[e|u] st4] eqn:E;
    apply phase1_generate_pdf_outcome in E; cbv zeta in E.
  - destruct E as (_ & Hc & _). simpl. rewrite Hc, Hentry.
    repeat split; cell_lookup.
  - assert (Hsome : is_Some (conn entry !! app_id)).
    { rewrite Hentry. unfold sql_update. rewrite lookup_alter_eq, Hrow. eauto. }
    destruct Hsome as [row1 Hrow1]. rewrite Hrow1 in E. destruct E as (Hc & _ & _).
    simpl. rewrite Hc, Hentry.
    split; [done|].
    rewrite !(cell_sql_update_other (pdf_column _)) by not_a_column.
    repeat split; cell_lookup.
Qed.

(** What becomes of [interview_invitation_pdf] and of the files. *)
Lemma phase1_selected_pdf env app_id idate rr st row :
  db st !! app_id = Some row →
  let r := update_phase1_status env app_id "selected_for_interview" idate rr st in
  let fname := phase1_pdf_filename app_id (clock env (S (ticks st))) in
  match (phase1_generate_pdf env app_id idate (phase1_selected_entry env app_id idate st)).1 with
  | inl _ =>
      cell (db r.2) app_id "interview_invitation_pdf"
      = cell (db st) app_id "interview_invitation_pdf" ∧
      files r.2 = files st
  | inr _ =>
      cell (db r.2) app_id "interview_invitation_pdf" = Some (PyStr fname) ∧
      is_Some (files r.2 !! path_join convocations_dir fname)
  end.
Proof.
  intros Hrow. cbv zeta. rewrite update_phase1_selected_run.
  set (entry := phase1_selected_entry env app_id idate st).
  assert (Hentry : conn entry = sql_update
            (phase1_selected_columns "selected_for_interview"
               (strftime_sql (clock env (ticks st))) idate) app_id (db st)) by done.
  destruct (phase1_generate_pdf env app_id idate entry) as [[e|u] st4] eqn:E;
    apply phase1_generate_pdf_outcome in E; cbv zeta in E.
  - destruct E as (_ & Hc & Hf). simpl. rewrite Hc, Hf, Hentry. split; [|done].
    by rewrite cell_sql_update_other by not_a_column.
  - assert (Hsome : is_Some (conn entry !! app_id)).
    { rewrite Hentry. unfold sql_update. rewrite lookup_alter_eq, Hrow. eauto. }
    destruct Hsome as [row1 Hrow1]. rewrite Hrow1 in E. destruct E as (Hc & _ & Hf).
    simpl. rewrite Hc. split; [|exact Hf].
    rewrite cell_sql_update. rewrite Hrow1. simpl. by rewrite lookup_insert_eq.
Qed.

(** C4, as amended: what the two phase-1 decisions write.  The values of
    [status] are the source's literals 'interview programmé' and 'rejetée',
    not 'interview scheduled' and 'rejected'. *)
Theorem decide_phase1_sets_fields env app_id st :
  is_Some (db st !! app_id) →
  (∀ idate rr,
     let r := update_phase1_status env app_id "selected_for_interview" idate rr st in
     r.1 = inr tt ∧
     cell (db r.2) app_id "phase1_status" = Some (PyStr "selected_for_interview") ∧
     cell (db r.2) app_id "phase1_date" = Some (PyStr (strftime_sql (clock env (ticks st)))) ∧
     cell (db r.2) app_id "interview_date" = Some idate ∧
     cell (db r.2) app_id "workflow_phase" = Some (PyStr "phase1") ∧
     cell (db r.2) app_id "status" = Some (PyStr "interview programmé")) ∧
  (∀ idate reason,
     let r := update_phase1_status env app_id "rejected" idate reason st in
     r.1 = inr tt ∧
     cell (db r.2) app_id "phase1_status" = Some (PyStr "rejected") ∧
     cell (db r.2) app_id "phase1_date" = Some (PyStr (strftime_sql (clock env (ticks st)))) ∧
     cell (db r.2) app_id "rejection_reason" = Some reason ∧
     cell (db r.2) app_id "workflow_phase" = Some (PyStr "completed") ∧
     cell (db r.2) app_id "status" = Some (PyStr "rejetée") ∧
     files r.2 = files st ∧
     cell (db r.2) app_id "interview_invitation_pdf"
     = cell (db st) app_id "interview_invitation_pdf").
Proof.
  intros [row Hrow]. split.
  - intros idate rr. by apply phase1_selected_fields with (row := row).
  - intros idate reason. cbv zeta. rewrite update_phase1_rejected_run. simpl.
    split; [done|].
    rewrite (cell_sql_update_other _ _ _ "interview_invitation_pdf") by not_a_column.
    repeat split; cell_lookup.
Qed.

Lemma decide_phase1_sets_fields_witness :
  is_Some (db Sample.st0 !! 5%Z) ∧
  (let r := update_phase1_status Sample.env 5 "selected_for_interview"
              (PyStr "2025-10-20T09:30") PyNone Sample.st0 in
   cell (db r.2) 5 "phase1_status" = Some (PyStr "selected_for_interview") ∧
   cell (db r.2) 5 "interview_date" = Some (PyStr "2025-10-20T09:30") ∧
   cell (db r.2) 5 "workflow_phase" = Some (PyStr "phase1") ∧
   cell (db r.2) 5 "status" = Some (PyStr "interview programmé")) ∧
  (let r := update_phase1_status Sample.env 5 "rejected" PyNone
              (PyStr "insufficient experience") Sample.st0 in
   cell (db r.2) 5 "phase1_status" = Some (PyStr "rejected") ∧
   cell (db r.2) 5 "rejection_reason" = Some (PyStr "insufficient experience") ∧
   cell (db r.2) 5 "workflow_phase" = Some (PyStr "completed") ∧
   cell (db r.2) 5 "status" = Some (PyStr "rejetée") ∧
   files r.2 = files Sample.st0).
Proof.
  assert (Hrow : is_Some (db Sample.st0 !! 5%Z))
    by decide_by_computation.
  split; [exact Hrow|].
  pose proof (decide_phase1_sets_fields Sample.env 5 Sample.st0 Hrow) as [Hsel Hrej].
  split.
  - destruct (Hsel (PyStr "2025-10-20T09:30") PyNone) as (_ & H1 & _ & H3 & H4 & H5).
    exact (conj H1 (conj H3 (conj H4 H5))).
  - destruct (Hrej PyNone (PyStr "insufficient experience"))
      as (_ & H1 & _ & H3 & H4 & H5 & H6 & _).
    exact (conj H1 (conj H3 (conj H4 (conj H5 H6)))).
Defined.

(** C4, as stated, fails on the values of [status]: after the selection
    the column holds 'interview programmé', after the rejection 'rejetée'. *)
Lemma phase1_status_values_are_french :
  let selected := update_phase1_status Sample.env 5 "selected_for_interview"
                    (PyStr "2025-10-20T09:30") PyNone Sample.st0 in
  let rejected := update_phase1_status Sample.env 5 "rejected" PyNone
                    (PyStr "insufficient experience") Sample.st0 in
  cell (db selected.2) 5 "status" = Some (PyStr "interview programmé") ∧
  cell (db selected.2) 5 "status" ≠ Some (PyStr "interview scheduled") ∧
  cell (db rejected.2) 5 "status" = Some (PyStr "rejetée") ∧
  cell (db rejected.2) 5 "status" ≠ Some (PyStr "rejected").
Proof. vm_compute. repeat split; try reflexivity; discriminate. Qed.

(** C3, as amended: a raise during document generation is caught, the
    decision is committed all the same, and [interview_invitation_pdf] keeps
    the value it had; it receives the new file name exactly when generation
    returns. *)
Theorem phase1_generation_failure_is_caught env app_id idate rr st :
  is_Some (db st !! app_id) →
  let r := update_phase1_status env app_id "selected_for_interview" idate rr st in
  let fname := phase1_pdf_filename app_id (clock env (S (ticks st))) in
  (r.1 = inr tt ∧
   cell (db r.2) app_id "phase1_status" = Some (PyStr "selected_for_interview") ∧
   cell (db r.2) app_id "phase1_date" = Some (PyStr (strftime_sql (clock env (ticks st)))) ∧
   cell (db r.2) app_id "interview_date" = Some idate ∧
   cell (db r.2) app_id "workflow_phase" = Some (PyStr "phase1") ∧
   cell (db r.2) app_id "status" = Some (PyStr "interview programmé")) ∧
  match (phase1_generate_pdf env app_id idate (phase1_selected_entry env app_id idate st)).1 with
  | inl _ =>
      cell (db r.2) app_id "interview_invitation_pdf"
      = cell (db st) app_id "interview_invitation_pdf" ∧
      files r.2 = files st
  | inr _ =>
      cell (db r.2) app_id "interview_invitation_pdf" = Some (PyStr fname) ∧
      truthy (PyStr fname) = true ∧
      is_Some (files r.2 !! path_join convocations_dir fname)
  end.
Proof.
  intros [row Hrow]. cbv zeta. split.
  - by apply phase1_selected_fields with (row := row).
  - pose proof (phase1_selected_pdf env app_id idate rr st row Hrow) as H. cbv zeta in H.
    destruct (phase1_generate_pdf _ _ _ _).1; [exact H|].
    destruct H as [H1 H2]. split; [exact H1|]. split; [reflexivity | exact H2].
Qed.

Lemma phase1_generation_failure_is_caught_witness :
  is_Some (db Sample.st0 !! 5%Z) ∧
  (phase1_generate_pdf Sample.env 5 PyNone
     (phase1_selected_entry Sample.env 5 PyNone Sample.st0)).1
  = inl (AttributeError "NoneType" "replace") ∧
  cell (db (update_phase1_status Sample.env 5 "selected_for_interview" PyNone PyNone
              Sample.st0).2) 5 "status"
  = Some (PyStr "interview programmé").
Proof.
  assert (Hrow : is_Some (db Sample.st0 !! 5%Z))
    by decide_by_computation.
  split; [exact Hrow|]. split; [vm_compute; reflexivity|].
  pose proof (phase1_generation_failure_is_caught Sample.env 5 PyNone PyNone Sample.st0 Hrow)
    as [Hcols _].
  exact (proj2 (proj2 (proj2 (proj2 (proj2 Hcols))))).
Defined.

(** C3, as stated, fails: after a first successful invitation, a second
    decision whose generation raises leaves the old file name in place, so
    the field is not empty in that failure case. *)
Lemma phase1_failure_keeps_previous_pdf :
  let st1 := (update_phase1_status Sample.env 5 "selected_for_interview"
                (PyStr "2025-10-20T09:30") PyNone Sample.st0).2 in
  let r := update_phase1_status Sample.env 5 "selected_for_interview" PyNone PyNone st1 in
  (phase1_generate_pdf Sample.env 5 PyNone (phase1_selected_entry Sample.env 5 PyNone st1)).1
  = inl (AttributeError "NoneType" "replace") ∧
  r.1 = inr tt ∧
  cell (db r.2) 5 "interview_invitation_pdf"
  = Some (PyStr "convocation_5_20251015_140001.pdf").
Proof. vm_compute. repeat split; reflexivity. Qed.

(** C10: a decision outside the recognised values changes nothing and
    raises nothing. *)
Theorem unrecognised_decision_is_noop env app_id dec idate rr st :
  (dec ≠ "selected_for_interview" → dec ≠ "rejected" →
   let r := update_phase1_status env app_id dec idate rr st in
   r.1 = inr tt ∧ db r.2 = db st ∧ files r.2 = files st ∧ stdout r.2 = stdout st) ∧
  (dec ≠ "accepted" → dec ≠ "rejected" →
   let r := update_phase2_status env app_id dec rr st in
   r.1 = inr tt ∧ db r.2 = db st ∧ files r.2 = files st ∧ stdout r.2 = stdout st).
Proof.
  split; intros H1 H2; cbv zeta.
  - by rewrite update_phase1_other_run.
  - rewrite update_phase2_run. apply String.eqb_neq in H1, H2. by rewrite H1, H2.
Qed.

Lemma unrecognised_decision_is_noop_witness :
  "on_hold" ≠ "selected_for_interview" ∧ "on_hold" ≠ "rejected" ∧ "on_hold" ≠ "accepted" ∧
  db (update_phase1_status Sample.env 5 "on_hold" PyNone PyNone Sample.st0).2 = db Sample.st0 ∧
  db (update_phase2_status Sample.env 5 "on_hold" PyNone Sample.st0).2 = db Sample.st0.
Proof.
  assert (H1 : "on_hold" ≠ "selected_for_interview") by discriminate.
  assert (H2 : "on_hold" ≠ "rejected") by discriminate.
  assert (H3 : "on_hold" ≠ "accepted") by discriminate.
  split; [exact H1|]. split; [exact H2|]. split; [exact H3|].
  destruct (unrecognised_decision_is_noop Sample.env 5 "on_hold" PyNone PyNone Sample.st0)
    as [Ha Hb].
  split; [exact (proj1 (proj2 (Ha H1 H2))) | exact (proj1 (proj2 (Hb H3 H2)))].
Defined.

(** C5, as amended: nothing guards a completed application.  Each of the
    four recognised decisions still overwrites its decision columns, with the
    values it writes on any application; [workflow_phase] stays 'completed'
    under every phase-2 decision and under the phase-1 rejection, and goes
    back to 'phase1' under the phase-1 selection. *)
Theorem completed_is_not_guarded env app_id st :
  cell (db st) app_id "workflow_phase" = Some (PyStr "completed") →
  let now := PyStr (strftime_sql (clock env (ticks st))) in
  (∀ idate rr,
     let t := db (update_phase1_status env app_id "selected_for_interview" idate rr st).2 in
     cell t app_id "phase1_status" = Some (PyStr "selected_for_interview") ∧
     cell t app_id "phase1_date" = Some now ∧
     cell t app_id "interview_date" = Some idate ∧
     cell t app_id "status" = Some (PyStr "interview programmé") ∧
     cell t app_id "workflow_phase" = Some (PyStr "phase1")) ∧
  (∀ idate rr,
     let t := db (update_phase1_status env app_id "rejected" idate rr st).2 in
     cell t app_id "phase1_status" = Some (PyStr "rejected") ∧
     cell t app_id "phase1_date" = Some now ∧
     cell t app_id "rejection_reason" = Some rr ∧
     cell t app_id "status" = Some (PyStr "rejetée") ∧
     cell t app_id "workflow_phase" = Some (PyStr "completed")) ∧
  (∀ rr,
     let t := db (update_phase2_status env app_id "accepted" rr st).2 in
     cell t app_id "phase2_status" = Some (PyStr "accepted") ∧
     cell t app_id "phase2_date" = Some now ∧
     cell t app_id "status" = Some (PyStr "acceptée") ∧
     cell t app_id "workflow_phase" = Some (PyStr "completed")) ∧
  (∀ rr,
     let t := db (update_phase2_status env app_id "rejected" rr st).2 in
     cell t app_id "phase2_status" = Some (PyStr "rejected") ∧
     cell t app_id "phase2_date" = Some now ∧
     cell t app_id "rejection_reason" = Some rr ∧
     cell t app_id "status" = Some (PyStr "rejetée") ∧
     cell t app_id "workflow_phase" = Some (PyStr "completed")) ∧
  (∀ dec rr,
     cell (db (update_phase2_status env app_id dec rr st).2) app_id "workflow_phase"
     = Some (PyStr "completed")).
Proof.
  intros Hphase. unfold cell in Hphase.
  destruct (db st !! app_id) as [row|] eqn:Hrow; [simpl in Hphase | discriminate].
  cbv zeta. split; [|split; [|split; [|split]]].
  - intros idate rr.
    destruct (phase1_selected_fields env app_id idate rr st row Hrow)
      as (_ & H1 & H2 & H3 & H4 & H5).
    done.
  - intros idate rr. rewrite update_phase1_rejected_run. simpl. repeat split; cell_lookup.
  - intros rr. rewrite update_phase2_run. simpl. repeat split; cell_lookup.
  - intros rr. rewrite update_phase2_run. simpl. repeat split; cell_lookup.
  - intros dec rr. rewrite update_phase2_run. cbv zeta.
    destruct (String.eqb dec "accepted"); [simpl; cell_lookup|].
    destruct (String.eqb dec "rejected"); [simpl; cell_lookup|].
    simpl. unfold cell. by rewrite Hrow.
Qed.

Lemma completed_is_not_guarded_witness :
  cell (db rejected5) 5 "workflow_phase" = Some (PyStr "completed") ∧
  (let t := db (update_phase1_status Sample.env 5 "selected_for_interview"
                  (PyStr "2025-10-20T09:30") PyNone rejected5).2 in
   cell t 5 "phase1_status" = Some (PyStr "selected_for_interview") ∧
   cell t 5 "workflow_phase" = Some (PyStr "phase1")) ∧
  (let t := db (update_phase2_status Sample.env 5 "accepted" PyNone rejected5).2 in
   cell t 5 "phase2_status" = Some (PyStr "accepted") ∧
   cell t 5 "status" = Some (PyStr "acceptée") ∧
   cell t 5 "workflow_phase" = Some (PyStr "completed")).
Proof.
  assert (H : cell (db rejected5) 5 "workflow_phase" = Some (PyStr "completed"))
    by (vm_compute; reflexivity).
  split; [exact H|].
  pose proof (completed_is_not_guarded Sample.env 5 rejected5 H) as (Hs & _ & Ha & _).
  split.
  - destruct (Hs (PyStr "2025-10-20T09:30") PyNone) as (H1 & _ & _ & _ & H5).
    exact (conj H1 H5).
  - destruct (Ha PyNone) as (H1 & _ & H3 & H4). exact (conj H1 (conj H3 H4)).
Defined.

(** C5, as stated, fails: the rejected (completed) application 5 accepts a
    new phase-1 decision, which rewrites its workflow columns. *)
Lemma completed_application_still_moves :
  cell (db rejected5) 5 "workflow_phase" = Some (PyStr "completed") ∧
  let r := update_phase1_status Sample.env 5 "selected_for_interview"
             (PyStr "2025-10-20T09:30") PyNone rejected5 in
  cell (db r.2) 5 "workflow_phase" = Some (PyStr "phase1") ∧
  cell (db r.2) 5 "phase1_status" = Some (PyStr "selected_for_interview") ∧
  cell (db r.2) 5 "status" = Some (PyStr "interview programmé") ∧
  cell (db r.2) 5 "workflow_phase" ≠ cell (db rejected5) 5 "workflow_phase".
Proof. vm_compute. repeat split; try reflexivity. discriminate. Qed.

(** ** The renderers *)

Lemma add_qr_and_code_supplied c base :
  c ≠ "" →
  In (DrawImage (QRCode (base +:+ "/verify/" +:+ c)) 12 257 30 30)
     (add_qr_and_code (Some c) base) ∧
  In (DrawCentredString 105 17 ("Code de vérification : " +:+ c))
     (add_qr_and_code (Some c) base).
Proof.
  intros Hc. unfold add_qr_and_code, supplied.
  apply String.eqb_neq in Hc. rewrite Hc. simpl. tauto.
Qed.

Lemma add_qr_and_code_none base : add_qr_and_code None base = [].
Proof. reflexivity. Qed.

Lemma add_qr_and_code_empty base : add_qr_and_code (Some "") base = [].
Proof. reflexivity. Qed.

(** *** What the renderers run to *)

Lemma invitation_header_run env st :
  invitation_header env st =
  if path_exists env logo_path then
    if logo_opens env then (inr [Image logo_path 40 40; Spacer 3], st)
    else (inr text_header,
          set_stdout (stdout st ++
            [Printed ("Erreur lors du chargement du logo: " +:+
                      error_text env (OpenImage logo_path))]) st)
  else (inr text_header, st).
Proof.
  unfold invitation_header, try_except, open_logo.
  destruct (path_exists env logo_path); [|reflexivity].
  rewrite bind_run. destruct (logo_opens env); reflexivity.
Qed.

Lemma invitation_header_frame env st hdr st1 :
  invitation_header env st = (inr hdr, st1) →
  ticks st1 = ticks st ∧ files st1 = files st ∧ db st1 = db st ∧ conn st1 = conn st ∧
  (hdr = [Image logo_path 40 40; Spacer 3] ∧ stdout st1 = stdout st ∧
     path_exists env logo_path = true ∧ logo_opens env = true ∨
   hdr = text_header ∧ stdout st1 = stdout st ∧ path_exists env logo_path = false ∨
   hdr = text_header ∧ path_exists env logo_path = true ∧ logo_opens env = false ∧
     stdout st1 = stdout st ++
       [Printed ("Erreur lors du chargement du logo: " +:+
                 error_text env (OpenImage logo_path))]).
Proof.
  rewrite invitation_header_run.
  destruct (path_exists env logo_path), (logo_opens env); intros [= <- <-]; simpl;
    do 4 (split; [reflexivity|]); tauto.
Qed.

Lemma invitation_header_returns env st :
  ∃ hdr st1, invitation_header env st = (inr hdr, st1).
Proof.
  rewrite invitation_header_run.
  destruct (path_exists env logo_path), (logo_opens env); eauto.
Qed.

Lemma acceptance_header_run env st :
  acceptance_header env st =
  if path_exists env logo_path then
    if logo_opens env then (inr [Image logo_path 30 30; Spacer 5], st)
    else (inl (OSError (error_text env (OpenImage logo_path))), st)
  else (inr [], st).
Proof.
  unfold acceptance_header, open_logo.
  destruct (path_exists env logo_path); [|reflexivity].
  rewrite bind_run. destruct (logo_opens env); reflexivity.
Qed.

Lemma acceptance_header_opens env st :
  (path_exists env logo_path = true → logo_opens env = true) →
  acceptance_header env st = (inr (acceptance_logo env), st).
Proof.
  intros H. rewrite acceptance_header_run. unfold acceptance_logo.
  destruct (path_exists env logo_path); [|reflexivity]. by rewrite H.
Qed.


(** Read a field that is known to be there; parse a text that is known to
    be well-formed. *)
Ltac read_field H :=
  rewrite bind_run; unfold getitem at 1; rewrite H; cbv beta iota;
  unfold mret at 1, M_ret at 1; cbv beta iota.

Ltac parse_text H :=
  rewrite bind_run; unfold paragraph at 1; rewrite H; cbv beta iota;
  unfold mret at 1, M_ret at 1; cbv beta iota.



(** The invitation, once its candidate fields are known to be there and the
    texts built from them to be well-formed: what is left is the date, the
    [id], the reference and the build. *)
Lemma invitation_with_fields env data idate path c base st :
  has_invitation_fields data →
  all_parse env (invitation_body_texts data) →
  ∃ st1 hdr,
    invitation_header env (set_ticks (S (ticks st)) st) = (inr hdr, st1) ∧
    generate_interview_invitation_pdf env data idate path c base st =
    (let '(formatted_date, formatted_day, formatted_time) :=
       match idate with
       | PyStr s =>
           match strptime env s with
           | Some interview_dt =>
               (PyStr (strftime_long interview_dt), PyStr (strftime_dmY interview_dt),
                strftime_HM interview_dt)
           | None => (idate, idate, "À confirmer")
           end
       | _ => (idate, idate, "À confirmer")
       end in
     replace_names formatted_date;;
     id ← getitem data "id";
     now' ← datetime_now env;
     reference_par ← paragraph env (invitation_reference id now') "Footer";
     build env path
       (invitation_elements (strftime_dmY (clock env (ticks st))) hdr
          (dict_get data "prenom" PyNone) (dict_get data "nom" PyNone)
          (dict_get data "email" PyNone) (dict_get data "telephone" PyNone)
          (dict_get data "adresse" PyNone) (dict_get data "nom" PyNone)
          (job_title_display data) formatted_day formatted_time reference_par)
       (add_qr_and_code c base);;
     mret path) st1.
Proof.
  intros ([prenom Hp] & [nom Hn] & [email He] & [tel Ht] & [adr Ha] & Hjob) Hparse.
  unfold all_parse, invitation_body_texts in Hparse.
  apply Forall_cons in Hparse as [Hrec Hparse]. apply Forall_cons in Hparse as [Hsal Hparse].
  apply Forall_cons in Hparse as [Hintro _].
  unfold invitation_recipient_of, invitation_salutation_of, dict_get in Hrec, Hsal.
  rewrite ?Hp, ?Hn, ?He, ?Ht, ?Ha in Hrec. rewrite Hn in Hsal. simpl default in Hrec, Hsal.
  unfold generate_interview_invitation_pdf.
  rewrite bind_run. unfold datetime_now at 1. rewrite bind_run.
  destruct (invitation_header_returns env (set_ticks (S (ticks st)) st)) as (hdr & st1 & Hh).
  rewrite Hh. exists st1, hdr. split; [reflexivity|].
  read_field Hp. read_field Hn. read_field He. read_field Ht. read_field Ha.
  parse_text Hrec. read_field Hn. parse_text Hsal.
  rewrite bind_run. unfold job_title_display, dict_get in Hintro |- *.
  rewrite Hp, Hn, He, Ht, Ha. simpl default.
  destruct (truthy (default PyNone (data !! "selected_job_title"))) eqn:Hsel.
  - unfold mret at 1, M_ret at 1. cbv beta iota. parse_text Hintro. reflexivity.
  - destruct Hjob as [Hjob | [job Hj]].
    { unfold dict_get in Hjob. congruence. }
    rewrite Hj in Hintro. simpl default in Hintro.
    unfold getitem at 1. rewrite Hj. unfold mret at 1, M_ret at 1. cbv beta iota.
    parse_text Hintro. reflexivity.
Qed.

(** The end of both renderers: read [id], read the clock, parse the
    reference, build. *)
Lemma render_tail env data path ops st1 id
    (ref : pyval → datetime → string) (F : Flowable → list Flowable) :
  data !! "id" = Some id →
  markup_ok env (ref id (clock env (ticks st1))) = true →
  (id ← getitem data "id";
   now' ← datetime_now env;
   reference_par ← paragraph env (ref id now') "Footer";
   build env path (F reference_par) ops;;
   mret path) st1
  = (let els := F (Paragraph (ref id (clock env (ticks st1))) "Footer") in
     let st2 := set_ticks (S (ticks st1)) st1 in
     if builds env path els
     then (inr path, set_files (<[path := document_of env els ops]> (files st1)) st2)
     else (inl (BuildError (error_text env (BuildDocument path))), st2)).
Proof.
  intros Hid Href.
  rewrite bind_run. unfold getitem at 1. rewrite Hid.
  unfold mret at 1, M_ret at 1. cbv beta iota.
  rewrite bind_run. unfold datetime_now at 1. cbv beta iota.
  rewrite bind_run. unfold paragraph at 1. rewrite Href.
  unfold mret at 1, M_ret at 1. cbv beta iota zeta.
  rewrite bind_run. unfold build at 1.
  destruct (builds env path _); reflexivity.
Qed.

(** The invitation for a candidate with all fields, an [id] and a text
    date, when its texts are well-formed: it returns exactly when the build
    succeeds. *)
Lemma invitation_renders env data s path c base st id :
  has_invitation_fields data →
  data !! "id" = Some id →
  all_parse env (invitation_body_texts data) →
  markup_ok env (invitation_reference id (clock env (S (ticks st)))) = true →
  ∃ st1 hdr,
    invitation_header env (set_ticks (S (ticks st)) st) = (inr hdr, st1) ∧
    let els :=
      invitation_elements (strftime_dmY (clock env (ticks st))) hdr
        (dict_get data "prenom" PyNone) (dict_get data "nom" PyNone)
        (dict_get data "email" PyNone) (dict_get data "telephone" PyNone)
        (dict_get data "adresse" PyNone) (dict_get data "nom" PyNone)
        (job_title_display data)
        (PyStr (match strptime env s with Some dt => strftime_dmY dt | None => s end))
        (match strptime env s with Some dt => strftime_HM dt | None => "À confirmer" end)
        (Paragraph (invitation_reference id (clock env (S (ticks st)))) "Footer") in
    let st2 := set_ticks (S (S (ticks st))) st1 in
    generate_interview_invitation_pdf env data (PyStr s) path c base st =
    if builds env path els
    then (inr path,
          set_files (<[path := document_of env els (add_qr_and_code c base)]> (files st1)) st2)
    else (inl (BuildError (error_text env (BuildDocument path))), st2).
Proof.
  intros Hfields Hid Hparse Href.
  destruct (invitation_with_fields env data (PyStr s) path c base st Hfields Hparse)
    as (st1 & hdr & Hh & Hrun).
  exists st1, hdr. split; [exact Hh|].
  apply invitation_header_frame in Hh as (Hticks & _).
  assert (Href1 : markup_ok env (invitation_reference id (clock env (ticks st1))) = true)
    by (by rewrite Hticks).
  destruct (strptime env s) as [dt|]; cbv beta iota zeta in Hrun |- *; rewrite Hrun; clear Hrun;
    rewrite bind_run; unfold replace_names at 1, mret at 1, M_ret at 1; cbv beta iota;
    rewrite (render_tail env data path _ st1 id invitation_reference
               (λ footer, invitation_elements _ hdr _ _ _ _ _ _ _ _ _ footer) Hid Href1);
    cbv zeta; rewrite Hticks; reflexivity.
Qed.

(** The acceptance letter when the logo is absent or opens and the texts
    are well-formed: it raises [KeyError] without an [id], and with one it
    returns exactly when the build succeeds. *)
Lemma acceptance_with_texts env data path c base st :
  (path_exists env logo_path = true → logo_opens env = true) →
  all_parse env (acceptance_body_texts data) →
  generate_acceptance_letter_pdf env data path c base st =
  (id ← getitem data "id";
   now' ← datetime_now env;
   reference_par ← paragraph env (acceptance_reference id now') "Footer";
   build env path
     (acceptance_elements (acceptance_logo env) (strftime_dmY (clock env (ticks st))) data
        reference_par)
     (add_qr_and_code c base);;
   mret path) (set_ticks (S (ticks st)) st).
Proof.
  intros Hlogo Hparse.
  unfold all_parse, acceptance_body_texts in Hparse. cbv zeta in Hparse.
  apply Forall_cons in Hparse as [Hrec Hparse]. apply Forall_cons in Hparse as [Hobj Hparse].
  apply Forall_cons in Hparse as [Hsal Hparse]. apply Forall_cons in Hparse as [Hp1 _].
  unfold generate_acceptance_letter_pdf.
  rewrite bind_run, (acceptance_header_opens env st Hlogo).
  rewrite bind_run. unfold datetime_now at 1. cbv beta iota.
  parse_text Hrec. parse_text Hobj. parse_text Hsal. parse_text Hp1.
  reflexivity.
Qed.

Lemma acceptance_renders env data path c base st id :
  data !! "id" = Some id →
  (path_exists env logo_path = true → logo_opens env = true) →
  all_parse env (acceptance_body_texts data) →
  markup_ok env (acceptance_reference id (clock env (S (ticks st)))) = true →
  let els :=
    acceptance_elements (acceptance_logo env) (strftime_dmY (clock env (ticks st))) data
      (Paragraph (acceptance_reference id (clock env (S (ticks st)))) "Footer") in
  let st2 := set_ticks (S (S (ticks st))) st in
  generate_acceptance_letter_pdf env data path c base st =
  if builds env path els
  then (inr path,
        set_files (<[path := document_of env els (add_qr_and_code c base)]> (files st)) st2)
  else (inl (BuildError (error_text env (BuildDocument path))), st2).
Proof.
  intros Hid Hlogo Hparse Href. cbv zeta.
  rewrite (acceptance_with_texts env data path c base st Hlogo Hparse).
  rewrite (render_tail env data path _ (set_ticks (S (ticks st)) st) id acceptance_reference
             (λ footer, acceptance_elements _ _ data footer) Hid Href).
  reflexivity.
Qed.


(** [doc.build] succeeds when both of its parts do. *)
Lemma builds_true env path els :
  logo_is_image env = true → build_ok env path els = true → builds env path els = true.
Proof.
  intros Himg Hok. unfold builds. rewrite Hok, andb_true_r.
  unfold images_load. apply forallb_forall. intros f _. rewrite Himg. by destruct f.
Qed.

(** *** The verification mark *)

(** C8: the page decoration of both renderers.  Whenever a renderer returns,
    every page of the document it wrote carries the QR code of
    [{base_url}/verify/{code}] and the code as text, at fixed positions, when
    a non-empty code was given, and no decoration when no code or the empty
    string was given.  And the renderers do return: for data with its fields
    and an [id], a text date, a logo that opens or is absent and well-formed
    texts, each returns exactly when [doc.build] succeeds on the story it has
    assembled. *)
Theorem verification_mark_on_every_page env data s path c base st id :
  (∀ idate p st',
     generate_interview_invitation_pdf env data idate path c base st = (inr p, st') ∨
     generate_acceptance_letter_pdf env data path c base st = (inr p, st') →
     ∃ doc, files st' !! path = Some doc ∧
       ∀ pg, In pg (pages doc) →
         match c with
         | Some code =>
             if String.eqb code "" then canvas pg = []
             else
               In (DrawImage (QRCode (base +:+ "/verify/" +:+ code)) 12 257 30 30) (canvas pg) ∧
               In (DrawCentredString 105 17 ("Code de vérification : " +:+ code)) (canvas pg)
         | None => canvas pg = []
         end) ∧
  (data !! "id" = Some id →
   has_invitation_fields data →
   all_parse env (invitation_body_texts data) →
   markup_ok env (invitation_reference id (clock env (S (ticks st)))) = true →
   ∃ els,
     let r := generate_interview_invitation_pdf env data (PyStr s) path c base st in
     if builds env path els
     then r.1 = inr path ∧
          files r.2 !! path = Some (document_of env els (add_qr_and_code c base))
     else r.1 = inl (BuildError (error_text env (BuildDocument path))) ∧ files r.2 = files st) ∧
  (data !! "id" = Some id →
   (path_exists env logo_path = true → logo_opens env = true) →
   all_parse env (acceptance_body_texts data) →
   markup_ok env (acceptance_reference id (clock env (S (ticks st)))) = true →
   ∃ els,
     let r := generate_acceptance_letter_pdf env data path c base st in
     if builds env path els
     then r.1 = inr path ∧
          files r.2 !! path = Some (document_of env els (add_qr_and_code c base))
     else r.1 = inl (BuildError (error_text env (BuildDocument path))) ∧ files r.2 = files st).
Proof.
  split; [|split].
  - intros idate p st' H.
    assert (Hw : ∃ els, files st'
                        = <[path := document_of env els (add_qr_and_code c base)]> (files st)).
    { destruct H as [H|H].
      - pose proof (invitation_writes env data idate path c base st) as Hw.
        rewrite H in Hw. apply Hw.
      - pose proof (acceptance_writes env data path c base st) as Hw.
        rewrite H in Hw. apply Hw. }
    destruct Hw as [els Hf]. eexists. split.
    { rewrite Hf. apply lookup_insert_eq. }
    intros pg Hpg. apply document_of_canvas in Hpg. rewrite Hpg.
    destruct c as [code|]; [|reflexivity].
    destruct (String.eqb code "") eqn:Hcode.
    + apply String.eqb_eq in Hcode. by subst code.
    + apply add_qr_and_code_supplied. by apply String.eqb_neq.
  - intros Hid Hfields Hparse Href.
    destruct (invitation_renders env data s path c base st id Hfields Hid Hparse Href)
      as (st1 & hdr & Hh & Hrun).
    apply invitation_header_frame in Hh as (_ & Hfiles & _).
    cbv zeta in Hrun.
    match type of Hrun with _ = (if builds _ _ ?e then _ else _) => exists e end.
    cbv zeta. rewrite Hrun.
    destruct (builds env path _); cbn [fst snd files set_files set_ticks].
    + split; [reflexivity | apply lookup_insert_eq].
    + split; [reflexivity | exact Hfiles].
  - intros Hid Hlogo Hparse Href.
    pose proof (acceptance_renders env data path c base st id Hid Hlogo Hparse Href) as Hrun.
    cbv zeta in Hrun.
    match type of Hrun with _ = (if builds _ _ ?e then _ else _) => exists e end.
    cbv zeta. rewrite Hrun.
    destruct (builds env path _); cbn [fst snd files set_files set_ticks].
    + split; [reflexivity | apply lookup_insert_eq].
    + split; [reflexivity | reflexivity].
Qed.

Lemma verification_mark_on_every_page_witness :
  Sample.application5 !! "id" = Some (PyInt 5) ∧
  has_invitation_fields Sample.application5 ∧
  all_parse Sample.env (invitation_body_texts Sample.application5) ∧
  markup_ok Sample.env
    (invitation_reference (PyInt 5) (clock Sample.env (S (ticks Sample.st0)))) = true ∧
  (path_exists Sample.env logo_path = true → logo_opens Sample.env = true) ∧
  all_parse Sample.env (acceptance_body_texts Sample.application5) ∧
  markup_ok Sample.env
    (acceptance_reference (PyInt 5) (clock Sample.env (S (ticks Sample.st0)))) = true ∧
  (∃ els,
     let r := generate_interview_invitation_pdf Sample.env Sample.application5
                (PyStr "2025-10-20T09:30") "out.pdf" (Some "5F58EF1EB8426DC8")
                "http://localhost:5000" Sample.st0 in
     if builds Sample.env "out.pdf" els
     then r.1 = inr "out.pdf" ∧
          files r.2 !! "out.pdf"
          = Some (document_of Sample.env els
                    (add_qr_and_code (Some "5F58EF1EB8426DC8") "http://localhost:5000"))
     else r.1 = inl (BuildError (error_text Sample.env (BuildDocument "out.pdf"))) ∧
          files r.2 = files Sample.st0) ∧
  (let r := generate_acceptance_letter_pdf Sample.env Sample.application5 "out.pdf"
              (Some "5F58EF1EB8426DC8") "http://localhost:5000" Sample.st0 in
   r.1 = inr "out.pdf" ∧
   ∃ doc, files r.2 !! "out.pdf" = Some doc ∧
     ∀ pg, In pg (pages doc) →
       In (DrawImage (QRCode "http://localhost:5000/verify/5F58EF1EB8426DC8") 12 257 30 30)
          (canvas pg) ∧
       In (DrawCentredString 105 17 "Code de vérification : 5F58EF1EB8426DC8") (canvas pg)).
Proof.
  assert (H1 : Sample.application5 !! "id" = Some (PyInt 5)) by (vm_compute; reflexivity).
  assert (H2 : has_invitation_fields Sample.application5)
    by (unfold has_invitation_fields; decide_by_computation).
  assert (H3 : all_parse Sample.env (invitation_body_texts Sample.application5)).
  { unfold all_parse, invitation_body_texts.
    repeat (apply Forall_cons; split; [vm_compute; reflexivity|]). apply Forall_nil. done. }
  assert (H4 : markup_ok Sample.env
                 (invitation_reference (PyInt 5) (clock Sample.env (S (ticks Sample.st0))))
               = true) by (vm_compute; reflexivity).
  assert (H5 : path_exists Sample.env logo_path = true → logo_opens Sample.env = true)
    by (intros _; reflexivity).
  assert (H6 : all_parse Sample.env (acceptance_body_texts Sample.application5)).
  { unfold all_parse, acceptance_body_texts. cbv zeta.
    repeat (apply Forall_cons; split; [vm_compute; reflexivity|]). apply Forall_nil. done. }
  assert (H7 : markup_ok Sample.env
                 (acceptance_reference (PyInt 5) (clock Sample.env (S (ticks Sample.st0))))
               = true) by (vm_compute; reflexivity).
  do 7 (split; [assumption|]).
  pose proof (verification_mark_on_every_page Sample.env Sample.application5
                "2025-10-20T09:30" "out.pdf" (Some "5F58EF1EB8426DC8")
                "http://localhost:5000" Sample.st0 (PyInt 5)) as (Hmark & Hinv & _).
  split; [exact (Hinv H1 H2 H3 H4)|].
  intros r.
  assert (E1 : r.1 = inr "out.pdf") by (vm_compute; reflexivity).
  split; [exact E1|].
  exact (Hmark PyNone "out.pdf" r.2 (or_intror (run_eq r "out.pdf" E1))).
Defined.

(** *** Missing fields *)




(** The error of a malformed text comes before the error of a missing job
    title: with the first name [A<B] and no job title the invitation raises
    [ValueError]. *)
Example invitation_markup_error_comes_first :
  let data := <["prenom" := PyStr "A<B"]> (delete "job_title" Sample.application5) in
  (generate_interview_invitation_pdf Sample.env data (PyStr "2025-10-20T09:30") "out.pdf" None
     "http://localhost:5000" Sample.st0).1
  = inl (ValueError (error_text Sample.env (ParseMarkup (invitation_recipient_of data)))).
Proof. vm_compute. reflexivity. Qed.

(** ** Verification codes *)

Lemma length_be_bytes n x : length (SHA256.be_bytes n x) = n.
Proof. induction n; simpl; congruence. Qed.

Lemma length_digest msg : length (SHA256.digest msg) = 32.
Proof.
  unfold SHA256.digest, SHA256.regs_bytes.
  rewrite !length_app, !length_be_bytes. reflexivity.
Qed.

Lemma length_hex bs : String.length (hex bs) = 2 * length bs.
Proof. induction bs; simpl; lia. Qed.

Lemma hex_digit_lower n : is_lower_hex (hex_digit n) = true.
Proof.
  destruct n as [|p]; [reflexivity|].
  do 4 (destruct p as [p|p|]; try reflexivity).
Qed.

Lemma hex_lower bs : Forall (λ c, is_lower_hex c = true) (chars (hex bs)).
Proof.
  induction bs; simpl; [constructor|].
  repeat constructor; auto using hex_digit_lower.
Qed.

Lemma length_prefix (n : nat) s :
  (n ≤ String.length s)%nat → String.length (prefix n s) = n.
Proof.
  revert s. induction n; intros [|c s]; simpl; intros; try lia.
  rewrite IHn; lia.
Qed.

Lemma prefix_chars (P : ascii → Prop) n s :
  Forall P (chars s) → Forall P (chars (prefix n s)).
Proof.
  revert s. induction n; intros [|c s]; simpl; intros H; try constructor.
  - by inversion H.
  - apply IHn. by inversion H.
Qed.

Lemma length_upper s : String.length (upper s) = String.length s.
Proof. induction s; simpl; congruence. Qed.

Lemma upper_char_hex c : is_lower_hex c = true → is_upper_alnum (upper_char c) = true.
Proof.
  destruct c as [[] [] [] [] [] [] [] []]; vm_compute; congruence.
Qed.

Lemma upper_hex s :
  Forall (λ c, is_lower_hex c = true) (chars s) →
  Forall (λ c, is_upper_alnum c = true) (chars (upper s)).
Proof.
  induction s; simpl; intros H; [constructor|].
  inversion H; subst. constructor; auto using upper_char_hex.
Qed.

(** The generator's codes: 16 characters of [[A-Z0-9]]. *)
Lemma verification_code_of_shape id dt ts salt :
  String.length (verification_code_of id dt ts salt) = 16 ∧
  Forall (λ c, is_upper_alnum c = true) (chars (verification_code_of id dt ts salt)).
Proof.
  unfold verification_code_of, sha256_hexdigest. split.
  - rewrite length_upper, length_prefix; [done|].
    rewrite length_hex, length_digest. lia.
  - apply upper_hex, prefix_chars, hex_lower.
Qed.

Lemma generate_verification_code_run env id dt st :
  generate_verification_code env id dt st =
  (inr (verification_code_of id dt (isoformat (clock env (ticks st)))
          (hex (map (λ i, N.land (random_byte env (draws st) i) 0xFF) (seq 0 16)))),
   set_draws (S (draws st)) (set_ticks (S (ticks st)) st)).
Proof. reflexivity. Qed.

Lemma generate_verification_code_shape env id dt st :
  ∃ c st', generate_verification_code env id dt st = (inr c, st') ∧
    String.length c = 16 ∧ Forall (λ ch, is_upper_alnum ch = true) (chars c).
Proof.
  rewrite generate_verification_code_run. eexists _, _. split; [reflexivity|].
  apply verification_code_of_shape.
Qed.

(** The salt is 32 hexadecimal characters. *)
Lemma token_hex_length env n st : ∃ s st', token_hex env n st = (inr s, st') ∧ String.length s = 2 * n.
Proof.
  eexists _, _. split; [reflexivity|]. by rewrite length_hex, length_map, length_seq.
Qed.

(** The code of the phase-1 transition always has a hyphen in fifth place. *)
Lemma phase1_code_has_hyphen app_id now :
  ¬ Forall (λ c, is_upper_alnum c = true) (chars (phase1_verification_code app_id now)).
Proof.
  unfold phase1_verification_code. simpl. intros H.
  do 4 (apply Forall_cons in H as [_ H]). apply Forall_cons in H as [H _]. discriminate.
Qed.

(** It depends on the application and the calendar day only. *)
Lemma phase1_code_same_day app_id t1 t2 :
  year t1 = year t2 → month t1 = month t2 → day t1 = day t2 →
  phase1_verification_code app_id t1 = phase1_verification_code app_id t2.
Proof.
  intros Hy Hm Hd. unfold phase1_verification_code, strftime_Ymd, strftime_Y.
  by rewrite Hy, Hm, Hd.
Qed.

(** C1 at the failing input: the invitation that the phase-1 transition
    writes for application 5 carries, on every page, the code
    [CONV-5-20251015]: 15 characters, two of them hyphens, not a code of
    [generate_verification_code]. *)
Theorem phase1_invitation_code_is_not_generated :
  let r := update_phase1_status Sample.env 5 "selected_for_interview"
             (PyStr "2025-10-20T09:30") PyNone Sample.st0 in
  phase1_verification_code 5 (clock Sample.env 2) = "CONV-5-20251015" ∧
  String.length "CONV-5-20251015" = 15 ∧
  existsb (λ c, negb (is_upper_alnum c)) (chars "CONV-5-20251015") = true ∧
  ∃ doc,
    files r.2 !! "static/convocations/convocation_5_20251015_140001.pdf" = Some doc ∧
    Forall
      (λ pg,
         In (DrawImage (QRCode "http://localhost:5000/verify/CONV-5-20251015") 12 257 30 30)
            (canvas pg) ∧
         In (DrawCentredString 105 17 "Code de vérification : CONV-5-20251015") (canvas pg))
      (pages doc).
Proof.
  cbv zeta. split; [vm_compute; reflexivity|]. split; [reflexivity|].
  split; [vm_compute; reflexivity|].
  eexists. split; [vm_compute; reflexivity|].
  vm_compute. repeat constructor; tauto.
Qed.

(** C6 at the failing input: two phase-1 decisions for application 5 on the
    same day write two invitations that carry the same code. *)
Theorem phase1_reissue_repeats_code :
  let r1 := update_phase1_status Sample.env 5 "selected_for_interview"
              (PyStr "2025-10-20T09:30") PyNone Sample.st0 in
  let r2 := update_phase1_status Sample.env 5 "selected_for_interview"
              (PyStr "2025-10-21T11:00") PyNone r1.2 in
  phase1_verification_code 5 (clock Sample.env 2) = phase1_verification_code 5 (clock Sample.env 7) ∧
  ∃ doc1 doc2,
    files r2.2 !! "static/convocations/convocation_5_20251015_140001.pdf" = Some doc1 ∧
    files r2.2 !! "static/convocations/convocation_5_20251015_140006.pdf" = Some doc2 ∧
    In (DrawCentredString 105 17 "Code de vérification : CONV-5-20251015")
       (canvas (first_page doc1)) ∧
    In (DrawCentredString 105 17 "Code de vérification : CONV-5-20251015")
       (canvas (first_page doc2)).
Proof.
  cbv zeta. split; [vm_compute; reflexivity|].
  eexists _, _. split; [vm_compute; reflexivity|]. split; [vm_compute; reflexivity|].
  vm_compute. tauto.
Qed.

(** Two draws of the generator, for the same application and document type,
    with the sample clock and entropy: the codes differ. *)
Example generated_codes_differ :
  let r1 := generate_verification_code Sample.env 5 "convocation" Sample.st0 in
  let r2 := generate_verification_code Sample.env 5 "convocation" r1.2 in
  r1.1 = inr "5F58EF1EB8426DC8" ∧ r2.1 ≠ r1.1.
Proof. vm_compute. split; [reflexivity | discriminate]. Qed.

(** ** The registry *)

Lemma find_app_fresh {A} (f : A → bool) l x :
  existsb f l = false → f x = true → find f (l ++ [x]) = Some x.
Proof.
  induction l as [|y l IH]; simpl; intros He Hx; [by rewrite Hx|].
  apply orb_false_iff in He as [Hy He]. rewrite Hy. auto.
Qed.

Lemma find_none_iff {A} (f : A → bool) l :
  (∀ x, In x l → f x = false) → find f l = None.
Proof.
  induction l as [|y l IH]; simpl; intros H; [done|].
  rewrite (H y) by auto. auto.
Qed.

Lemma issue_run env aid dt cn jt idate h st :
  Registry.issue env aid dt cn jt idate h st =
  let c := verification_code_of aid dt (isoformat (clock env (ticks st)))
             (hex (map (λ i, N.land (random_byte env (draws st) i) 0xFF) (seq 0 16))) in
  let st1 := set_draws (S (draws st)) (set_ticks (S (ticks st)) st) in
  if existsb (λ r, String.eqb (verification_code r) c) (verifications st) then
    (inl (GenerationError "document_verifications.verification_code"), st1)
  else
    let record :=
      {| vr_id := verifications_seq st + 1; verification_code := c;
         vr_application_id := aid; document_type := dt; candidate_name := cn;
         vr_job_title := jt; issue_date := idate; pdf_path := h; vr_status := "valide";
         created_at := strftime_sql (clock env (S (ticks st))) |} in
    (inr record,
     set_verifications (verifications st ++ [record]) (verifications_seq st + 1)
       (set_ticks (S (S (ticks st))) st1)).
Proof.
  unfold Registry.issue. rewrite bind_run, generate_verification_code_run.
  rewrite bind_run. unfold gets at 1. cbn [verifications set_draws set_ticks].
  cbv zeta. destruct (existsb _ _); reflexivity.
Qed.

(** C2: a freshly issued code is found again with the metadata it was issued
    for; the match is exact; a code that is in no row is not found. *)
Theorem lookup_after_issue env aid dt cn jt idate h st record st' :
  Registry.issue env aid dt cn jt idate h st = (inr record, st') →
  Registry.lookup (verification_code record) st' = (inr (Some record), st') ∧
  (vr_application_id record = aid ∧ document_type record = dt ∧
   candidate_name record = cn ∧ vr_job_title record = jt ∧
   issue_date record = idate ∧ pdf_path record = h) ∧
  (∀ c r, Registry.lookup c st' = (inr (Some r), st') → verification_code r = c) ∧
  (∀ c, (∀ r, In r (verifications st') → verification_code r ≠ c) →
        Registry.lookup c st' = (inr None, st')).
Proof.
  rewrite issue_run. cbv zeta.
  destruct (existsb _ (verifications st)) eqn:Hfresh; [discriminate|].
  intros [= <- <-]. split; [|split; [|split]].
  - unfold Registry.lookup, gets. cbn [verifications set_verifications verification_code].
    rewrite find_app_fresh; [done | exact Hfresh | apply String.eqb_refl].
  - done.
  - intros c r. unfold Registry.lookup, gets. intros [= Hfind].
    apply find_some in Hfind as [_ Heq]. by apply String.eqb_eq in Heq.
  - intros c Hc. unfold Registry.lookup, gets. rewrite find_none_iff; [done|].
    intros r Hr. apply String.eqb_neq. by apply Hc.
Qed.

Lemma lookup_after_issue_witness :
  let r := Registry.issue Sample.env 5 "interview_invitation" "Amina Hassan" "Comptable"
             "2025-10-15" (Some "static/convocations/c5.pdf") Sample.st0 in
  (∃ record, r.1 = inr record) ∧
  ∃ record,
    (Registry.lookup (verification_code record) r.2).1 = inr (Some record) ∧
    verification_code record = "B065DF77C325EE7A" ∧
    candidate_name record = "Amina Hassan".
Proof.
  intros r.
  assert (H1 : ∃ record, r.1 = inr record ∧ verification_code record = "B065DF77C325EE7A").
  { eexists. split; vm_compute; reflexivity. }
  destruct H1 as (record & H1 & Hc).
  pose proof (run_eq r record H1) as E.
  destruct (lookup_after_issue Sample.env 5 "interview_invitation" "Amina Hassan" "Comptable"
              "2025-10-15" (Some "static/convocations/c5.pdf") Sample.st0 record r.2 E)
    as (Hl & (_ & _ & Hn & _) & _).
  split; [exists record; exact H1|].
  exists record. split; [exact (f_equal fst Hl)|]. split; [exact Hc | exact Hn].
Defined.

(** ** File names *)

(** Checking a boolean property on every number below a bound. *)
Lemma N_forall_below (P : N → bool) (k : nat) :
  forallb P (map N.of_nat (seq 0 k)) = true → ∀ n, (n < N.of_nat k)%N → P n = true.
Proof.
  intros H n Hn. rewrite forallb_forall in H. apply H.
  apply in_map_iff. exists (N.to_nat n). split; [lia|]. apply in_seq. lia.
Qed.

Lemma pad2_digits n : (n < 100)%N → two_digits (pad 2 n) = true.
Proof.
  apply (N_forall_below (λ n, two_digits (pad 2 n)) 100). vm_compute. reflexivity.
Qed.

(** A year of four digits is printed with its four digits. *)
Lemma year_digits n : (1000 ≤ n ≤ 9999)%N → four_digits (pretty n) = true.
Proof.
  intros [Hlo Hhi].
  assert (H : (n <? 1000)%N || four_digits (pretty n) = true).
  { assert (Hn : (n < 10000)%N) by lia. revert Hn.
    apply (N_forall_below (λ n, (n <? 1000)%N || four_digits (pretty n)) 10000).
    vm_compute. reflexivity. }
  apply orb_true_iff in H as [H|H]; [|exact H]. apply N.ltb_lt in H. lia.
Qed.

Lemma strftime_Ymd_HMS_shape t :
  valid_datetime t → is_timestamp (strftime_Ymd_HMS t) = true.
Proof.
  intros (Hy & Hm & Hd & Hh & Hn & Hs & _).
  unfold strftime_Ymd_HMS, strftime_Ymd, strftime_Y.
  pose proof (year_digits (year t) ltac:(lia)) as Py.
  pose proof (pad2_digits (month t) ltac:(lia)) as Pm.
  pose proof (pad2_digits (day t) ltac:(lia)) as Pd.
  pose proof (pad2_digits (hour t) ltac:(lia)) as Ph.
  pose proof (pad2_digits (minute t) ltac:(lia)) as Pn.
  pose proof (pad2_digits (second t) ltac:(lia)) as Ps.
  destruct (pretty (year t)) as [|y1 [|y2 [|y3 [|y4 [|]]]]]; try discriminate.
  destruct (pad 2 (month t)) as [|m1 [|m2 [|]]]; try discriminate.
  destruct (pad 2 (day t)) as [|d1 [|d2 [|]]]; try discriminate.
  destruct (pad 2 (hour t)) as [|h1 [|h2 [|]]]; try discriminate.
  destruct (pad 2 (minute t)) as [|n1 [|n2 [|]]]; try discriminate.
  destruct (pad 2 (second t)) as [|s1 [|s2 [|]]]; try discriminate.
  simpl in *. unfold is_timestamp. simpl.
  repeat match goal with H : _ && _ = true |- _ => apply andb_true_iff in H as [? ?] end.
  repeat match goal with H : is_digit _ = true |- _ => rewrite H; clear H end.
  reflexivity.
Qed.

Section FilenameFacts.
Variable ucd_alnum : N → bool.

Lemma collapse_runs_word b s :
  Forall (λ c, re_word ucd_alnum c || unicode_space c || (c =? 45)%N = true) s →
  Forall (λ c, re_word ucd_alnum c = true) (collapse_runs b s).
Proof.
  revert b. induction s as [|c s IH]; intros b H; simpl; [constructor|].
  apply Forall_cons in H as [Hc H].
  destruct ((c =? 45)%N || unicode_space c) eqn:Hsep.
  - destruct b; [by apply IH|]. constructor; [reflexivity | by apply IH].
  - constructor; [|by apply IH].
    apply orb_false_iff in Hsep as [H1 H2]. rewrite H1, H2, !orb_false_r in Hc. exact Hc.
Qed.

Lemma clean_name_word name :
  Forall (λ c, re_word ucd_alnum c = true) (clean_name ucd_alnum name).
Proof.
  apply collapse_runs_word. apply List.Forall_forall. intros c Hc.
  apply filter_In in Hc as [_ Hc]. exact Hc.
Qed.

Lemma collapse_runs_from b s c :
  In c (collapse_runs b s) → c = 95%N ∨ In c s.
Proof.
  revert b. induction s as [|x s IH]; intros b; simpl; [tauto|].
  destruct ((x =? 45)%N || unicode_space x).
  - destruct b; simpl; intros H.
    + destruct (IH _ H); auto.
    + destruct H as [<-|H]; [auto|]. destruct (IH _ H); auto.
  - simpl. intros [<-|H]; [auto|]. destruct (IH _ H); auto.
Qed.

Lemma clean_name_ascii name :
  Forall (λ c, (c < 128)%N) name →
  Forall (λ c, is_filename_char c = true) (clean_name ucd_alnum name).
Proof.
  intros Hascii. apply List.Forall_forall. intros c Hc.
  pose proof (proj1 (List.Forall_forall _ _) (clean_name_word name) c Hc) as Hw.
  apply collapse_runs_from in Hc as [->|Hc]; [reflexivity|].
  apply filter_In in Hc as [Hc _].
  pose proof (proj1 (List.Forall_forall _ _) Hascii c Hc) as Hlt.
  unfold re_word, unicode_alnum in Hw. apply N.ltb_lt in Hlt. rewrite Hlt in Hw.
  unfold is_filename_char. apply orb_true_iff in Hw as [->| ->]; [reflexivity|].
  by rewrite orb_true_r.
Qed.

End FilenameFacts.

(** C9, as amended: the two helpers of [pdf_generator.py] build
    [{label}_{clean}_{id}_{yyyyMMdd_HHmmss}.pdf]; the cleaned name is made of
    word characters, which for an ASCII name are in [[A-Za-z0-9_-]]. *)
Theorem document_filename_form ucd env name id st :
  let now := clock env (ticks st) in
  (generate_interview_invitation_filename ucd env name id st).1
  = inr (cp "Convocation_Entretien" ++ cp "_" ++ clean_name ucd name ++ cp "_" ++
         cp (pretty id) ++ cp "_" ++ cp (strftime_Ymd_HMS now) ++ cp ".pdf") ∧
  (generate_acceptance_letter_filename ucd env name id st).1
  = inr (cp "Lettre_Acceptation" ++ cp "_" ++ clean_name ucd name ++ cp "_" ++
         cp (pretty id) ++ cp "_" ++ cp (strftime_Ymd_HMS now) ++ cp ".pdf") ∧
  Forall (λ c, re_word ucd c = true) (clean_name ucd name) ∧
  (Forall (λ c, (c < 128)%N) name →
   Forall (λ c, is_filename_char c = true) (clean_name ucd name)) ∧
  (valid_datetime now → is_timestamp (strftime_Ymd_HMS now) = true).
Proof.
  cbv zeta. split; [reflexivity|]. split; [reflexivity|].
  split; [apply clean_name_word|]. split; [apply clean_name_ascii|].
  apply strftime_Ymd_HMS_shape.
Qed.

Lemma document_filename_form_witness :
  let name := cp "Amina  Hassan-Ali" in
  Forall (λ c, (c < 128)%N) name ∧
  valid_datetime (clock Sample.env (ticks Sample.st0)) ∧
  Forall (λ c, is_filename_char c = true) (clean_name (λ _, false) name) ∧
  is_timestamp (strftime_Ymd_HMS (clock Sample.env (ticks Sample.st0))) = true.
Proof.
  intros name.
  assert (Ha : Forall (λ c, (c < 128)%N) name).
  { apply List.Forall_forall. intros c Hc. vm_compute in Hc.
    repeat (destruct Hc as [<-|Hc]; [reflexivity|]). destruct Hc. }
  assert (Hv : valid_datetime (clock Sample.env (ticks Sample.st0))).
  { vm_compute. repeat split; congruence. }
  destruct (document_filename_form (λ _, false) Sample.env name 5 Sample.st0)
    as (_ & _ & _ & H1 & H2).
  split; [exact Ha|]. split; [exact Hv|]. split; [exact (H1 Ha) | exact (H2 Hv)].
Defined.

(** C9, as stated, fails: the accented letter of "José" (U+00E9) is a word
    character, so it stays in the file name. *)
Lemma accented_name_survives_cleaning :
  (generate_interview_invitation_filename (λ _, false) Sample.env [74; 111; 115; 233]%N 5
     Sample.st0).1
  = inr (cp "Convocation_Entretien_Jos" ++ [233%N] ++ cp "_5_20251015_140000.pdf") ∧
  clean_name (λ _, false) [74; 111; 115; 233]%N = [74; 111; 115; 233]%N ∧
  ¬ Forall (λ c, is_filename_char c = true) (clean_name (λ _, false) [74; 111; 115; 233]%N).
Proof.
  split; [vm_compute; reflexivity|]. split; [vm_compute; reflexivity|].
  intros H. vm_compute in H.
  do 3 (apply Forall_cons in H as [_ H]). apply Forall_cons in H as [H _]. discriminate.
Qed.

(** The file name that the phase-1 transition stores has neither the label
    nor the candidate's name. *)
Example phase1_filename_value :
  phase1_pdf_filename 5 (clock Sample.env 1) = "convocation_5_20251015_140001.pdf".
Proof. vm_compute. reflexivity. Qed.

(** ** Further properties of the code generator and of the workflow *)

Lemma upper_char_upper_hex c : is_lower_hex c = true → is_upper_hex (upper_char c) = true.
Proof. destruct c as [[] [] [] [] [] [] [] []]; vm_compute; congruence. Qed.

Lemma upper_upper_hex s :
  Forall (λ c, is_lower_hex c = true) (chars s) →
  Forall (λ c, is_upper_hex c = true) (chars (upper s)).
Proof.
  induction s; simpl; intros H; [constructor|].
  inversion H; subst. constructor; auto using upper_char_upper_hex.
Qed.

(** X1: [generate_verification_code] returns for every application id and
    document type, whatever the clock and the entropy source give; its code
    has exactly 16 characters, each an upper-case hexadecimal digit; it reads
    the clock once and draws entropy once, and touches neither the tables nor
    the files. *)
Theorem generated_code_is_16_hex_digits env application_id document_type st :
  ∃ c st',
    generate_verification_code env application_id document_type st = (inr c, st') ∧
    String.length c = 16 ∧
    Forall (λ ch, is_upper_hex ch = true) (chars c) ∧
    ticks st' = S (ticks st) ∧ draws st' = S (draws st) ∧
    db st' = db st ∧ verifications st' = verifications st ∧ files st' = files st.
Proof.
  rewrite generate_verification_code_run. eexists _, _. split; [reflexivity|].
  split; [apply verification_code_of_shape|]. split; [|done].
  unfold verification_code_of, sha256_hexdigest.
  apply upper_upper_hex, prefix_chars, hex_lower.
Qed.

(** Rows other than [id] are not touched by an update of [id]. *)
Lemma sql_update_other sets id t id' :
  id' ≠ id → sql_update sets id t !! id' = t !! id'.
Proof. intros H. unfold sql_update. by rewrite lookup_alter_ne. Qed.

Lemma sql_update_missing sets id t :
  t !! id = None → sql_update sets id t = t.
Proof.
  intros H. apply map_eq. intros i. unfold sql_update.
  destruct (decide (i = id)) as [->|Hne].
  - by rewrite lookup_alter_eq, H.
  - by rewrite lookup_alter_ne.
Qed.

(** The table that [update_phase1_status] commits. *)
Lemma update_phase1_db env app_id dec idate rr st :
  let r := update_phase1_status env app_id dec idate rr st in
  let now := strftime_sql (clock env (ticks st)) in
  r.1 = inr tt ∧
  (db r.2 = db st ∨
   db r.2 = sql_update (phase1_selected_columns dec now idate) app_id (db st) ∨
   db r.2 = sql_update (pdf_column (phase1_pdf_filename app_id (clock env (S (ticks st)))))
              app_id (sql_update (phase1_selected_columns dec now idate) app_id (db st)) ∨
   db r.2 = sql_update (phase1_rejected_columns dec now rr) app_id (db st)).
Proof.
  cbv zeta.
  destruct (String.eqb dec "selected_for_interview") eqn:E1.
  - apply String.eqb_eq in E1 as ->. rewrite update_phase1_selected_run.
    set (entry := phase1_selected_entry env app_id idate st).
    destruct (phase1_generate_pdf env app_id idate entry) as [[e|u] st4] eqn:E;
      apply phase1_generate_pdf_outcome in E; cbv zeta in E.
    + destruct E as (_ & Hc & _). simpl. rewrite Hc. split; [done|]. right. by left.
    + split; [done|]. simpl.
      destruct (conn entry !! app_id) eqn:Hrow.
      * destruct E as (Hc & _). rewrite Hc. right. right. by left.
      * subst st4. right. by left.
  - destruct (String.eqb dec "rejected") eqn:E2.
    + apply String.eqb_eq in E2 as ->. rewrite update_phase1_rejected_run.
      split; [done|]. simpl. by do 3 right.
    + apply String.eqb_neq in E1, E2. rewrite update_phase1_other_run by done.
      split; [done|]. by left.
Qed.

(** X2: a phase decision on one application leaves every other application's
    row as it was, whatever the decision and whether or not the document is
    generated. *)
Theorem phase_decisions_touch_one_row env app_id other dec idate rr st :
  other ≠ app_id →
  db (update_phase1_status env app_id dec idate rr st).2 !! other = db st !! other ∧
  db (update_phase2_status env app_id dec rr st).2 !! other = db st !! other.
Proof.
  intros Hne. split.
  - destruct (update_phase1_db env app_id dec idate rr st) as [_ H]. cbv zeta in H.
    destruct H as [-> | [-> | [-> | ->]]]; rewrite ?sql_update_other by done; done.
  - rewrite update_phase2_run. cbv zeta.
    destruct (String.eqb dec "accepted"); [simpl; by rewrite sql_update_other|].
    destruct (String.eqb dec "rejected"); [simpl; by rewrite sql_update_other|]. done.
Qed.

Lemma phase_decisions_touch_one_row_witness :
  (7 ≠ 5)%Z ∧
  db (update_phase1_status Sample.env 5 "rejected" PyNone PyNone Sample.st0).2 !! 7%Z
  = db Sample.st0 !! 7%Z.
Proof.
  assert (H : (7 ≠ 5)%Z) by lia. split; [exact H|].
  exact (proj1 (phase_decisions_touch_one_row Sample.env 5 7 "rejected" PyNone PyNone
                  Sample.st0 H)).
Defined.

(** X3: a phase decision for an application that does not exist is silent:
    nothing is raised, no row appears or changes, no file is written and
    nothing is logged, even for 'selected_for_interview'. *)
Theorem phase_decision_on_missing_application env app_id dec idate rr st :
  db st !! app_id = None →
  (let r := update_phase1_status env app_id dec idate rr st in
   r.1 = inr tt ∧ db r.2 = db st ∧ files r.2 = files st ∧ stdout r.2 = stdout st) ∧
  (let r := update_phase2_status env app_id dec rr st in
   r.1 = inr tt ∧ db r.2 = db st ∧ files r.2 = files st ∧ stdout r.2 = stdout st).
Proof.
  intros Hnone. split; cbv zeta.
  - destruct (String.eqb dec "selected_for_interview") eqn:E1.
    + apply String.eqb_eq in E1 as ->. rewrite update_phase1_selected_run.
      rewrite phase1_generate_pdf_run.
      assert (Hentry : conn (phase1_selected_entry env app_id idate st) = db st).
      { unfold phase1_selected_entry. simpl. by apply sql_update_missing. }
      rewrite Hentry, Hnone. simpl. by rewrite sql_update_missing.
    + destruct (String.eqb dec "rejected") eqn:E2.
      * apply String.eqb_eq in E2 as ->. rewrite update_phase1_rejected_run. simpl.
        by rewrite sql_update_missing.
      * apply String.eqb_neq in E1, E2. by rewrite update_phase1_other_run.
  - rewrite update_phase2_run. cbv zeta.
    destruct (String.eqb dec "accepted"); [simpl; by rewrite sql_update_missing|].
    destruct (String.eqb dec "rejected"); [simpl; by rewrite sql_update_missing|]. done.
Qed.

Lemma phase_decision_on_missing_application_witness :
  db Sample.st0 !! 9%Z = None ∧
  db (update_phase1_status Sample.env 9 "selected_for_interview" (PyStr "2025-10-20T09:30")
        PyNone Sample.st0).2 = db Sample.st0.
Proof.
  assert (H : db Sample.st0 !! 9%Z = None) by (vm_compute; reflexivity).
  split; [exact H|].
  exact (proj1 (proj2 (proj1 (phase_decision_on_missing_application Sample.env 9
           "selected_for_interview" (PyStr "2025-10-20T09:30") PyNone Sample.st0 H)))).
Defined.

(** X4: a phase decision writes only its own columns: every other column of
    the application keeps its value. *)
Theorem phase_decisions_keep_other_columns env app_id dec idate rr st col :
  (col ∉ ["phase1_status"; "phase1_date"; "interview_date"; "rejection_reason";
          "workflow_phase"; "status"; "interview_invitation_pdf"] →
   cell (db (update_phase1_status env app_id dec idate rr st).2) app_id col
   = cell (db st) app_id col) ∧
  (col ∉ ["phase2_status"; "phase2_date"; "rejection_reason"; "workflow_phase"; "status"] →
   cell (db (update_phase2_status env app_id dec rr st).2) app_id col
   = cell (db st) app_id col).
Proof.
  split; intros Hcol.
  - destruct (update_phase1_db env app_id dec idate rr st) as [_ H]. cbv zeta in H.
    destruct H as [-> | [-> | [-> | ->]]]; [done|..];
      rewrite ?cell_sql_update_other; try done;
      cbn; intros Hin; apply Hcol;
      repeat (apply elem_of_cons in Hin as [->|Hin]; [set_solver|]);
      by apply elem_of_nil in Hin.
  - rewrite update_phase2_run. cbv zeta.
    destruct (String.eqb dec "accepted"); [|destruct (String.eqb dec "rejected")];
      [..|done]; simpl; rewrite cell_sql_update_other; try done;
      cbn; intros Hin; apply Hcol;
      repeat (apply elem_of_cons in Hin as [->|Hin]; [set_solver|]);
      by apply elem_of_nil in Hin.
Qed.

Lemma phase_decisions_keep_other_columns_witness :
  ("email" ∉ ["phase1_status"; "phase1_date"; "interview_date"; "rejection_reason";
              "workflow_phase"; "status"; "interview_invitation_pdf"]) ∧
  cell (db (update_phase1_status Sample.env 5 "selected_for_interview"
              (PyStr "2025-10-20T09:30") PyNone Sample.st0).2) 5 "email"
  = cell (db Sample.st0) 5 "email".
Proof.
  assert (H : "email" ∉ ["phase1_status"; "phase1_date"; "interview_date"; "rejection_reason";
                         "workflow_phase"; "status"; "interview_invitation_pdf"]).
  { intros Hin. repeat (apply elem_of_cons in Hin as [Hin|Hin]; [discriminate|]).
    by apply elem_of_nil in Hin. }
  split; [exact H|].
  exact (proj1 (phase_decisions_keep_other_columns Sample.env 5 "selected_for_interview"
                  (PyStr "2025-10-20T09:30") PyNone Sample.st0 "email") H).
Defined.

(** X5: what the two phase-2 decisions write, for every existing
    application: 'accepted' sets phase2_status, phase2_date, workflow_phase
    'completed' and status 'acceptée' and keeps the rejection reason;
    'rejected' also records the reason, with status 'rejetée'.  Neither
    writes a file or a log line. *)
Theorem decide_phase2_sets_fields env app_id st :
  is_Some (db st !! app_id) →
  (∀ rr,
     let r := update_phase2_status env app_id "accepted" rr st in
     r.1 = inr tt ∧
     cell (db r.2) app_id "phase2_status" = Some (PyStr "accepted") ∧
     cell (db r.2) app_id "phase2_date" = Some (PyStr (strftime_sql (clock env (ticks st)))) ∧
     cell (db r.2) app_id "workflow_phase" = Some (PyStr "completed") ∧
     cell (db r.2) app_id "status" = Some (PyStr "acceptée") ∧
     cell (db r.2) app_id "rejection_reason" = cell (db st) app_id "rejection_reason" ∧
     files r.2 = files st ∧ stdout r.2 = stdout st) ∧
  (∀ reason,
     let r := update_phase2_status env app_id "rejected" reason st in
     r.1 = inr tt ∧
     cell (db r.2) app_id "phase2_status" = Some (PyStr "rejected") ∧
     cell (db r.2) app_id "phase2_date" = Some (PyStr (strftime_sql (clock env (ticks st)))) ∧
     cell (db r.2) app_id "rejection_reason" = Some reason ∧
     cell (db r.2) app_id "workflow_phase" = Some (PyStr "completed") ∧
     cell (db r.2) app_id "status" = Some (PyStr "rejetée") ∧
     files r.2 = files st ∧ stdout r.2 = stdout st).
Proof.
  intros [row Hrow]. split; intros rr; cbv zeta; rewrite update_phase2_run; simpl.
  - split; [done|].
    rewrite (cell_sql_update_other _ _ _ "rejection_reason") by not_a_column.
    repeat split; cell_lookup.
  - repeat split; cell_lookup.
Qed.

Lemma decide_phase2_sets_fields_witness :
  is_Some (db Sample.st0 !! 5%Z) ∧
  cell (db (update_phase2_status Sample.env 5 "accepted" PyNone Sample.st0).2) 5 "status"
  = Some (PyStr "acceptée").
Proof.
  assert (Hrow : is_Some (db Sample.st0 !! 5%Z)) by decide_by_computation.
  split; [exact Hrow|].
  pose proof (decide_phase2_sets_fields Sample.env 5 Sample.st0 Hrow) as [Hacc _].
  exact (proj1 (proj2 (proj2 (proj2 (proj2 (Hacc PyNone)))))).
Defined.

Lemma get_interview_invitation_pdf_run app_id st :
  get_interview_invitation_pdf app_id st
  = (inr (match db st !! app_id with
          | Some row => column row "interview_invitation_pdf"
          | None => PyNone
          end), set_conn (db st) st).
Proof. reflexivity. Qed.

Lemma get_interview_invitation_pdf_of_cell app_id st v :
  cell (db st) app_id "interview_invitation_pdf" = Some v →
  (get_interview_invitation_pdf app_id st).1 = inr v.
Proof.
  rewrite get_interview_invitation_pdf_run. unfold cell, column.
  destruct (db st !! app_id) as [row|]; [simpl|discriminate]. by intros ->.
Qed.

(** ** Further properties of the renderers *)

(** X6: a renderer writes at most the file it was asked for.  When it
    returns, the result is [output_path], that path holds the new document
    and every other path is as before; when it raises, no file has changed.
    In both cases the tables are untouched. *)
Theorem renderers_write_only_output_path env data idate path c base st :
  (let r := generate_interview_invitation_pdf env data idate path c base st in
   db r.2 = db st ∧ conn r.2 = conn st ∧ verifications r.2 = verifications st ∧
   match r.1 with
   | inl _ => files r.2 = files st
   | inr p => p = path ∧ is_Some (files r.2 !! path) ∧
              ∀ q, q ≠ path → files r.2 !! q = files st !! q
   end) ∧
  (let r := generate_acceptance_letter_pdf env data path c base st in
   db r.2 = db st ∧ conn r.2 = conn st ∧ verifications r.2 = verifications st ∧
   match r.1 with
   | inl _ => files r.2 = files st
   | inr p => p = path ∧ is_Some (files r.2 !! path) ∧
              ∀ q, q ≠ path → files r.2 !! q = files st !! q
   end).
Proof.
  split; cbv zeta.
  - pose proof (invitation_keeps db env data idate path c base
                  ltac:(done) ltac:(done) ltac:(done) st) as H1.
    pose proof (invitation_keeps conn env data idate path c base
                  ltac:(done) ltac:(done) ltac:(done) st) as H2.
    pose proof (invitation_keeps verifications env data idate path c base
                  ltac:(done) ltac:(done) ltac:(done) st) as H3.
    pose proof (invitation_writes env data idate path c base st) as H4.
    unfold same in *.
    destruct (generate_interview_invitation_pdf _ _ _ _ _ _ _) as [[e|p] st']; simpl in *.
    + done.
    + destruct H4 as [-> [els Hf]]. do 3 (split; [done|]). split; [done|].
      rewrite Hf. split; [rewrite lookup_insert_eq; eauto|].
      intros q Hq. by rewrite lookup_insert_ne.
  - pose proof (acceptance_keeps db env data path c base ltac:(done) ltac:(done) st) as H1.
    pose proof (acceptance_keeps conn env data path c base ltac:(done) ltac:(done) st) as H2.
    pose proof (acceptance_keeps verifications env data path c base
                  ltac:(done) ltac:(done) st) as H3.
    pose proof (acceptance_writes env data path c base st) as H4.
    unfold same in *.
    destruct (generate_acceptance_letter_pdf _ _ _ _ _ _) as [[e|p] st']; simpl in *.
    + done.
    + destruct H4 as [-> [els Hf]]. do 3 (split; [done|]). split; [done|].
      rewrite Hf. split; [rewrite lookup_insert_eq; eauto|].
      intros q Hq. by rewrite lookup_insert_ne.
Qed.

Lemma invitation_elements_table ed hdr a b c d e f job day time footer :
  In (Table [["📅 Date"; fmt day]; ["🕐 Heure"; time]; ["📍 Lieu"; "Siège de SALSABIL"];
             ["💼 Poste"; fmt job]])
     (invitation_elements ed hdr a b c d e f job day time footer) ∧
  In footer (invitation_elements ed hdr a b c d e f job day time footer) ∧
  (∀ x, In x hdr → In x (invitation_elements ed hdr a b c d e f job day time footer)).
Proof.
  unfold invitation_elements. cbv zeta. split; [|split].
  - do 3 (apply in_or_app; left). apply in_or_app; right. left. reflexivity.
  - apply in_or_app; right. right. left. reflexivity.
  - intros x Hx. do 9 (apply in_or_app; left). apply in_or_app; right. exact Hx.
Qed.

(** The outcome of a run that returns exactly when the build succeeds. *)
Lemma build_outcome {A} env path els ops (r : (exn + A) * State) (a : A) st st1 st2 :
  files st1 = files st →
  files st2 = files st1 →
  r = (if builds env path els
       then (inr a, set_files (<[path := document_of env els ops]> (files st1)) st2)
       else (inl (BuildError (error_text env (BuildDocument path))), st2)) →
  if builds env path els
  then r.1 = inr a ∧ files r.2 !! path = Some (document_of env els ops)
  else r.1 = inl (BuildError (error_text env (BuildDocument path))) ∧ files r.2 = files st.
Proof.
  intros H1 H2 ->. destruct (builds env path els); cbn [fst snd files set_files].
  - split; [reflexivity | apply lookup_insert_eq].
  - split; [reflexivity | congruence].
Qed.



(** One step of the invitation whose outcome is not known: a raise ends the
    run, a return goes on. *)
Ltac fork_getitem :=
  rewrite bind_run; unfold getitem at 1;
  destruct (_ !! _) in |- * at 1;
  [ cbv beta iota; unfold mret at 1, M_ret at 1; cbv beta iota | by eexists _, _ ].

Ltac fork_paragraph :=
  rewrite bind_run; unfold paragraph at 1;
  destruct (markup_ok _ _) in |- * at 1;
  [ unfold mret at 1, M_ret at 1; cbv beta iota | by eexists _, _ ].

(** Without a text date the invitation cannot be rendered: if nothing has
    raised before, the [.replace] calls do. *)
Lemma invitation_without_text_date env data idate path c base st :
  (∀ s, idate ≠ PyStr s) →
  ∃ e st', generate_interview_invitation_pdf env data idate path c base st = (inl e, st').
Proof.
  intros Hnot. unfold generate_interview_invitation_pdf.
  rewrite bind_run. unfold datetime_now at 1. rewrite bind_run.
  destruct (invitation_header_returns env (set_ticks (S (ticks st)) st)) as (hdr & st1 & ->).
  do 5 fork_getitem. fork_paragraph. fork_getitem. fork_paragraph.
  rewrite bind_run.
  destruct (truthy _);
    [ unfold mret at 1, M_ret at 1; cbv beta iota
    | unfold getitem at 1; destruct (_ !! _) in |- * at 1;
      [ unfold mret at 1, M_ret at 1; cbv beta iota | by eexists _, _ ] ].
  all: fork_paragraph.
  all: destruct idate as [|s|z]; [|by destruct (Hnot s)|]; cbv beta iota zeta;
    rewrite bind_run; unfold replace_names at 1; by eexists _, _.
Qed.

(** X8: a 'selected_for_interview' decision whose interview date is not
    text ([None], the default) never produces an invitation, whatever the
    environment: the decision is committed with that date, the generation
    raises inside the [try], [interview_invitation_pdf] keeps its value and
    no file is written. *)
Theorem selection_without_date_has_no_document env app_id idate rr st :
  is_Some (db st !! app_id) →
  (∀ s, idate ≠ PyStr s) →
  let r := update_phase1_status env app_id "selected_for_interview" idate rr st in
  r.1 = inr tt ∧
  cell (db r.2) app_id "phase1_status" = Some (PyStr "selected_for_interview") ∧
  cell (db r.2) app_id "interview_date" = Some idate ∧
  cell (db r.2) app_id "interview_invitation_pdf"
  = cell (db st) app_id "interview_invitation_pdf" ∧
  files r.2 = files st.
Proof.
  intros [row Hrow] Hnot. cbv zeta.
  pose proof (phase1_selected_fields env app_id idate rr st row Hrow) as Hcols.
  pose proof (phase1_selected_pdf env app_id idate rr st row Hrow) as Hpdf.
  cbv zeta in Hcols, Hpdf.
  destruct Hcols as (H1 & H2 & _ & H3 & _).
  do 3 (split; [assumption|]).
  assert (Hfail : ∃ e, (phase1_generate_pdf env app_id idate
                          (phase1_selected_entry env app_id idate st)).1 = inl e).
  { rewrite phase1_generate_pdf_run.
    destruct (conn _ !! app_id) as [row1|] eqn:Hrow1.
    - destruct (makedirs_ok env convocations_dir); [|eauto]. cbv zeta.
      match goal with |- ∃ e, (match ?g with _ => _ end).1 = _ =>
        match g with generate_interview_invitation_pdf ?en ?d ?i ?p ?c ?b ?s =>
          destruct (invitation_without_text_date en d i p c b s Hnot) as (e & st' & ->)
        end
      end.
      eauto.
    - exfalso. unfold phase1_selected_entry in Hrow1. simpl in Hrow1.
      unfold sql_update in Hrow1. rewrite lookup_alter_eq, Hrow in Hrow1. discriminate. }
  destruct Hfail as [e He]. rewrite He in Hpdf. exact Hpdf.
Qed.

Lemma selection_without_date_has_no_document_witness :
  is_Some (db Sample.st0 !! 5%Z) ∧ (∀ s, PyNone ≠ PyStr s) ∧
  files (update_phase1_status Sample.env 5 "selected_for_interview" PyNone PyNone
           Sample.st0).2 = files Sample.st0.
Proof.
  assert (H1 : is_Some (db Sample.st0 !! 5%Z)) by decide_by_computation.
  assert (H2 : ∀ s, PyNone ≠ PyStr s) by (intros s; discriminate).
  split; [exact H1|]. split; [exact H2|].
  exact (proj2 (proj2 (proj2 (proj2
    (selection_without_date_has_no_document Sample.env 5 PyNone PyNone Sample.st0 H1 H2))))).
Defined.

(** X9: both renderers read [application_data['id']] with a subscript, for
    the footer, after the texts built from the candidate's fields have been
    parsed: without an [id], and with those texts well-formed, they raise
    [KeyError] and write no file. *)
Theorem renderers_need_id env data s path c base st :
  data !! "id" = None →
  (has_invitation_fields data →
   all_parse env (invitation_body_texts data) →
   ∃ st', generate_interview_invitation_pdf env data (PyStr s) path c base st
          = (inl (KeyError "id"), st') ∧ files st' = files st) ∧
  ((path_exists env logo_path = true → logo_opens env = true) →
   all_parse env (acceptance_body_texts data) →
   generate_acceptance_letter_pdf env data path c base st
   = (inl (KeyError "id"), set_ticks (S (ticks st)) st)).
Proof.
  intros Hid. split.
  - intros Hfields Hparse.
    destruct (invitation_with_fields env data (PyStr s) path c base st Hfields Hparse)
      as (st1 & hdr & Hh & Hrun).
    apply invitation_header_frame in Hh as (_ & Hfiles & _).
    rewrite Hrun. exists st1. split; [|exact Hfiles].
    destruct (strptime env s); cbv beta iota zeta;
      rewrite bind_run; unfold replace_names at 1, mret at 1, M_ret at 1; cbv beta iota;
      rewrite bind_run; unfold getitem at 1; rewrite Hid; reflexivity.
  - intros Hlogo Hparse.
    rewrite (acceptance_with_texts env data path c base st Hlogo Hparse).
    rewrite bind_run. unfold getitem at 1. rewrite Hid. reflexivity.
Qed.

Lemma renderers_need_id_witness :
  delete "id" Sample.application5 !! "id" = None ∧
  has_invitation_fields (delete "id" Sample.application5) ∧
  all_parse Sample.env (invitation_body_texts (delete "id" Sample.application5)) ∧
  (path_exists Sample.env logo_path = true → logo_opens Sample.env = true) ∧
  all_parse Sample.env (acceptance_body_texts (delete "id" Sample.application5)) ∧
  (∃ st', generate_interview_invitation_pdf Sample.env (delete "id" Sample.application5)
            (PyStr "2025-10-20T09:30") "out.pdf" None "http://localhost:5000" Sample.st0
          = (inl (KeyError "id"), st') ∧ files st' = files Sample.st0) ∧
  generate_acceptance_letter_pdf Sample.env (delete "id" Sample.application5) "out.pdf" None
    "http://localhost:5000" Sample.st0
  = (inl (KeyError "id"), set_ticks (S (ticks Sample.st0)) Sample.st0).
Proof.
  assert (H1 : delete "id" Sample.application5 !! "id" = None) by (vm_compute; reflexivity).
  assert (H2 : has_invitation_fields (delete "id" Sample.application5))
    by (unfold has_invitation_fields; decide_by_computation).
  assert (H3 : all_parse Sample.env (invitation_body_texts (delete "id" Sample.application5))).
  { unfold all_parse, invitation_body_texts.
    repeat (apply Forall_cons; split; [vm_compute; reflexivity|]). apply Forall_nil. done. }
  assert (H4 : path_exists Sample.env logo_path = true → logo_opens Sample.env = true)
    by (intros _; reflexivity).
  assert (H5 : all_parse Sample.env (acceptance_body_texts (delete "id" Sample.application5))).
  { unfold all_parse, acceptance_body_texts. cbv zeta.
    repeat (apply Forall_cons; split; [vm_compute; reflexivity|]). apply Forall_nil. done. }
  do 5 (split; [assumption|]).
  pose proof (renderers_need_id Sample.env (delete "id" Sample.application5) "2025-10-20T09:30"
                "out.pdf" None "http://localhost:5000" Sample.st0 H1) as [Ha Hb].
  exact (conj (Ha H2 H3) (Hb H4 H5)).
Defined.

Lemma builds_with_unloadable_image env path els p w h :
  In (Image p w h) els → logo_is_image env = false → builds env path els = false.
Proof.
  intros Hin Himg. unfold builds. apply andb_false_iff. left.
  unfold images_load. apply not_true_is_false. intros Hall.
  rewrite forallb_forall in Hall. specialize (Hall _ Hin). simpl in Hall. congruence.
Qed.

Lemma acceptance_elements_header hdr date data footer x :
  In x hdr → In x (acceptance_elements hdr date data footer).
Proof.
  intros Hx. unfold acceptance_elements. cbv zeta.
  do 14 (apply in_or_app; left). exact Hx.
Qed.

(** X10: the two ways in which a logo file that exists can fail.  A file
    that cannot be opened makes [Image(...)] raise: the acceptance letter
    stops at once, with nothing read or written, whereas the invitation
    prints the error, falls back to the text header and goes on without an
    image.  A file that opens and is not an image is found out by neither
    renderer: both put the image in the story and fail in [doc.build], after
    their two clock readings, with nothing printed and no file written. *)
Theorem unreadable_logo env data s path c base st id :
  path_exists env logo_path = true →
  (logo_opens env = false →
   generate_acceptance_letter_pdf env data path c base st
   = (inl (OSError (error_text env (OpenImage logo_path))), st) ∧
   (has_invitation_fields data →
    data !! "id" = Some id →
    all_parse env (invitation_body_texts data) →
    markup_ok env (invitation_reference id (clock env (S (ticks st)))) = true →
    ∃ els,
      In (Paragraph "SALSABIL" "CustomTitle") els ∧
      (∀ p w h, ¬ In (Image p w h) els) ∧
      let r := generate_interview_invitation_pdf env data (PyStr s) path c base st in
      stdout r.2 = stdout st ++
        [Printed ("Erreur lors du chargement du logo: " +:+
                  error_text env (OpenImage logo_path))] ∧
      if builds env path els
      then r.1 = inr path ∧
           files r.2 !! path = Some (document_of env els (add_qr_and_code c base))
      else r.1 = inl (BuildError (error_text env (BuildDocument path))) ∧
           files r.2 = files st)) ∧
  (logo_opens env = true →
   logo_is_image env = false →
   data !! "id" = Some id →
   (all_parse env (acceptance_body_texts data) →
    markup_ok env (acceptance_reference id (clock env (S (ticks st)))) = true →
    generate_acceptance_letter_pdf env data path c base st
    = (inl (BuildError (error_text env (BuildDocument path))),
       set_ticks (S (S (ticks st))) st)) ∧
   (has_invitation_fields data →
    all_parse env (invitation_body_texts data) →
    markup_ok env (invitation_reference id (clock env (S (ticks st)))) = true →
    generate_interview_invitation_pdf env data (PyStr s) path c base st
    = (inl (BuildError (error_text env (BuildDocument path))),
       set_ticks (S (S (ticks st))) st))).
Proof.
  intros Hex. split.
  - intros Hopen. split.
    { unfold generate_acceptance_letter_pdf. rewrite bind_run.
      rewrite acceptance_header_run, Hex, Hopen. reflexivity. }
    intros Hfields Hid Hparse Href.
    destruct (invitation_renders env data s path c base st id Hfields Hid Hparse Href)
      as (st1 & hdr & Hh & Hrun).
    apply invitation_header_frame in Hh as (_ & Hfiles & _ & _ & Hcases).
    destruct Hcases as [(_ & _ & _ & Hl) | [(_ & _ & He) | (-> & _ & _ & Hout)]];
      [congruence | congruence |].
    cbv zeta in Hrun.
    match type of Hrun with _ = (if builds _ _ ?e then _ else _) => exists e end.
    split; [|split].
    + match goal with |- In _ (invitation_elements ?ed ?h ?a ?b ?c0 ?d0 ?e ?f ?j ?dy ?tm ?r) =>
        destruct (invitation_elements_table ed h a b c0 d0 e f j dy tm r) as (_ & _ & H3)
      end.
      apply H3. left. reflexivity.
    + intros p w h. unfold invitation_elements, text_header. cbv zeta.
      rewrite !in_app_iff. simpl. intros H.
      repeat match goal with H : _ ∨ _ |- _ => destruct H as [H|H] end;
        try discriminate; try contradiction.
    + cbv zeta. split.
      * rewrite Hrun. destruct (builds env path _); exact Hout.
      * eapply build_outcome; [exact Hfiles | | exact Hrun]. reflexivity.
  - intros Hopen Himg Hid. split.
    + intros Hparse Href.
      assert (Hlogo : path_exists env logo_path = true → logo_opens env = true) by done.
      pose proof (acceptance_renders env data path c base st id Hid Hlogo Hparse Href) as Hrun.
      cbv zeta in Hrun. rewrite Hrun.
      rewrite (builds_with_unloadable_image env path _ logo_path 30 30); [reflexivity| |exact Himg].
      apply acceptance_elements_header. unfold acceptance_logo. rewrite Hex. left. reflexivity.
    + intros Hfields Hparse Href.
      destruct (invitation_renders env data s path c base st id Hfields Hid Hparse Href)
        as (st1 & hdr & Hh & Hrun).
      rewrite invitation_header_run, Hex, Hopen in Hh. injection Hh as <- <-.
      cbv zeta in Hrun. rewrite Hrun.
      rewrite (builds_with_unloadable_image env path _ logo_path 40 40); [reflexivity| |exact Himg].
      match goal with |- In _ (invitation_elements ?ed ?h ?a ?b ?c0 ?d0 ?e ?f ?j ?dy ?tm ?r) =>
        destruct (invitation_elements_table ed h a b c0 d0 e f j dy tm r) as (_ & _ & H3)
      end.
      apply H3. left. reflexivity.
Qed.

Lemma unreadable_logo_witness :
  path_exists MoreSamples.env_unreadable_logo logo_path = true ∧
  logo_opens MoreSamples.env_unreadable_logo = false ∧
  path_exists MoreSamples.env_logo_not_an_image logo_path = true ∧
  logo_opens MoreSamples.env_logo_not_an_image = true ∧
  logo_is_image MoreSamples.env_logo_not_an_image = false ∧
  Sample.application5 !! "id" = Some (PyInt 5) ∧
  has_invitation_fields Sample.application5 ∧
  all_parse MoreSamples.env_logo_not_an_image (invitation_body_texts Sample.application5) ∧
  markup_ok MoreSamples.env_logo_not_an_image
    (invitation_reference (PyInt 5)
       (clock MoreSamples.env_logo_not_an_image (S (ticks Sample.st0)))) = true ∧
  generate_acceptance_letter_pdf MoreSamples.env_unreadable_logo Sample.application5 "out.pdf"
    None "http://localhost:5000" Sample.st0
  = (inl (OSError (error_text MoreSamples.env_unreadable_logo (OpenImage logo_path))),
     Sample.st0) ∧
  generate_interview_invitation_pdf MoreSamples.env_logo_not_an_image Sample.application5
    (PyStr "2025-10-20T09:30") "out.pdf" None "http://localhost:5000" Sample.st0
  = (inl (BuildError (error_text MoreSamples.env_logo_not_an_image (BuildDocument "out.pdf"))),
     set_ticks (S (S (ticks Sample.st0))) Sample.st0).
Proof.
  assert (H1 : path_exists MoreSamples.env_unreadable_logo logo_path = true) by reflexivity.
  assert (H2 : logo_opens MoreSamples.env_unreadable_logo = false) by reflexivity.
  assert (H3 : path_exists MoreSamples.env_logo_not_an_image logo_path = true) by reflexivity.
  assert (H4 : logo_opens MoreSamples.env_logo_not_an_image = true) by reflexivity.
  assert (H5 : logo_is_image MoreSamples.env_logo_not_an_image = false) by reflexivity.
  assert (H6 : Sample.application5 !! "id" = Some (PyInt 5)) by (vm_compute; reflexivity).
  assert (H7 : has_invitation_fields Sample.application5)
    by (unfold has_invitation_fields; decide_by_computation).
  assert (H8 : all_parse MoreSamples.env_logo_not_an_image
                 (invitation_body_texts Sample.application5)).
  { unfold all_parse, invitation_body_texts.
    repeat (apply Forall_cons; split; [vm_compute; reflexivity|]). apply Forall_nil. done. }
  assert (H9 : markup_ok MoreSamples.env_logo_not_an_image
                 (invitation_reference (PyInt 5)
                    (clock MoreSamples.env_logo_not_an_image (S (ticks Sample.st0)))) = true)
    by (vm_compute; reflexivity).
  do 9 (split; [assumption|]).
  split.
  - exact (proj1 (proj1 (unreadable_logo MoreSamples.env_unreadable_logo Sample.application5
                           "2025-10-20T09:30" "out.pdf" None "http://localhost:5000"
                           Sample.st0 (PyInt 5) H1) H2)).
  - exact (proj2 (proj2 (unreadable_logo MoreSamples.env_logo_not_an_image Sample.application5
                           "2025-10-20T09:30" "out.pdf" None "http://localhost:5000"
                           Sample.st0 (PyInt 5) H3) H4 H5 H6) H7 H8 H9).
Defined.

Lemma set_columns_other sets row k :
  k ∉ map fst sets → set_columns sets row !! k = row !! k.
Proof.
  revert row. induction sets as [|[k' v] sets IH]; intros row Hk; [done|].
  simpl in *. rewrite IH.
  - apply lookup_insert_ne. intros ->. apply Hk. left.
  - intros Hin. apply Hk. by right.
Qed.

(** The columns of the selection are none of those the invitation reads. *)
Lemma selected_columns_keep_texts d cd idate row :
  let row' := set_columns (phase1_selected_columns d cd idate) row in
  (has_invitation_fields row → has_invitation_fields row') ∧
  row' !! "id" = row !! "id" ∧
  invitation_body_texts row' = invitation_body_texts row.
Proof.
  cbv zeta.
  assert (Hk : ∀ k, k ∉ map fst (phase1_selected_columns d cd idate) →
               set_columns (phase1_selected_columns d cd idate) row !! k = row !! k)
    by (intros k; apply set_columns_other).
  split; [|split].
  - unfold has_invitation_fields, dict_get. rewrite !Hk by not_a_column. done.
  - apply Hk. not_a_column.
  - unfold invitation_body_texts, invitation_recipient_of, invitation_salutation_of,
      job_title_display, dict_get.
    rewrite !Hk by not_a_column. reflexivity.
Qed.

(** X11: the whole 'selected_for_interview' path.  For an application whose
    row has the candidate fields and an [id], with well-formed texts, a text
    interview date and a writable directory, the decision is committed and
    the rest depends on [doc.build] alone.  When it succeeds the decision
    stores the file name [convocation_{id}_{timestamp}.pdf], which
    [get_interview_invitation_pdf] then returns; the file of that name exists
    under [static/convocations], no other file changes, and every page of it
    carries the code [CONV-{id}-{YYYYMMDD}] as QR code of
    [{BASE_URL}/verify/{code}] and as text.  When it fails the stored name
    and the files are as before. *)
Theorem selection_writes_invitation env app_id s rr st row id :
  db st !! app_id = Some row →
  has_invitation_fields row →
  row !! "id" = Some id →
  all_parse env (invitation_body_texts row) →
  markup_ok env (invitation_reference id (clock env (S (S (S (S (ticks st))))))) = true →
  makedirs_ok env convocations_dir = true →
  let r := update_phase1_status env app_id "selected_for_interview" (PyStr s) rr st in
  let fname := phase1_pdf_filename app_id (clock env (S (ticks st))) in
  let vcode := phase1_verification_code app_id (clock env (S (S (ticks st)))) in
  r.1 = inr tt ∧
  ∃ els,
    if builds env (path_join convocations_dir fname) els then
      cell (db r.2) app_id "interview_invitation_pdf" = Some (PyStr fname) ∧
      (get_interview_invitation_pdf app_id r.2).1 = inr (PyStr fname) ∧
      (∀ q, q ≠ path_join convocations_dir fname → files r.2 !! q = files st !! q) ∧
      ∃ doc,
        files r.2 !! path_join convocations_dir fname = Some doc ∧
        ∀ pg, In pg (pages doc) →
          In (DrawImage (QRCode (base_url_of env +:+ "/verify/" +:+ vcode)) 12 257 30 30)
             (canvas pg) ∧
          In (DrawCentredString 105 17 ("Code de vérification : " +:+ vcode)) (canvas pg)
    else
      cell (db r.2) app_id "interview_invitation_pdf"
      = cell (db st) app_id "interview_invitation_pdf" ∧
      files r.2 = files st.
Proof.
  intros Hrow Hfields Hid Hparse Href Hmk. cbv zeta.
  pose proof (phase1_selected_pdf env app_id (PyStr s) rr st row Hrow) as Hpdf.
  cbv zeta in Hpdf. revert Hpdf.
  rewrite update_phase1_selected_run.
  set (entry := phase1_selected_entry env app_id (PyStr s) st).
  set (cols := phase1_selected_columns "selected_for_interview"
                 (strftime_sql (clock env (ticks st))) (PyStr s)).
  assert (Hentry : conn entry = sql_update cols app_id (db st)) by done.
  assert (Hrow1 : conn entry !! app_id = Some (set_columns cols row)).
  { rewrite Hentry. unfold sql_update. by rewrite lookup_alter_eq, Hrow. }
  destruct (selected_columns_keep_texts "selected_for_interview"
              (strftime_sql (clock env (ticks st))) (PyStr s) row) as (Hf1 & Hid1 & Htexts).
  fold cols in Hf1, Hid1, Htexts.
  specialize (Hf1 Hfields). rewrite Hid in Hid1. rewrite <- Htexts in Hparse.
  rewrite phase1_generate_pdf_run, Hrow1, Hmk. cbv zeta.
  change (ticks entry) with (S (ticks st)).
  set (fname := phase1_pdf_filename app_id (clock env (S (ticks st)))).
  set (vcode := phase1_verification_code app_id (clock env (S (S (ticks st))))).
  destruct (invitation_renders env (set_columns cols row) s (path_join convocations_dir fname)
              (Some vcode) (base_url_of env) (set_ticks (S (S (S (ticks st)))) entry) id
              Hf1 Hid1 Hparse Href) as (st1 & hdr & Hh & Hrun).
  cbv zeta in Hrun. rewrite Hrun.
  apply invitation_header_frame in Hh as (_ & Hfiles1 & _ & Hc1 & _).
  match type of Hrun with _ = (if builds _ _ ?e then _ else _) => set (els := e) end.
  intros Hpdf. split.
  { destruct (builds env _ els); [reflexivity|].
    destruct (phase1_pdf_failed _ _) as [[?|[]] ?]; reflexivity. }
  exists els. destruct (builds env (path_join convocations_dir fname) els).
  - cbn [fst snd finish files conn db set_files set_conn set_db set_ticks] in *.
    assert (Hcell : cell (sql_update (pdf_column fname) app_id (conn st1)) app_id
                      "interview_invitation_pdf" = Some (PyStr fname)).
    { rewrite cell_sql_update, Hc1, Hrow1. simpl. by rewrite lookup_insert_eq. }
    split; [exact Hcell|]. split; [|split].
    + by apply get_interview_invitation_pdf_of_cell.
    + intros q Hq. rewrite lookup_insert_ne by done. by rewrite Hfiles1.
    + eexists. split; [apply lookup_insert_eq|].
      intros pg Hpg. apply document_of_canvas in Hpg. rewrite Hpg.
      apply add_qr_and_code_supplied. unfold vcode, phase1_verification_code. discriminate.
  - cbn [fst] in Hpdf. exact Hpdf.
Qed.

Lemma selection_writes_invitation_witness :
  db Sample.st0 !! 5%Z = Some Sample.application5 ∧
  has_invitation_fields Sample.application5 ∧
  Sample.application5 !! "id" = Some (PyInt 5) ∧
  all_parse Sample.env (invitation_body_texts Sample.application5) ∧
  markup_ok Sample.env
    (invitation_reference (PyInt 5) (clock Sample.env (S (S (S (S (ticks Sample.st0)))))))
  = true ∧
  makedirs_ok Sample.env convocations_dir = true ∧
  let r := update_phase1_status Sample.env 5 "selected_for_interview"
             (PyStr "2025-10-20T09:30") PyNone Sample.st0 in
  let fname := phase1_pdf_filename 5 (clock Sample.env (S (ticks Sample.st0))) in
  let vcode := phase1_verification_code 5 (clock Sample.env (S (S (ticks Sample.st0)))) in
  r.1 = inr tt ∧
  ∃ els,
    if builds Sample.env (path_join convocations_dir fname) els then
      cell (db r.2) 5 "interview_invitation_pdf" = Some (PyStr fname) ∧
      (get_interview_invitation_pdf 5 r.2).1 = inr (PyStr fname) ∧
      (∀ q, q ≠ path_join convocations_dir fname → files r.2 !! q = files Sample.st0 !! q) ∧
      ∃ doc,
        files r.2 !! path_join convocations_dir fname = Some doc ∧
        ∀ pg, In pg (pages doc) →
          In (DrawImage (QRCode (base_url_of Sample.env +:+ "/verify/" +:+ vcode)) 12 257 30 30)
             (canvas pg) ∧
          In (DrawCentredString 105 17 ("Code de vérification : " +:+ vcode)) (canvas pg)
    else
      cell (db r.2) 5 "interview_invitation_pdf"
      = cell (db Sample.st0) 5 "interview_invitation_pdf" ∧
      files r.2 = files Sample.st0.
Proof.
  assert (H1 : db Sample.st0 !! 5%Z = Some Sample.application5)
    by (unfold Sample.st0; cbn [db]; apply lookup_singleton_eq).
  assert (H2 : has_invitation_fields Sample.application5)
    by (unfold has_invitation_fields; decide_by_computation).
  assert (H3 : Sample.application5 !! "id" = Some (PyInt 5)) by (vm_compute; reflexivity).
  assert (H4 : all_parse Sample.env (invitation_body_texts Sample.application5)).
  { unfold all_parse, invitation_body_texts.
    repeat (apply Forall_cons; split; [vm_compute; reflexivity|]). apply Forall_nil. done. }
  assert (H5 : markup_ok Sample.env
                 (invitation_reference (PyInt 5)
                    (clock Sample.env (S (S (S (S (ticks Sample.st0))))))) = true)
    by (vm_compute; reflexivity).
  assert (H6 : makedirs_ok Sample.env convocations_dir = true) by reflexivity.
  do 6 (split; [assumption|]).
  exact (selection_writes_invitation Sample.env 5 "2025-10-20T09:30" PyNone
           Sample.st0 Sample.application5 (PyInt 5) H1 H2 H3 H4 H5 H6).
Defined.

(** ** Further properties of the file names *)

Section CleanName.
Variable ucd_alnum : N → bool.

Lemma collapse_runs_no_separator b s :
  Forall (λ c, separator c = false) (collapse_runs b s).
Proof.
  revert b. induction s as [|c s IH]; intros b; simpl; [constructor|].
  fold (separator c). destruct (separator c) eqn:Hc.
  - destruct b; [apply IH|]. constructor; [reflexivity | apply IH].
  - constructor; [exact Hc | apply IH].
Qed.

Lemma collapse_runs_id b s :
  Forall (λ c, separator c = false) s → collapse_runs b s = s.
Proof.
  revert b. induction s as [|c s IH]; intros b H; simpl; [done|].
  apply Forall_cons in H as [Hc H]. fold (separator c). rewrite Hc. by rewrite IH.
Qed.

Lemma collapse_runs_length b s : (length (collapse_runs b s) ≤ length s)%nat.
Proof.
  revert b. induction s as [|c s IH]; intros b; simpl; [lia|].
  pose proof (IH true). pose proof (IH false).
  destruct ((c =? 45)%N || unicode_space c); [destruct b|]; simpl; lia.
Qed.

Lemma collapse_runs_nil s : collapse_runs false s = [] → s = [].
Proof.
  destruct s as [|c s]; [done|]. simpl.
  destruct ((c =? 45)%N || unicode_space c); discriminate.
Qed.

Lemma strip_special_id s :
  Forall (λ c, re_word ucd_alnum c = true) s → strip_special ucd_alnum s = s.
Proof.
  induction s as [|c s IH]; intros H; [done|].
  apply Forall_cons in H as [Hc H]. unfold strip_special in *. simpl.
  rewrite Hc. simpl. by rewrite IH.
Qed.

(** X12: cleaning a candidate name is idempotent; the cleaned name has
    neither hyphen nor white space (each run of them has become one
    underscore) and is not longer than the name; it is empty exactly when the
    name has no word character, white space or hyphen at all. *)
Theorem clean_name_properties name :
  clean_name ucd_alnum (clean_name ucd_alnum name) = clean_name ucd_alnum name ∧
  Forall (λ c, c ≠ 45%N ∧ unicode_space c = false) (clean_name ucd_alnum name) ∧
  (length (clean_name ucd_alnum name) ≤ length name)%nat ∧
  (clean_name ucd_alnum name = [] ↔
   Forall (λ c, re_word ucd_alnum c = false ∧ unicode_space c = false ∧ c ≠ 45%N) name).
Proof.
  split; [|split; [|split]].
  - unfold clean_name at 1. rewrite strip_special_id by apply clean_name_word.
    apply collapse_runs_id. apply collapse_runs_no_separator.
  - eapply Forall_impl; [apply collapse_runs_no_separator|].
    intros c Hc. unfold separator in Hc. apply orb_false_iff in Hc as [H1 H2].
    split; [by apply N.eqb_neq | exact H2].
  - unfold clean_name. etrans; [apply collapse_runs_length|].
    unfold strip_special. apply List.filter_length_le.
  - unfold clean_name, strip_special. split.
    + intros H. apply collapse_runs_nil in H.
      apply List.Forall_forall. intros c Hc.
      destruct (re_word ucd_alnum c || unicode_space c || (c =? 45)%N) eqn:E.
      * assert (Hin : In c (List.filter
                  (λ c, re_word ucd_alnum c || unicode_space c || (c =? 45)%N) name))
          by (apply filter_In; split; [exact Hc | exact E]).
        rewrite H in Hin. destruct Hin.
      * apply orb_false_iff in E as [E E3]. apply orb_false_iff in E as [E1 E2].
        repeat split; [done..|by apply N.eqb_neq].
    + intros H. induction name as [|c name IH]; [done|].
      apply Forall_cons in H as [(H1 & H2 & H3) H]. simpl.
      apply N.eqb_neq in H3. rewrite H1, H2, H3. simpl. by apply IH.
Qed.

End CleanName.

(** ** The single-column functions of [models.py] *)

(** A function that opens a connection, runs one [UPDATE], commits and
    closes. *)
Lemma one_update_run sets app_id st :
  (get_db_connection;; execute_update sets app_id;; commit;; close) st
  = (inr tt, finish (set_conn (sql_update sets app_id (db st)) st)).
Proof. reflexivity. Qed.

Lemma finish_db s : db (finish s) = conn s.
Proof. reflexivity. Qed.

Lemma get_acceptance_letter_pdf_run app_id st :
  get_acceptance_letter_pdf app_id st
  = (inr (match db st !! app_id with
          | Some row => column row "acceptance_letter_pdf"
          | None => PyNone
          end), set_conn (db st) st).
Proof. reflexivity. Qed.

(** X13: the stored document names round-trip.  For an existing application,
    what [save_interview_invitation_pdf] (resp. [save_acceptance_letter_pdf])
    stores is what the matching getter returns; for an application that does
    not exist the save changes nothing and the getter returns [None]. *)
Theorem saved_pdf_name_is_read_back app_id f st :
  (is_Some (db st !! app_id) →
   (get_interview_invitation_pdf app_id (save_interview_invitation_pdf app_id f st).2).1
   = inr f ∧
   (get_acceptance_letter_pdf app_id (save_acceptance_letter_pdf app_id f st).2).1
   = inr f) ∧
  (db st !! app_id = None →
   db (save_interview_invitation_pdf app_id f st).2 = db st ∧
   db (save_acceptance_letter_pdf app_id f st).2 = db st ∧
   (get_interview_invitation_pdf app_id (save_interview_invitation_pdf app_id f st).2).1
   = inr PyNone ∧
   (get_acceptance_letter_pdf app_id (save_acceptance_letter_pdf app_id f st).2).1
   = inr PyNone).
Proof.
  unfold save_interview_invitation_pdf, save_acceptance_letter_pdf.
  rewrite !one_update_run, get_interview_invitation_pdf_run, get_acceptance_letter_pdf_run.
  cbn [fst snd]. rewrite !finish_db. cbn [conn set_conn]. split.
  - intros [row Hrow]. unfold sql_update. rewrite !lookup_alter_eq, Hrow. simpl.
    unfold column. by rewrite !lookup_insert_eq.
  - intros Hnone. rewrite !sql_update_missing by done. by rewrite Hnone.
Qed.

Lemma saved_pdf_name_is_read_back_witness :
  is_Some (db Sample.st0 !! 5%Z) ∧ db Sample.st0 !! 9%Z = None ∧
  (get_interview_invitation_pdf 5
     (save_interview_invitation_pdf 5 (PyStr "c.pdf") Sample.st0).2).1 = inr (PyStr "c.pdf") ∧
  (get_interview_invitation_pdf 9
     (save_interview_invitation_pdf 9 (PyStr "c.pdf") Sample.st0).2).1 = inr PyNone.
Proof.
  assert (H1 : is_Some (db Sample.st0 !! 5%Z)) by decide_by_computation.
  assert (H2 : db Sample.st0 !! 9%Z = None) by (vm_compute; reflexivity).
  split; [exact H1|]. split; [exact H2|]. split.
  - exact (proj1 (proj1 (saved_pdf_name_is_read_back 5 (PyStr "c.pdf") Sample.st0) H1)).
  - exact (proj1 (proj2 (proj2 (proj2 (saved_pdf_name_is_read_back 9 (PyStr "c.pdf")
                                         Sample.st0) H2)))).
Defined.

Lemma cell_one_update c v app_id t col :
  col ≠ c → cell (sql_update [(c, v)] app_id t) app_id col = cell t app_id col.
Proof.
  intros H. apply cell_sql_update_other. simpl. intros Hin.
  apply elem_of_cons in Hin as [->|Hin]; [done|]. by apply elem_of_nil in Hin.
Qed.

Lemma cell_one_update_eq c v app_id t :
  is_Some (t !! app_id) → cell (sql_update [(c, v)] app_id t) app_id c = Some v.
Proof.
  intros [row Hrow]. rewrite cell_sql_update, Hrow. simpl. apply lookup_insert_eq.
Qed.

Lemma one_update_writes_one_column c v app_id st :
  writes_one_column c v app_id st
    ((get_db_connection;; execute_update [(c, v)] app_id;; commit;; close) st).
Proof.
  rewrite one_update_run. unfold writes_one_column. cbn [fst snd].
  rewrite finish_db. cbn [conn set_conn]. split; [done|].
  split; [apply cell_one_update_eq|]. split; [intros col; apply cell_one_update|].
  split; [intros other; apply sql_update_other|].
  split; [apply sql_update_missing|]. done.
Qed.

(** X14: each of [update_application_status], [add_interview_notes],
    [save_interview_invitation_pdf] and [save_acceptance_letter_pdf] writes
    its one column of the one application and nothing else: it never raises,
    every other column and every other row keeps its value, an unknown id
    changes nothing, and no file or log line is written.  In particular
    [update_application_status] does not move [workflow_phase]. *)
Theorem setters_write_one_column app_id v st :
  writes_one_column "status" v app_id st (update_application_status app_id v st) ∧
  writes_one_column "interview_notes" v app_id st (add_interview_notes app_id v st) ∧
  writes_one_column "interview_invitation_pdf" v app_id st
    (save_interview_invitation_pdf app_id v st) ∧
  writes_one_column "acceptance_letter_pdf" v app_id st
    (save_acceptance_letter_pdf app_id v st).
Proof. repeat split; apply one_update_writes_one_column. Qed.

Lemma mark_notification_sent_run app_id phase st :
  mark_notification_sent app_id phase st =
  (inr tt,
   finish (set_conn
     (if decide (phase = PyInt 1) then
        sql_update [("phase1_notification_sent", PyInt 1)] app_id (db st)
      else if decide (phase = PyInt 2) then
        sql_update [("phase2_notification_sent", PyInt 1)] app_id (db st)
      else db st) st)).
Proof.
  unfold mark_notification_sent.
  destruct (decide (phase = PyInt 1)); [reflexivity|].
  destruct (decide (phase = PyInt 2)); reflexivity.
Qed.

Lemma sql_update_one_idem c v app_id t :
  sql_update [(c, v)] app_id (sql_update [(c, v)] app_id t) = sql_update [(c, v)] app_id t.
Proof.
  apply map_eq. intros i. unfold sql_update.
  destruct (decide (i = app_id)) as [->|Hne].
  - rewrite !lookup_alter_eq. destruct (t !! app_id) as [row|]; [simpl|done].
    by rewrite insert_insert_eq.
  - by rewrite !lookup_alter_ne.
Qed.

(** X15: [mark_notification_sent] sets the flag of the phase it is given (1
    or 2) and only that one; marking twice is the same as marking once; any
    other phase value changes nothing. *)
Theorem notification_flag app_id phase st :
  let r := mark_notification_sent app_id phase st in
  r.1 = inr tt ∧
  db (mark_notification_sent app_id phase r.2).2 = db r.2 ∧
  (phase = PyInt 1 →
   (is_Some (db st !! app_id) →
    cell (db r.2) app_id "phase1_notification_sent" = Some (PyInt 1)) ∧
   ∀ col, col ≠ "phase1_notification_sent" →
          cell (db r.2) app_id col = cell (db st) app_id col) ∧
  (phase = PyInt 2 →
   (is_Some (db st !! app_id) →
    cell (db r.2) app_id "phase2_notification_sent" = Some (PyInt 1)) ∧
   ∀ col, col ≠ "phase2_notification_sent" →
          cell (db r.2) app_id col = cell (db st) app_id col) ∧
  (phase ≠ PyInt 1 → phase ≠ PyInt 2 → db r.2 = db st).
Proof.
  cbv zeta. rewrite !mark_notification_sent_run. cbn [fst snd]. rewrite !finish_db.
  cbn [conn set_conn db finish set_db].
  split; [done|]. split; [|split; [|split]].
  - destruct (decide (phase = PyInt 1)); [apply sql_update_one_idem|].
    destruct (decide (phase = PyInt 2)); [apply sql_update_one_idem|]. done.
  - intros ->. rewrite decide_True by done.
    split; [apply cell_one_update_eq | intros col; apply cell_one_update].
  - intros ->. rewrite decide_False by done. rewrite decide_True by done.
    split; [apply cell_one_update_eq | intros col; apply cell_one_update].
  - intros H1 H2. by rewrite !decide_False by done.
Qed.

Lemma notification_flag_witness :
  is_Some (db Sample.st0 !! 5%Z) ∧ PyStr "1" ≠ PyInt 1 ∧ PyStr "1" ≠ PyInt 2 ∧
  cell (db (mark_notification_sent 5 (PyInt 1) Sample.st0).2) 5 "phase1_notification_sent"
  = Some (PyInt 1) ∧
  db (mark_notification_sent 5 (PyStr "1") Sample.st0).2 = db Sample.st0.
Proof.
  assert (H1 : is_Some (db Sample.st0 !! 5%Z)) by decide_by_computation.
  assert (H2 : PyStr "1" ≠ PyInt 1) by discriminate.
  assert (H3 : PyStr "1" ≠ PyInt 2) by discriminate.
  do 3 (split; [assumption|]). split.
  - exact (proj1 (proj1 (proj2 (proj2 (notification_flag 5 (PyInt 1) Sample.st0))) eq_refl) H1).
  - exact (proj2 (proj2 (proj2 (proj2 (notification_flag 5 (PyStr "1") Sample.st0)))) H2 H3).
Defined.

Lemma toggle_favorite_run app_id st :
  toggle_favorite app_id st =
  match db st !! app_id with
  | Some row =>
      if decide (column row "job_id" = PyInt 0) then
        let new_status :=
          if decide (column row "is_favorite" = PyInt 1) then PyInt 0 else PyInt 1 in
        (inr new_status,
         finish (set_conn (sql_update [("is_favorite", new_status)] app_id (db st)) st))
      else (inr PyNone, set_conn (db st) st)
  | None => (inr PyNone, set_conn (db st) st)
  end.
Proof.
  unfold toggle_favorite. rewrite bind_run. unfold get_db_connection, modify.
  rewrite bind_run. unfold fetch_application, gets. cbn [conn set_conn].
  destruct (db st !! app_id) as [row|]; [|reflexivity].
  destruct (decide (column row "job_id" = PyInt 0)); reflexivity.
Qed.

Lemma is_favorite_run app_id st :
  is_favorite app_id st =
  (inr (match db st !! app_id with
        | Some row => bool_decide (column row "is_favorite" = PyInt 1)
        | None => false
        end), set_conn (db st) st).
Proof. reflexivity. Qed.

(** X16: [toggle_favorite] acts on spontaneous applications only.  For an
    unknown id or an application with a job it returns [None] and changes
    nothing.  For a spontaneous application it returns 0 if the flag was 1
    and 1 otherwise (so also from NULL), stores that value, [is_favorite]
    then agrees with it, and no other column or row changes. *)
Theorem toggle_favorite_spec app_id st :
  let r := toggle_favorite app_id st in
  match db st !! app_id with
  | Some row =>
      if decide (column row "job_id" = PyInt 0) then
        r.1 = inr (if decide (column row "is_favorite" = PyInt 1) then PyInt 0 else PyInt 1) ∧
        (∃ v, r.1 = inr v ∧ cell (db r.2) app_id "is_favorite" = Some v ∧
              (is_favorite app_id r.2).1 = inr (bool_decide (v = PyInt 1))) ∧
        (∀ col, col ≠ "is_favorite" → cell (db r.2) app_id col = cell (db st) app_id col) ∧
        (∀ other, other ≠ app_id → db r.2 !! other = db st !! other)
      else r.1 = inr PyNone ∧ db r.2 = db st
  | None => r.1 = inr PyNone ∧ db r.2 = db st
  end.
Proof.
  cbv zeta. rewrite toggle_favorite_run.
  destruct (db st !! app_id) as [row|] eqn:Hrow; [|done].
  destruct (decide (column row "job_id" = PyInt 0)); [|done].
  cbv zeta. cbn [fst snd]. rewrite finish_db. cbn [conn set_conn].
  set (v := if decide (column row "is_favorite" = PyInt 1) then PyInt 0 else PyInt 1).
  split; [done|]. split; [|split].
  - exists v. split; [reflexivity|].
    split; [apply cell_one_update_eq; by rewrite Hrow|].
    rewrite is_favorite_run. cbn [fst]. rewrite finish_db. cbn [conn set_conn].
    unfold sql_update. rewrite lookup_alter_eq, Hrow. simpl.
    assert (Hcol : column (<["is_favorite" := v]> row) "is_favorite" = v)
      by (unfold column; by rewrite lookup_insert_eq).
    by rewrite Hcol.
  - intros col. apply cell_one_update.
  - intros other. apply sql_update_other.
Qed.

(** X17: toggling a spontaneous application twice, when its flag is 0 or 1,
    gives back the table it started from. *)
Theorem toggle_favorite_twice app_id st row b :
  db st !! app_id = Some row →
  column row "job_id" = PyInt 0 →
  row !! "is_favorite" = Some (PyInt b) →
  (b = 0 ∨ b = 1)%Z →
  db (toggle_favorite app_id (toggle_favorite app_id st).2).2 = db st.
Proof.
  intros Hrow Hjob Hfav Hb.
  assert (Hc : column row "is_favorite" = PyInt b) by (unfold column; by rewrite Hfav).
  assert (Hstep : ∀ v w (t : gmap Z (gmap string pyval)) r0,
            t !! app_id = Some r0 → column r0 "job_id" = PyInt 0 →
            column r0 "is_favorite" = v →
            w = (if decide (v = PyInt 1) then PyInt 0 else PyInt 1) →
            ∀ s0, db s0 = t →
            db (toggle_favorite app_id s0).2 = sql_update [("is_favorite", w)] app_id t).
  { intros v w t r0 Hr0 Hj Hv -> s0 <-. rewrite toggle_favorite_run, Hr0.
    rewrite decide_True by done. cbv zeta. cbn [snd]. rewrite finish_db. cbn [conn set_conn].
    by rewrite Hv. }
  set (v1 := if decide (PyInt b = PyInt 1) then PyInt 0 else PyInt 1).
  assert (H1 : db (toggle_favorite app_id st).2 = sql_update [("is_favorite", v1)] app_id (db st))
    by (apply (Hstep (PyInt b) v1 (db st) row); done).
  set (row1 := <["is_favorite" := v1]> row).
  assert (Hrow1 : sql_update [("is_favorite", v1)] app_id (db st) !! app_id = Some row1)
    by (unfold sql_update; by rewrite lookup_alter_eq, Hrow).
  assert (Hj1 : column row1 "job_id" = PyInt 0)
    by (unfold column, row1 in *; by rewrite lookup_insert_ne).
  assert (Hf1 : column row1 "is_favorite" = v1)
    by (unfold column, row1; by rewrite lookup_insert_eq).
  rewrite (Hstep v1 (PyInt b) _ row1 Hrow1 Hj1 Hf1).
  - apply map_eq. intros i. unfold sql_update.
    destruct (decide (i = app_id)) as [->|Hne].
    + rewrite !lookup_alter_eq, Hrow. simpl. f_equal.
      rewrite insert_insert_eq. by apply insert_id.
    + by rewrite !lookup_alter_ne.
  - unfold v1. destruct Hb as [-> | ->]; reflexivity.
  - exact H1.
Qed.

Lemma toggle_favorite_twice_witness :
  db MoreSamples.st3 !! 3%Z = Some MoreSamples.spontaneous3 ∧
  column MoreSamples.spontaneous3 "job_id" = PyInt 0 ∧
  MoreSamples.spontaneous3 !! "is_favorite" = Some (PyInt 0) ∧ (0 = 0 ∨ 0 = 1)%Z ∧
  db (toggle_favorite 3 (toggle_favorite 3 MoreSamples.st3).2).2 = db MoreSamples.st3.
Proof.
  assert (H1 : db MoreSamples.st3 !! 3%Z = Some MoreSamples.spontaneous3)
    by apply lookup_singleton_eq.
  assert (H2 : column MoreSamples.spontaneous3 "job_id" = PyInt 0) by (vm_compute; reflexivity).
  assert (H3 : MoreSamples.spontaneous3 !! "is_favorite" = Some (PyInt 0))
    by (vm_compute; reflexivity).
  assert (H4 : (0 = 0 ∨ 0 = 1)%Z) by (left; reflexivity).
  do 4 (split; [assumption|]).
  exact (toggle_favorite_twice 3 MoreSamples.st3 MoreSamples.spontaneous3 0 H1 H2 H3 H4).
Defined.

(** ** Deleting files and applications *)

Lemma wbind_run {A B} (m : W A) (f : A → W B) w :
  (m ≫= f) w = match m w with (inl e, w') => (inl e, w') | (inr a, w') => f a w' end.
Proof. reflexivity. Qed.

Lemma removes_refl w : removes 0 w w.
Proof. unfold removes. repeat split; try done. lia. Qed.

Lemma removes_trans n m w1 w2 w3 :
  removes n w1 w2 → removes m w2 w3 → removes (n + m) w1 w3.
Proof.
  intros (H1 & H2 & H3 & H4 & H5) (K1 & K2 & K3 & K4 & K5). unfold removes.
  split; [by etrans|]. split; [lia|]. split; [congruence|]. split; congruence.
Qed.

Lemma all_paths_remove p w :
  all_paths (fs_remove p w).2 = all_paths w ∖ {[p]}.
Proof.
  unfold all_paths, fs_remove. simpl. rewrite dom_delete_L.
  apply set_eq. intros x. rewrite !elem_of_union, !elem_of_difference, elem_of_union. tauto.
Qed.

Lemma fs_exists_spec p w :
  fs_exists p w = (inr (bool_decide (p ∈ all_paths w)), w).
Proof.
  unfold fs_exists, all_paths. do 2 f_equal.
  apply eq_bool_prop_intro.
  rewrite orb_True, !bool_decide_spec, elem_of_union, elem_of_dom. done.
Qed.

Lemma removes_one p w :
  p ∈ all_paths w → removes 1 w (fs_remove p w).2.
Proof.
  intros Hp. unfold removes. rewrite all_paths_remove.
  split; [intros x Hx; by apply elem_of_difference in Hx as [? _]|]. split; [|done].
  assert (Hd : size (all_paths w ∖ {[p]}) = size (all_paths w) - size ({[p]} : gset string)).
  { apply size_difference. intros x Hx. apply elem_of_singleton in Hx. by subst. }
  rewrite size_singleton in Hd.
  assert (Hpos : size (all_paths w) ≠ 0).
  { apply size_non_empty_iff. intros He. specialize (He p). rewrite elem_of_empty in He. tauto. }
  lia.
Qed.

Lemma lift_print_run s w :
  lift (print s) w
  = (inr tt, {| state := set_stdout (stdout (state w) ++ [Printed s]) (state w);
                uploads := uploads w |}).
Proof. reflexivity. Qed.

Lemma removes_print n w w' s :
  removes n w w' → removes n w (lift (print s) w').2.
Proof. intros H. rewrite lift_print_run. exact H. Qed.

Section DeletionFacts.
Variable remove_ok : string → bool.
Variable remove_error : string → string.

(** The loop over the candidate paths removes the first one that exists, if
    it can. *)
Lemma remove_first_spec paths w :
  ∃ b w', remove_first remove_ok remove_error paths w = (inr b, w') ∧
    (b = true →
     ∃ before p after, paths = before ++ p :: after ∧
       Forall (λ q, q ∉ all_paths w) before ∧ p ∈ all_paths w ∧ remove_ok p = true ∧
       all_paths w' = all_paths w ∖ {[p]} ∧ removes 1 w w') ∧
    (b = false → removes 0 w w' ∧ all_paths w' = all_paths w).
Proof.
  induction paths as [|p paths IH]; simpl.
  - exists false, w. split; [done|]. split; [done|]. intros _. split; [apply removes_refl|done].
  - rewrite wbind_run, fs_exists_spec.
    destruct (decide (p ∈ all_paths w)) as [Hp|Hp].
    + rewrite bool_decide_eq_true_2 by done. destruct (remove_ok p) eqn:Hok.
      * eexists true, _. split; [reflexivity|]. split; [|done]. intros _.
        exists [], p, paths. split; [done|]. split; [constructor|]. split; [done|].
        split; [done|]. split; [apply all_paths_remove|].
        apply removes_print. by apply removes_one.
      * eexists false, _. split; [reflexivity|]. split; [done|]. intros _.
        split; [apply removes_print, removes_refl | done].
    + rewrite bool_decide_eq_false_2 by done.
      destruct IH as (b & w' & Hrun & Ht & Hf). exists b, w'. split; [exact Hrun|].
      split; [|exact Hf]. intros Hb.
      destruct (Ht Hb) as (before & q & after & -> & Hbefore & Hrest).
      exists (p :: before), q, after. split; [done|]. split; [by constructor | exact Hrest].
Qed.

Lemma delete_file_if_exists_text f w :
  f ≠ "" →
  delete_file_if_exists remove_ok remove_error (PyStr f) w
  = remove_first remove_ok remove_error [os_path_join "static/uploads" f; os_path_join "uploads" f] w.
Proof.
  intros Hf. unfold delete_file_if_exists, truthy.
  apply String.eqb_neq in Hf. rewrite Hf. reflexivity.
Qed.

(** X18: [delete_file_if_exists] removes at most one file.  An empty or
    missing name does nothing and answers [False]; a name that is not text
    raises [TypeError] before anything is touched.  For a text name the
    candidates are [static/uploads/{name}] then [uploads/{name}]: the first
    one that exists is the only one tried; the answer is [True] exactly when
    it was removed, and no other path and no table changes. *)
Theorem delete_file_if_exists_spec filename w :
  let r := delete_file_if_exists remove_ok remove_error filename w in
  match filename with
  | PyStr f =>
      let p1 := os_path_join "static/uploads" f in
      let p2 := os_path_join "uploads" f in
      ∃ b, r.1 = inr b ∧
        (f = "" → b = false ∧ r.2 = w) ∧
        (b = true →
         ∃ p, (p = p1 ∨ p = p2 ∧ p1 ∉ all_paths w) ∧ p ∈ all_paths w ∧ remove_ok p = true ∧
              all_paths r.2 = all_paths w ∖ {[p]}) ∧
        (b = false → all_paths r.2 = all_paths w) ∧
        removes (if b then 1 else 0) w r.2
  | PyNone => r = (inr false, w)
  | PyInt z => if (z =? 0)%Z then r = (inr false, w) else ∃ m, r = (inl (TypeError m), w)
  end.
Proof.
  cbv zeta. destruct filename as [|f|z].
  - reflexivity.
  - destruct (String.eqb f "") eqn:Hf.
    + apply String.eqb_eq in Hf. subst f. exists false.
      split; [done|]. split; [done|]. split; [done|]. split; [done|]. apply removes_refl.
    + apply String.eqb_neq in Hf. rewrite delete_file_if_exists_text by done.
      destruct (remove_first_spec [os_path_join "static/uploads" f; os_path_join "uploads" f] w)
        as (b & w' & Hrun & Ht & Hfalse).
      rewrite Hrun. exists b. cbn [fst snd]. split; [done|]. split; [done|]. split; [|split].
      * intros Hb. destruct (Ht Hb) as (before & p & after & Heq & Hbefore & Hp & Hok & Hall & _).
        exists p. split; [|split; [exact Hp | split; [exact Hok | exact Hall]]].
        destruct before as [|q before].
        { left. simpl in Heq. congruence. }
        simpl in Heq. injection Heq as Hq1 Heq. subst q.
        apply Forall_cons in Hbefore as [Hq Hbefore].
        destruct before as [|q' before].
        { right. simpl in Heq. split; [congruence | done]. }
        simpl in Heq. injection Heq as _ Heq. destruct before; discriminate.
      * intros Hb. by apply Hfalse.
      * destruct b.
        -- destruct (Ht eq_refl) as (? & ? & ? & _ & _ & _ & _ & _ & Hr). exact Hr.
        -- by apply Hfalse.
  - unfold delete_file_if_exists, truthy. destruct (z =? 0)%Z; cbn [negb]; [reflexivity|].
    eexists. reflexivity.
Qed.


(** What the loops over the file columns need of [delete_file_if_exists]:
    it removes one file when it answers [True] and none otherwise, and its
    only error leaves everything in place. *)
Lemma delete_file_if_exists_counts v w :
  ∃ res w', delete_file_if_exists remove_ok remove_error v w = (res, w') ∧
    match res with
    | inr b => removes (if b then 1 else 0) w w'
    | inl e => (∃ m, e = TypeError m) ∧ w' = w
    end ∧
    (text_or_null v → ∃ b, res = inr b).
Proof.
  destruct v as [|f|z].
  - exists (inr false), w. split; [done|]. split; [apply removes_refl|eauto].
  - destruct (String.eqb f "") eqn:Hf.
    + apply String.eqb_eq in Hf. subst f.
      exists (inr false), w. split; [done|]. split; [apply removes_refl|eauto].
    + apply String.eqb_neq in Hf. rewrite delete_file_if_exists_text by done.
      destruct (remove_first_spec [os_path_join "static/uploads" f; os_path_join "uploads" f] w)
        as (b & w' & Hrun & Ht & Hfalse).
      exists (inr b), w'. split; [done|]. split; [|eauto].
      destruct b; [by destruct (Ht eq_refl) as (? & ? & ? & _ & _ & _ & _ & _ & Hr)|].
      by apply Hfalse.
  - unfold delete_file_if_exists, truthy. destruct (z =? 0)%Z; cbn [negb].
    + exists (inr false), w. split; [done|]. split; [apply removes_refl|eauto].
    + eexists (inl _), w. split; [reflexivity|]. split; [eauto|]. intros [].
Qed.

Lemma counts_bind b1 b2 (m1 m2 : Z → W Z) :
  counts_removals b1 m1 → counts_removals b2 m2 →
  counts_removals (b1 + b2) (λ n0, m1 n0 ≫= m2).
Proof.
  intros H1 H2 n0 w.
  destruct (H1 n0 w) as (k1 & res1 & w1 & Hrun1 & Hr1 & Hk1 & Hres1).
  rewrite wbind_run, Hrun1. destruct res1 as [e|n1].
  - exists k1, (inl e), w1. split; [done|]. split; [done|]. split; [|done].
    destruct (H2 0%Z w) as (k2 & _ & _ & _ & _ & Hk2 & _). lia.
  - subst n1. destruct (H2 (n0 + k1)%Z w1) as (k2 & res2 & w2 & Hrun2 & Hr2 & Hk2 & Hres2).
    exists (k1 + k2)%Z, res2, w2. split; [done|].
    split; [by eapply removes_trans|]. split; [lia|].
    destruct res2; [done|]. lia.
Qed.

Lemma delete_document_counts dir filename ok ko :
  counts_removals 1 (delete_document remove_ok remove_error dir filename ok ko).
Proof.
  intros n0 w. unfold delete_document.
  destruct (truthy filename) eqn:Ht.
  2:{ exists 0%Z, (inr n0), w. split; [done|]. split; [apply removes_refl|].
      split; [lia|]. lia. }
  destruct filename as [|f|z].
  - discriminate.
  - rewrite wbind_run. unfold join_under at 1, mret at 1, W_ret at 1. cbv beta iota.
    rewrite wbind_run, fs_exists_spec.
    destruct (bool_decide _) eqn:Hex.
    + apply bool_decide_eq_true in Hex. destruct (remove_ok _) eqn:Hok.
      * eexists 1%Z, (inr (n0 + 1)%Z), _. split; [reflexivity|].
        split; [apply removes_print; by apply removes_one|]. split; [lia|done].
      * eexists 0%Z, (inr n0), _. split; [reflexivity|].
        split; [apply removes_print, removes_refl|]. split; lia.
    + exists 0%Z, (inr n0), w. split; [done|]. split; [apply removes_refl|]. split; lia.
  - rewrite wbind_run. unfold join_under at 1, fs_raise.
    eexists 0%Z, (inl _), w. split; [reflexivity|]. split; [apply removes_refl|].
    split; [lia|]. eauto.
Qed.

Lemma delete_each_counts filenames :
  counts_removals (Z.of_nat (length filenames)) (delete_each remove_ok remove_error filenames).
Proof.
  induction filenames as [|v filenames IH]; intros n0 w.
  - exists 0%Z, (inr n0), w. split; [done|]. split; [apply removes_refl|]. simpl. split; lia.
  - cbn [delete_each]. rewrite wbind_run.
    destruct (delete_file_if_exists_counts v w) as (r1 & w1 & -> & Hone & _).
    destruct r1 as [e|b].
    + destruct Hone as [[m ->] ->].
      exists 0%Z, (inl (TypeError m)), w. split; [done|]. split; [apply removes_refl|].
      split; [lia|]. eauto.
    + destruct (IH (if b then n0 + 1 else n0)%Z w1) as (k & res & w' & Hrun & Hr & Hk & Hres).
      exists ((if b then 1 else 0) + k)%Z, res, w'. split; [done|].
      split; [by eapply removes_trans|]. rewrite length_cons.
      split; [destruct b; lia|]. destruct res; [done|]. destruct b; lia.
Qed.

Lemma delete_application_files_counts application w :
  ∃ k res w',
    delete_application_files remove_ok remove_error application w = (res, w') ∧
    removes k w w' ∧ (0 ≤ k ≤ 9)%Z ∧
    match res with
    | inr n => n = k
    | inl e => ∃ what, e = TypeError what
    end.
Proof.
  pose proof (counts_bind _ _ _ _
    (counts_bind _ _ _ _
       (delete_each_counts (map (λ k, dict_get application k PyNone) upload_columns))
       (delete_document_counts "convocations"
          (dict_get application "interview_invitation_pdf" PyNone)
          "📄 PDF de convocation supprimé: " "⚠️ Erreur lors de la suppression du PDF: "))
    (delete_document_counts "acceptances"
       (dict_get application "acceptance_letter_pdf" PyNone)
       "✅ PDF de lettre d'acceptation supprimé: "
       "⚠️ Erreur lors de la suppression de la lettre d'acceptation: ") 0%Z w) as H.
  destruct H as (k & res & w' & Hrun & Hr & Hk & Hres).
  exists k, res, w'. split.
  - unfold delete_application_files. rewrite <- Hrun. rewrite !wbind_run.
    destruct (delete_each _ _ _ _ _) as [[e|n] w1]; [reflexivity|].
    rewrite !wbind_run.
    destruct (delete_document _ _ _ _ _ _ n w1) as [[e|n'] w2]; [reflexivity|].
    rewrite !wbind_run.
    destruct (delete_document _ _ _ _ _ _ n' w2) as [[e|n''] w3]; reflexivity.
  - split; [done|]. split; [simpl in Hk; lia|]. destruct res; [done|lia].
Qed.


Lemma delete_document_returns dir filename ok ko n0 w :
  text_or_null filename →
  ∃ n w', delete_document remove_ok remove_error dir filename ok ko n0 w = (inr n, w').
Proof.
  intros Ht. unfold delete_document. destruct (truthy filename) eqn:E; [|eauto].
  destruct filename as [|f|z]; [discriminate| |done].
  rewrite wbind_run. unfold join_under at 1, mret at 1, W_ret at 1. cbv beta iota.
  rewrite wbind_run, fs_exists_spec.
  destruct (bool_decide _); [|eauto]. destruct (remove_ok _); eauto.
Qed.

Lemma delete_each_returns filenames n0 w :
  Forall text_or_null filenames →
  ∃ n w', delete_each remove_ok remove_error filenames n0 w = (inr n, w').
Proof.
  revert n0 w. induction filenames as [|v filenames IH]; intros n0 w H; [eauto|].
  apply Forall_cons in H as [Hv H]. cbn [delete_each]. rewrite wbind_run.
  destruct (delete_file_if_exists_counts v w) as (r1 & w1 & -> & _ & Hret).
  destruct (Hret Hv) as [b ->]. by apply IH.
Qed.

Lemma delete_application_files_returns application w :
  Forall (λ c, text_or_null (dict_get application c PyNone)) file_columns →
  ∃ n w', delete_application_files remove_ok remove_error application w = (inr n, w').
Proof.
  intros H. unfold file_columns in H. apply Forall_app in H as [Hup Hdoc].
  apply Forall_cons in Hdoc as [Hconv Hdoc]. apply Forall_cons in Hdoc as [Hacc _].
  unfold delete_application_files. rewrite wbind_run.
  destruct (delete_each_returns (map (λ k, dict_get application k PyNone) upload_columns) 0%Z w)
    as (n1 & w1 & ->).
  { apply Forall_map. exact Hup. }
  rewrite wbind_run.
  destruct (delete_document_returns "convocations"
              (dict_get application "interview_invitation_pdf" PyNone)
              "📄 PDF de convocation supprimé: " "⚠️ Erreur lors de la suppression du PDF: "
              n1 w1 Hconv) as (n2 & w2 & ->).
  rewrite wbind_run.
  destruct (delete_document_returns "acceptances"
              (dict_get application "acceptance_letter_pdf" PyNone)
              "✅ PDF de lettre d'acceptation supprimé: "
              "⚠️ Erreur lors de la suppression de la lettre d'acceptation: "
              n2 w2 Hacc) as (n3 & w3 & ->).
  eauto.
Qed.

(** X19: the count that [delete_application_files] returns is exact: it is
    the number of paths that have disappeared from the file system, between
    0 and 9; no path appears and no table changes.  The only error it can
    raise is the [TypeError] of a file column that holds a number, and when
    every file column is text or NULL it returns. *)
Theorem deleted_count_is_exact application w :
  let r := delete_application_files remove_ok remove_error application w in
  (∃ k, (0 ≤ k ≤ 9)%Z ∧ removes k w r.2 ∧
        match r.1 with
        | inr n => n = k
        | inl e => ∃ what, e = TypeError what
        end) ∧
  (Forall (λ c, text_or_null (dict_get application c PyNone)) file_columns →
   ∃ n, r.1 = inr n).
Proof.
  cbv zeta. split.
  - destruct (delete_application_files_counts application w)
      as (k & res & w' & Hrun & Hr & Hk & Hres).
    rewrite Hrun. exists k. done.
  - intros H. destruct (delete_application_files_returns application w H) as (n & w' & ->).
    eauto.
Qed.

Lemma filter_none_matching {A} (f : A → bool) (l : list A) :
  length (List.filter f l) = 0 → List.filter (λ x, negb (f x)) l = l.
Proof.
  induction l as [|x l IH]; simpl; [done|].
  destruct (f x); simpl; [discriminate|]. intros H. f_equal. by apply IH.
Qed.

(** The database part of [delete_application]. *)
Lemma delete_rows_run app_id w :
  ∃ w',
    (lift get_db_connection;; lift (delete_verifications app_id);;
     lift (execute_delete app_id);; lift commit;; lift close) w = (inr tt, w') ∧
    db (state w') = delete app_id (db (state w)) ∧
    verifications (state w')
    = List.filter (λ r, negb (vr_application_id r =? app_id)%Z) (verifications (state w)) ∧
    all_paths w' = all_paths w.
Proof.
  rewrite wbind_run. unfold lift at 1, get_db_connection, modify. cbv beta iota.
  rewrite wbind_run. unfold lift at 1, delete_verifications.
  rewrite bind_run. unfold gets at 1. cbn [state verifications set_conn].
  destruct (0 <? _)%Z eqn:Hcount.
  - eexists. split; [reflexivity|]. done.
  - eexists. split; [reflexivity|]. cbn. split; [done|]. split; [|done].
    symmetry. apply filter_none_matching. apply Z.ltb_ge in Hcount. lia.
Qed.

Lemma delete_application_run app_id w :
  delete_application remove_ok remove_error app_id w =
  let w1 := {| state := set_conn (db (state w)) (set_conn (db (state w)) (state w));
               uploads := uploads w |} in
  match db (state w) !! app_id with
  | Some row =>
      if decide (row = ∅) then delete_rows app_id w1
      else
        match delete_application_files remove_ok remove_error row w1 with
        | (inl e, w2) => (inl e, w2)
        | (inr n, w2) =>
            delete_rows app_id
              (lift (print ("📁 " +:+ pretty n +:+
                            " fichier(s) supprimé(s) du système de fichiers")) w2).2
        end
  | None => delete_rows app_id w1
  end.
Proof.
  unfold delete_application. rewrite wbind_run.
  unfold lift at 1. unfold get_application_by_id.
  rewrite bind_run. unfold get_db_connection at 1, modify. cbv beta iota.
  rewrite bind_run. unfold fetch_application at 1, gets. cbn [conn set_conn].
  rewrite bind_run. unfold close at 1, modify. unfold mret at 1, M_ret at 1. cbv beta iota zeta.
  cbn [db set_conn].
  destruct (db (state w) !! app_id) as [row|]; [|reflexivity].
  destruct (decide (row = ∅)) as [Hempty|Hrow]; [reflexivity|].
  rewrite wbind_run. rewrite wbind_run.
  destruct (delete_application_files remove_ok remove_error row _) as [[e|k] w2]; reflexivity.
Qed.

(** X20: [delete_application] deletes the row of the application and the
    verification records that belong to it, and only those; it creates no
    file.  Its only failure is the [TypeError] of a file column that holds a
    number: it is raised while the files are being removed, before any row is
    deleted, and leaves both tables as they were.  An application whose file
    columns are text or NULL, or an unknown id, is always deleted. *)
Theorem delete_application_spec app_id w :
  let r := delete_application remove_ok remove_error app_id w in
  all_paths r.2 ⊆ all_paths w ∧
  match r.1 with
  | inr _ =>
      db (state r.2) = delete app_id (db (state w)) ∧
      verifications (state r.2)
      = List.filter (λ rec, negb (vr_application_id rec =? app_id)%Z)
          (verifications (state w))
  | inl e =>
      (∃ what, e = TypeError what) ∧
      db (state r.2) = db (state w) ∧
      verifications (state r.2) = verifications (state w)
  end ∧
  ((∀ row, db (state w) !! app_id = Some row →
      Forall (λ c, text_or_null (dict_get row c PyNone)) file_columns) →
   r.1 = inr tt).
Proof.
  cbv zeta. rewrite delete_application_run. cbv zeta.
  set (w1 := {| state := _; uploads := uploads w |}).
  assert (Hw1 : all_paths w1 = all_paths w ∧ db (state w1) = db (state w) ∧
                verifications (state w1) = verifications (state w)) by done.
  destruct Hw1 as (Hp1 & Hd1 & Hv1).
  assert (Htail : ∀ w2, all_paths w2 ⊆ all_paths w → db (state w2) = db (state w) →
            verifications (state w2) = verifications (state w) →
            ∃ w', delete_rows app_id w2 = (inr tt, w') ∧
              all_paths w' ⊆ all_paths w ∧
              db (state w') = delete app_id (db (state w)) ∧
              verifications (state w')
              = List.filter (λ rec, negb (vr_application_id rec =? app_id)%Z)
                  (verifications (state w))).
  { intros w2 Hp Hd Hv.
    destruct (delete_rows_run app_id w2) as (w' & Hrun & Hd' & Hv' & Hp').
    exists w'. rewrite Hd', Hv', Hp', Hd, Hv. done. }
  destruct (db (state w) !! app_id) as [row|] eqn:Hrow.
  2:{ destruct (Htail w1) as (w' & -> & H2 & H3 & H4); [by rewrite Hp1|done|done|].
      done. }
  destruct (decide (row = ∅)) as [Hempty|Hne].
  { destruct (Htail w1) as (w' & -> & H2 & H3 & H4); [by rewrite Hp1|done|done|].
    done. }
  destruct (delete_application_files_counts row w1)
    as (k & res & w2 & Hrun & (Hsub & _ & Hd2 & _ & Hv2) & _ & Hres).
  rewrite Hrun. destruct res as [e|n].
  - cbn [fst snd]. split; [by rewrite <- Hp1|]. split.
    + split; [done|]. split; congruence.
    + intros Htyped. specialize (Htyped row eq_refl).
      destruct (delete_application_files_returns row w1 Htyped) as (n & w' & Hret).
      congruence.
  - rewrite lift_print_run. cbn [snd].
    set (w3 := {| state := _; uploads := uploads w2 |}).
    destruct (Htail w3) as (w' & -> & H2 & H3 & H4).
    + change (all_paths w3) with (all_paths w2). by rewrite <- Hp1.
    + change (db (state w3)) with (db (state w2)). congruence.
    + change (verifications (state w3)) with (verifications (state w2)). congruence.
    + done.
Qed.

End DeletionFacts.

Lemma sample_file_columns :
  Forall (λ c, text_or_null (dict_get MoreSamples.spontaneous3 c PyNone)) file_columns.
Proof.
  unfold file_columns, upload_columns. cbn [app].
  repeat (apply Forall_cons; split; [vm_compute; exact I|]). apply Forall_nil. done.
Qed.

Lemma deleted_count_is_exact_witness :
  Forall (λ c, text_or_null (dict_get MoreSamples.spontaneous3 c PyNone)) file_columns ∧
  ∃ n, (delete_application_files (λ _, true) MoreSamples.permission_denied MoreSamples.spontaneous3
          MoreSamples.disk3).1 = inr n.
Proof.
  split; [exact sample_file_columns|].
  exact (proj2 (deleted_count_is_exact (λ _, true) MoreSamples.permission_denied MoreSamples.spontaneous3
                  MoreSamples.disk3) sample_file_columns).
Defined.

Lemma delete_application_spec_witness :
  (∀ row, db (state MoreSamples.disk3) !! 3%Z = Some row →
     Forall (λ c, text_or_null (dict_get row c PyNone)) file_columns) ∧
  (delete_application (λ _, true) MoreSamples.permission_denied 3 MoreSamples.disk3).1 = inr tt.
Proof.
  assert (H : ∀ row, db (state MoreSamples.disk3) !! 3%Z = Some row →
     Forall (λ c, text_or_null (dict_get row c PyNone)) file_columns).
  { intros row Hrow.
    change (db (state MoreSamples.disk3)) with ({[ 3%Z := MoreSamples.spontaneous3 ]}
      : gmap Z (gmap string pyval)) in Hrow.
    rewrite lookup_singleton_eq in Hrow. injection Hrow as <-. exact sample_file_columns. }
  split; [exact H|].
  exact (proj2 (proj2 (delete_application_spec (λ _, true) MoreSamples.permission_denied 3 MoreSamples.disk3)) H).
Defined.

(** ** The employees *)

Lemma toggle_employee_status_run emp_id employees employee :
  employees !! emp_id = Some employee →
  toggle_employee_status emp_id employees
  = (let new_status :=
       if decide (column employee "status" = PyStr "actif") then "inactif" else "actif" in
     (inr new_status, <[emp_id := <["status" := PyStr new_status]> employee]> employees)).
Proof.
  intros H. unfold toggle_employee_status. rewrite H. cbv zeta. f_equal.
  unfold sql_update, set_columns. simpl.
  apply map_eq. intros i. destruct (decide (i = emp_id)) as [->|Hi].
  - by rewrite lookup_alter_eq, lookup_insert_eq, H.
  - by rewrite lookup_alter_ne, lookup_insert_ne.
Qed.

(** X21: [toggle_employee_status] does not test that the employee exists:
    for an unknown id it raises [TypeError] and the table is as before
    (where [toggle_favorite] returns [None]).  For an employee it stores and
    returns 'inactif' when the status was 'actif' and 'actif' in every other
    case, a NULL or unknown status included; no other column and no other
    employee changes.  Two toggles give the table back exactly when the
    status was one of the two values. *)
Theorem toggle_employee_status_spec emp_id employees :
  let r := toggle_employee_status emp_id employees in
  match employees !! emp_id with
  | None => (∃ what, r.1 = inl (TypeError what)) ∧ r.2 = employees
  | Some employee =>
      let was_active := bool_decide (column employee "status" = PyStr "actif") in
      let new_status := if was_active then "inactif" else "actif" in
      r.1 = inr new_status ∧
      cell r.2 emp_id "status" = Some (PyStr new_status) ∧
      (∀ col, col ≠ "status" → cell r.2 emp_id col = cell employees emp_id col) ∧
      (∀ other, other ≠ emp_id → r.2 !! other = employees !! other) ∧
      (toggle_employee_status emp_id r.2).1 = inr (if was_active then "actif" else "inactif") ∧
      ((toggle_employee_status emp_id r.2).2 = employees ↔
       employee !! "status" = Some (PyStr "actif") ∨
       employee !! "status" = Some (PyStr "inactif"))
  end.
Proof.
  cbv zeta. destruct (employees !! emp_id) as [employee|] eqn:H.
  2:{ unfold toggle_employee_status. rewrite H. eauto. }
  rewrite (toggle_employee_status_run _ _ _ H). cbv zeta. cbn [fst snd].
  set (was_active := bool_decide (column employee "status" = PyStr "actif")).
  assert (Hnew : (if decide (column employee "status" = PyStr "actif")
                  then "inactif" else "actif")
                 = if was_active then "inactif" else "actif").
  { unfold was_active. by destruct (decide _) as [Hd|Hd];
      [rewrite bool_decide_eq_true_2 | rewrite bool_decide_eq_false_2]. }
  rewrite Hnew. set (new_status := if was_active then "inactif" else "actif").
  set (employee' := <["status" := PyStr new_status]> employee).
  assert (Hrow : <[emp_id := employee']> employees !! emp_id = Some employee')
    by apply lookup_insert_eq.
  assert (Hcol : column employee' "status" = PyStr new_status).
  { unfold column, employee'. by rewrite lookup_insert_eq. }
  assert (Hnext : (if decide (column employee' "status" = PyStr "actif")
                   then "inactif" else "actif")
                  = if was_active then "actif" else "inactif").
  { rewrite Hcol. unfold new_status. by destruct was_active. }
  split; [done|]. split.
  { unfold cell. rewrite Hrow. simpl. apply lookup_insert_eq. }
  split.
  { intros col Hc. unfold cell. rewrite Hrow, H. simpl. by apply lookup_insert_ne. }
  split.
  { intros other Ho. by apply lookup_insert_ne. }
  rewrite (toggle_employee_status_run _ _ _ Hrow). cbv zeta. cbn [fst snd].
  rewrite Hnext. split; [done|].
  rewrite insert_insert_eq. unfold employee'. rewrite insert_insert_eq.
  set (back := if was_active then "actif" else "inactif").
  assert (Hiff : <[emp_id := <["status" := PyStr back]> employee]> employees = employees ↔
                 employee !! "status" = Some (PyStr back)).
  { split.
    - intros Heq. assert (Hl : <[emp_id := <["status" := PyStr back]> employee]> employees
                                 !! emp_id = Some employee) by (by rewrite Heq).
      rewrite lookup_insert_eq in Hl. injection Hl as Hl.
      rewrite <- Hl at 1. apply lookup_insert_eq.
    - intros Hs. rewrite (insert_id employee) by done. by apply insert_id. }
  rewrite Hiff. unfold back, was_active.
  destruct (decide (column employee "status" = PyStr "actif")) as [Hd|Hd].
  - rewrite bool_decide_eq_true_2 by done. split; [by left|]. intros _.
    unfold column in Hd. destruct (employee !! "status") as [v|]; simpl in Hd; by subst.
  - rewrite bool_decide_eq_false_2 by done. split; [by right|].
    intros [Hs|Hs]; [|done]. exfalso. apply Hd. unfold column. by rewrite Hs.
Qed.
